(** * RTRWH-AR: the rainwater-harvesting calculation engine

    A shallow embedding of [CalculationEngine] (the calculation service of the
    server) together with the parts of [shared/schema.ts] it computes on, and
    the properties stated for it in the specification.

    Number model.  The engine is embedded twice.

    In the first embedding a JavaScript number is modelled by its exact
    value: finite values are rationals ([Q]), and the three non-finite values
    a division by zero can produce are kept apart ([JS.number]).  Values that
    the code obtains from [Math.round], or from [Math.min]/[Math.max] of such
    values, are integers and live in [Z].  [Math.PI] is the rational value of
    the double constant the engine reads, and the square root of a rational
    is kept symbolic ([JS.root]) until [Math.ceil] or [toFixed] turns it into
    a rational again.  Binary rounding, overflow to infinity by magnitude
    and the sign of zero are outside this embedding.  It carries the
    properties that do not depend on how the arithmetic rounds: the shape of
    the result, the resolution of the city, the score and the messages, the
    two modes, the order of the cost tiers, the store of submissions.

    In the second embedding ([Module Double]) every number is an IEEE 754
    binary64 value ([spec_float] of the Standard Library with a mantissa of
    53 bits), with its two zeros, its infinities and NaN, and every
    operation rounds as the program's does, in the order in which the source
    writes it.  It carries the formulas of the potential, of the coverage,
    of the savings and the payback period and of the recharge system, whose
    values depend on that rounding. *)

From Stdlib Require Import ZArith QArith Qround Qminmax Qabs.
From Stdlib Require Import Lia Lqa List String Ascii Bool.
From Stdlib Require Import Permutation Sorted.
From Stdlib Require Import SpecFloat.
Import ListNotations.

Open Scope Q_scope.

(* ================================================================= *)
(** ** JavaScript numbers, [Math] and string methods *)

Module JS.

(** A value of type [number] that may be non-finite. *)
Inductive number : Type :=
| Fin (q : Q)
| PInf
| NInf
| NaN.

(** [x > y] on finite numbers. *)
Definition Qgtb (x y : Q) : bool := negb (Qle_bool x y).

(** [x < y] on finite numbers. *)
Definition Qltb (x y : Q) : bool := negb (Qle_bool y x).

(** Sign of a number: [Gt] positive, [Lt] negative, [Eq] zero; [None] for NaN. *)
Definition sign (x : number) : option comparison :=
  match x with
  | Fin q => Some (q ?= 0)
  | PInf => Some Gt
  | NInf => Some Lt
  | NaN => None
  end.

(** The infinity of a given sign; the sign [Eq] stands for the products and
    quotients that IEEE arithmetic leaves undefined. *)
Definition infinity (s : comparison) : number :=
  match s with
  | Gt => PInf
  | Lt => NInf
  | Eq => NaN
  end.

Definition sign_mul (s t : comparison) : comparison :=
  match s, t with
  | Eq, _ | _, Eq => Eq
  | Gt, Gt | Lt, Lt => Gt
  | Gt, Lt | Lt, Gt => Lt
  end.

(** [a / b] on finite operands: the quotient, or an infinity when only the
    divisor is zero, or NaN for [0 / 0]. *)
Definition div (a b : Q) : number :=
  if Qeq_bool b 0 then infinity (a ?= 0) else Fin (a / b).

(** [x * y]. *)
Definition mul (x y : number) : number :=
  match x, y with
  | Fin a, Fin b => Fin (a * b)
  | _, _ =>
      match sign x, sign y with
      | Some s, Some t => infinity (sign_mul s t)
      | _, _ => NaN
      end
  end.

(** [x > y]; false as soon as one side is NaN. *)
Definition gtb (x y : number) : bool :=
  match x, y with
  | NaN, _ | _, NaN => false
  | Fin a, Fin b => Qgtb a b
  | PInf, (Fin _ | NInf) => true
  | Fin _, NInf => true
  | _, _ => false
  end.

(** [Math.round] on a finite number: the nearest integer, a tie going up. *)
Definition Math_round (x : Q) : Z := Qfloor (x + 0.5).

(** [Math.round] on a number that may be non-finite. *)
Definition Math_round_number (x : number) : number :=
  match x with
  | Fin q => Fin (inject_Z (Math_round q))
  | _ => x
  end.

(** [Math.min(x, y)]: NaN when an argument is NaN. *)
Definition Math_min (x y : number) : number :=
  match x, y with
  | NaN, _ | _, NaN => NaN
  | Fin a, Fin b => Fin (Qmin a b)
  | NInf, _ | _, NInf => NInf
  | PInf, _ => y
  | _, PInf => x
  end.

(** [Math.max(x, y)]: NaN when an argument is NaN. *)
Definition Math_max (x y : number) : number :=
  match x, y with
  | NaN, _ | _, NaN => NaN
  | Fin a, Fin b => Fin (Qmax a b)
  | PInf, _ | _, PInf => PInf
  | NInf, _ => y
  | _, NInf => x
  end.

(** [Math.PI], the double nearest to pi: 0x1.921fb54442d18p+1. *)
Definition Math_PI : Q := 884279719003555 # 281474976710656.

(** The value of [Math.sqrt]: [Root q] is the non-negative real whose square
    is [q], for [0 <= q]. *)
Inductive root : Type :=
| Root (q : Q)
| RootInf
| RootNaN.

(** [Math.sqrt(x)]. *)
Definition Math_sqrt (x : number) : root :=
  match x with
  | Fin q => if Qle_bool 0 q then Root q else RootNaN
  | PInf => RootInf
  | NInf | NaN => RootNaN
  end.

(** [Math.ceil] of a square root: the least integer [n >= 0] with
    [q <= n * n]. *)
Definition Math_ceil (r : root) : number :=
  match r with
  | Root q => Fin (inject_Z (Z.sqrt_up (Qceiling q)))
  | RootInf => PInf
  | RootNaN => NaN
  end.

(** [Number(r.toFixed(1))] of a square root: [n / 10] for the integer [n]
    nearest to ten times the root, the larger one on a tie.  [n] is the
    greatest integer with [2 n - 1 <= sqrt (400 q)]. *)
Definition toFixed1 (r : root) : number :=
  match r with
  | Root q => Fin (inject_Z ((Z.sqrt (Qfloor (400 * q)) + 1) / 2) / 10)
  | RootInf => PInf
  | RootNaN => NaN
  end.

(** [c.toLowerCase()] on one character; letters outside ASCII are left as
    they are. *)
Definition lower_ascii (c : ascii) : ascii :=
  let n := nat_of_ascii c in
  if (65 <=? n)%nat && (n <=? 90)%nat then ascii_of_nat (n + 32) else c.

(** [s.toLowerCase()]. *)
Fixpoint toLowerCase (s : string) : string :=
  match s with
  | EmptyString => EmptyString
  | String c s' => String (lower_ascii c) (toLowerCase s')
  end.

(** [s.startsWith(p)]. *)
Definition startsWith (s p : string) : bool := String.prefix p s.

(** [s.includes(sub)]. *)
Fixpoint includes (s sub : string) : bool :=
  String.prefix sub s
  || match s with
     | EmptyString => false
     | String _ s' => includes s' sub
     end.

(** [s.substring(0, n)]. *)
Definition substring0 (n : nat) (s : string) : string := String.substring 0 n s.

(** [l.slice(a, b)] for [0 <= a <= b]. *)
Definition slice {A : Type} (a b : nat) (l : list A) : list A :=
  firstn (b - a) (skipn a l).

(** [x || y] on values that are either an object or undefined. *)
Definition or_else {A : Type} (x y : option A) : option A :=
  match x with
  | Some _ => x
  | None => y
  end.

(** The outcome of a call that may throw. *)
Inductive outcome (A : Type) : Type :=
| Return (a : A)
| Throw (message : string).

Arguments Return {A} a.
Arguments Throw {A} message.

End JS.

(* ================================================================= *)
(** ** The data model of [shared/schema.ts] *)

Module RoofType.
Inductive t : Type := RCC | GI | Asbestos | Tiles.
Definition name (r : t) : string :=
  match r with
  | RCC => "RCC"
  | GI => "GI"
  | Asbestos => "Asbestos"
  | Tiles => "Tiles"
  end.
End RoofType.

Module Environment.
Inductive t : Type := Residential | Industrial | Agricultural.
End Environment.

Module Purpose.
Inductive t : Type := Domestic | Irrigation | Industrial.
End Purpose.

Module SoilType.
Inductive t : Type := Sandy | Loamy | Clayey.
End SoilType.

Module Budget.
Inductive t : Type := Low | Medium | High.
End Budget.

Module Level.
Inductive t : Type := High | Medium | Low.
End Level.

Module AquiferType.
Inductive t : Type := Alluvial | HardRock | Coastal | Desert.
End AquiferType.

Module Region.
Inductive t : Type := North | South | East | West | Central | Northeast.
End Region.

Module CalculationType.
Inductive t : Type := rainwater | recharge.
Definition is_recharge (c : t) : bool :=
  match c with
  | recharge => true
  | rainwater => false
  end.
End CalculationType.

(** [userInputSchema]. *)
Record UserInput : Type := {
  name : string;
  location : string;
  pincode : string;
  roofArea : Q;
  roofType : RoofType.t;
  environment : Environment.t;
  birdNesting : bool;
  dwellers : Q;
  purpose : Purpose.t;
  hasOpenSpace : bool;
  openSpaceArea : option Q;
  groundwaterDepth : Q;
  soilType : SoilType.t;
  budget : Budget.t
}.

(** [cityDataSchema]. *)
Record CityData : Type := {
  city : string;
  state : string;
  city_pincode : string;
  monthlyRainfall : list Q;
  annualRainfall : Q;
  city_groundwaterDepth : Q;
  aquiferType : AquiferType.t;
  region : Region.t
}.

(** [coefficientsSchema]; an object with one number per member of an
    enumeration is a function on the enumeration. *)
Record CostFactors : Type := {
  baseCostPerSqm : Q;
  budgetMultipliers : Budget.t -> Q
}.

Record WaterRates : Type := {
  municipalRate : Q;
  domesticConsumption : Q
}.

Record Coefficients : Type := {
  runoffCoefficients : RoofType.t -> Q;
  infiltrationRates : SoilType.t -> Q;
  costFactors : CostFactors;
  waterRates : WaterRates
}.

Record TankDimensions : Type := {
  diameter : JS.number;
  height : Q
}.

Record PitDimensions : Type := {
  length : JS.number;
  width : JS.number;
  depth : Q
}.

Record SystemCost : Type := {
  low : Z;
  medium : Z;
  high : Z
}.

(** [calculationResultsSchema]; the two optional fields are [None] when the
    key is absent from the result object. *)
Record CalculationResults : Type := {
  rainwaterPotential : Z;
  monthlyPotential : list Z;
  householdDemand : Z;
  coveragePercentage : JS.number;
  firstFlush : Z;
  tankCapacity : Z;
  tankDimensions : TankDimensions;
  rechargeVolume : option Z;
  pitDimensions : option PitDimensions;
  systemCost : SystemCost;
  annualSavings : Z;
  paybackPeriod : Z;
  feasibilityScore : Z;
  feasibilityLevel : Level.t;
  recommendations : list string;
  warnings : list string
}.

(* ================================================================= *)
(** ** [CalculationEngine] *)

(** The accumulator of [calculateFeasibility]: the running score and the two
    arrays the function pushes onto. *)
Record Tally : Type := {
  score : Z;
  tally_recommendations : list string;
  tally_warnings : list string
}.

(** [score += n; recommendations.push(s)]. *)
Definition recommend (n : Z) (s : string) (t : Tally) : Tally :=
  {| score := score t + n;
     tally_recommendations := tally_recommendations t ++ [s];
     tally_warnings := tally_warnings t |}.

(** [score += n; warnings.push(s)]. *)
Definition warn (n : Z) (s : string) (t : Tally) : Tally :=
  {| score := score t + n;
     tally_recommendations := tally_recommendations t;
     tally_warnings := tally_warnings t ++ [s] |}.

(** [if (c) f]. *)
Definition when (c : bool) (f : Tally -> Tally) (t : Tally) : Tally :=
  if c then f t else t.

(** The record returned by [calculateRainwaterPotential]. *)
Record Potential : Type := {
  annual : Z;
  monthly : list Z
}.

(** The record returned by [calculateStorageTank]. *)
Record StorageTank : Type := {
  capacity : Z;
  dimensions : TankDimensions
}.

(** The record returned by [calculateRechargeSystem]. *)
Record RechargeSystem : Type := {
  recharge_rechargeVolume : Z;
  recharge_pitDimensions : PitDimensions
}.

(** The record returned by [calculateCosts]. *)
Record Costs : Type := {
  costs_systemCost : SystemCost;
  costs_annualSavings : Z;
  costs_paybackPeriod : Z
}.

(** The record returned by [calculateFeasibility]. *)
Record Feasibility : Type := {
  feas_feasibilityScore : Z;
  feas_feasibilityLevel : Level.t;
  feas_recommendations : list string;
  feas_warnings : list string
}.

Section CalculationEngine.

(** The static data the module loads: [data/cities.json] and
    [data/coefficients.json]. *)
Variable cities : list CityData.
Variable coefficients : Coefficients.

(** [findCityData]: by pincode, else by name, else Delhi, else the first
    entry of the table. *)
Definition findCityData (location pincode : string) : option CityData :=
  let cityData :=
    find (fun c => JS.startsWith (city_pincode c) (JS.substring0 3 pincode)) cities in
  let cityData :=
    match cityData with
    | Some _ => cityData
    | None =>
        let locationLower := JS.toLowerCase location in
        find (fun c =>
                JS.includes (JS.toLowerCase (city c)) locationLower
                || JS.includes locationLower (JS.toLowerCase (city c))
                || JS.includes (JS.toLowerCase (state c)) locationLower)
             cities
    end in
  JS.or_else cityData
    (JS.or_else (find (fun c => String.eqb (city c) "Delhi") cities)
                (nth_error cities 0)).

(** [calculateRainwaterPotential]. *)
Definition calculateRainwaterPotential (userInput : UserInput) (cityData : CityData)
  : Potential :=
  let runoffCoeff := runoffCoefficients coefficients (roofType userInput) in
  let monthlyPotential :=
    map (fun rainfall => JS.Math_round (roofArea userInput * rainfall * runoffCoeff))
        (monthlyRainfall cityData) in
  let annualPotential := fold_left (fun sum month => (sum + month)%Z) monthlyPotential 0%Z in
  {| annual := annualPotential; monthly := monthlyPotential |}.

(** [calculateHouseholdDemand]. *)
Definition calculateHouseholdDemand (userInput : UserInput) : Z :=
  let dailyConsumption := domesticConsumption (waterRates coefficients) in
  let adjustmentFactor := 1.0 in
  let adjustmentFactor :=
    match purpose userInput with Purpose.Irrigation => 1.5 | _ => adjustmentFactor end in
  let adjustmentFactor :=
    match purpose userInput with Purpose.Industrial => 2.0 | _ => adjustmentFactor end in
  JS.Math_round (dwellers userInput * dailyConsumption * 365 * adjustmentFactor).

(** [calculateStorageTank]. *)
Definition calculateStorageTank (rainwaterPotential : Z) (monthlyPotential : list Z)
  (householdDemand : Z) : StorageTank :=
  let demandBasedCapacity := JS.Math_round ((inject_Z householdDemand / 365) * 35) in
  let potentialBasedCapacity := JS.Math_round (inject_Z rainwaterPotential * 0.2) in
  let tankCapacity := Z.min (Z.min demandBasedCapacity potentialBasedCapacity) 15000 in
  let tankHeight := 2.0 in
  let tankVolume := inject_Z tankCapacity / 1000 in
  let tankDiameter :=
    JS.Math_sqrt (JS.Fin ((tankVolume * 4) / (JS.Math_PI * tankHeight))) in
  {| capacity := Z.max tankCapacity 2000;
     dimensions := {| diameter := JS.toFixed1 tankDiameter; height := tankHeight |} |}.

(** [calculateRechargeSystem]. *)
Definition calculateRechargeSystem (userInput : UserInput) (rainwaterPotential : Z)
  (cityData : CityData) : RechargeSystem :=
  let infiltrationRate := infiltrationRates coefficients (soilType userInput) in
  let rechargeFactor := 0.7 in
  let rechargeFactor :=
    match soilType userInput with SoilType.Sandy => 0.9 | _ => rechargeFactor end in
  let rechargeFactor :=
    match soilType userInput with SoilType.Loamy => 0.8 | _ => rechargeFactor end in
  let rechargeVolume :=
    JS.Math_round ((inject_Z rainwaterPotential / 1000) * rechargeFactor) in
  let dailyInflowRate := inject_Z rainwaterPotential / 120 in
  let operatingHours := 8 in
  let infiltrationRateMs := infiltrationRate / 1000 in
  let minPitArea :=
    JS.Math_max (JS.Fin 9)
      (JS.div dailyInflowRate (infiltrationRateMs * operatingHours * 1000)) in
  let maxDepth := Qmin 4 (Qmax 2 (groundwaterDepth userInput * 0.3)) in
  let storageBasedArea := (inject_Z rechargeVolume * 1.2) / maxDepth in
  let requiredArea := JS.Math_max minPitArea (JS.Fin storageBasedArea) in
  let pitSide := JS.Math_ceil (JS.Math_sqrt requiredArea) in
  {| recharge_rechargeVolume := rechargeVolume;
     recharge_pitDimensions :=
       {| length := JS.Math_max pitSide (JS.Fin 3);
          width := JS.Math_max pitSide (JS.Fin 3);
          depth := maxDepth |} |}.

(** [calculateCosts]. *)
Definition calculateCosts (userInput : UserInput) (tankCapacity : Z) (hasRecharge : bool)
  : Costs :=
  let baseCost := roofArea userInput * baseCostPerSqm (costFactors coefficients) in
  let tankCost := inject_Z tankCapacity * 0.8 in
  let rechargeCost := if hasRecharge then roofArea userInput * 150 else 0 in
  let totalBaseCost := baseCost + tankCost + rechargeCost in
  let multipliers := budgetMultipliers (costFactors coefficients) in
  let systemCost :=
    {| low := JS.Math_round (totalBaseCost * multipliers Budget.Low);
       medium := JS.Math_round (totalBaseCost * multipliers Budget.Medium);
       high := JS.Math_round (totalBaseCost * multipliers Budget.High) |} in
  let householdDemand := calculateHouseholdDemand userInput in
  let municipalRate := municipalRate (waterRates coefficients) in
  let maxSavableWater := Z.min householdDemand (tankCapacity * 10) in
  let annualSavings := JS.Math_round (inject_Z maxSavableWater * municipalRate) in
  let paybackPeriod :=
    JS.Math_round (inject_Z (medium systemCost) / inject_Z (Z.max annualSavings 1)) in
  {| costs_systemCost := systemCost;
     costs_annualSavings := annualSavings;
     costs_paybackPeriod := Z.min paybackPeriod 20 |}.

(** The blocks of [calculateFeasibility], one definition per commented block
    of the source; each takes the score and the two arrays as they are when
    the block starts. *)

(** Rainfall adequacy (0-25 points). *)
Definition rainfallAdequacy (cityData : CityData) (t : Tally) : Tally :=
  if JS.Qgtb (annualRainfall cityData) 1000 then
    recommend 25 "Excellent rainfall - consider larger storage capacity" t
  else if JS.Qgtb (annualRainfall cityData) 600 then
    recommend 15 "Good rainfall - standard system recommended" t
  else
    warn 5 "Low rainfall area - consider supplementary water sources" t.

(** Roof suitability (0-20 points). *)
Definition roofSuitability (userInput : UserInput) (t : Tally) : Tally :=
  match roofType userInput with
  | RoofType.RCC | RoofType.GI =>
      recommend 20
        (RoofType.name (roofType userInput)
         ++ " roof is excellent for rainwater harvesting") t
  | RoofType.Tiles =>
      recommend 15 "Clay/concrete tiles are suitable with proper first flush diverter" t
  | RoofType.Asbestos =>
      warn 10 "Asbestos roofs require regular cleaning and filtration" t
  end.

(** Soil conditions (0-15 points). *)
Definition soilConditions (userInput : UserInput) (t : Tally) : Tally :=
  match soilType userInput with
  | SoilType.Sandy => recommend 15 "Sandy soil is ideal for groundwater recharge" t
  | SoilType.Loamy => recommend 10 "Loamy soil provides good infiltration for recharge" t
  | SoilType.Clayey => recommend 5 "Clayey soil requires larger recharge structures" t
  end.

(** Groundwater depth (0-15 points). *)
Definition groundwaterBand (userInput : UserInput) (t : Tally) : Tally :=
  if JS.Qgtb (groundwaterDepth userInput) 3 && JS.Qltb (groundwaterDepth userInput) 30
  then recommend 15 "Optimal groundwater depth for recharge systems" t
  else if Qle_bool (groundwaterDepth userInput) 3 then
    warn 5 "Shallow groundwater - ensure proper drainage to prevent waterlogging" t
  else
    warn 10 "Deep groundwater - recharge benefits may take longer to realize" t.

(** Coverage analysis (0-10 points). *)
Definition coverageAnalysis (rainwaterPotential householdDemand : Z) (t : Tally) : Tally :=
  let coverage :=
    JS.mul (JS.div (inject_Z rainwaterPotential) (inject_Z householdDemand))
           (JS.Fin 100) in
  if JS.gtb coverage (JS.Fin 80) then
    recommend 10 "Excellent coverage - consider selling excess water or larger recharge" t
  else if JS.gtb coverage (JS.Fin 50) then
    recommend 7 "Good coverage - system will significantly reduce water bills" t
  else
    recommend 3 "Partial coverage - combine with water conservation measures" t.

(** Environmental factors. *)
Definition environmentalFactors (userInput : UserInput) (t : Tally) : Tally :=
  let t :=
    when (birdNesting userInput)
      (warn 0 "Bird nesting detected - install mesh covers and regular cleaning required")
      t in
  when (match environment userInput with Environment.Industrial => true | _ => false end)
    (warn 0 "Industrial area - test water quality regularly and use appropriate filtration")
    t.

(** Monsoon dependency check. *)
Definition monsoonDependency (cityData : CityData) (t : Tally) : Tally :=
  let monsoonMonths := JS.slice 5 9 (monthlyRainfall cityData) in
  let monsoonRainfall := fold_left (fun sum month => sum + month) monsoonMonths 0 in
  when (JS.gtb (JS.div monsoonRainfall (annualRainfall cityData)) (JS.Fin 0.7))
    (warn 0 "High monsoon dependency - 70%+ rainfall in 4 months") t.

(** Standard recommendations. *)
Definition standardRecommendations (userInput : UserInput) (t : Tally) : Tally :=
  let t := recommend 0 "Install first flush diverter to improve water quality" t in
  let t :=
    when (match purpose userInput with Purpose.Domestic => true | _ => false end)
      (recommend 0 "Consider UV/RO purification for drinking water use") t in
  when (hasOpenSpace userInput)
    (recommend 0 "Connect overflow to recharge pit for maximum benefit") t.

(** The score and the two arrays of [calculateFeasibility] once all its
    blocks have run, in the order of the source. *)
Definition feasibilityTally (userInput : UserInput) (cityData : CityData)
  (rainwaterPotential householdDemand : Z) : Tally :=
  let t := {| score := 50; tally_recommendations := []; tally_warnings := [] |} in
  let t := rainfallAdequacy cityData t in
  let t := roofSuitability userInput t in
  let t := soilConditions userInput t in
  let t := groundwaterBand userInput t in
  let t := coverageAnalysis rainwaterPotential householdDemand t in
  let t := environmentalFactors userInput t in
  let t := monsoonDependency cityData t in
  standardRecommendations userInput t.

(** [calculateFeasibility]. *)
Definition calculateFeasibility (userInput : UserInput) (cityData : CityData)
  (rainwaterPotential householdDemand : Z) : Feasibility :=
  let t := feasibilityTally userInput cityData rainwaterPotential householdDemand in
  let feasibilityLevel :=
    if (80 <=? score t)%Z then Level.High
    else if (60 <=? score t)%Z then Level.Medium
    else Level.Low in
  {| feas_feasibilityScore := Z.min 100 (score t);
     feas_feasibilityLevel := feasibilityLevel;
     feas_recommendations := tally_recommendations t;
     feas_warnings := tally_warnings t |}.

(** [results.rechargeVolume = v; results.pitDimensions = p]. *)
Definition set_recharge (results : CalculationResults) (v : Z) (p : PitDimensions)
  : CalculationResults :=
  {| rainwaterPotential := rainwaterPotential results;
     monthlyPotential := monthlyPotential results;
     householdDemand := householdDemand results;
     coveragePercentage := coveragePercentage results;
     firstFlush := firstFlush results;
     tankCapacity := tankCapacity results;
     tankDimensions := tankDimensions results;
     rechargeVolume := Some v;
     pitDimensions := Some p;
     systemCost := systemCost results;
     annualSavings := annualSavings results;
     paybackPeriod := paybackPeriod results;
     feasibilityScore := feasibilityScore results;
     feasibilityLevel := feasibilityLevel results;
     recommendations := recommendations results;
     warnings := warnings results |}.

(** [calculate], the main calculation function. *)
Definition calculate (userInput : UserInput) (calculationType : CalculationType.t)
  : JS.outcome CalculationResults :=
  match findCityData (location userInput) (pincode userInput) with
  | None =>
      JS.Throw ("City data not found for " ++ location userInput ++ ", "
                ++ pincode userInput)
  | Some cityData =>
      (* Core calculations *)
      let potential := calculateRainwaterPotential userInput cityData in
      let rainwaterPotential := annual potential in
      let monthlyPotential := monthly potential in
      let householdDemand := calculateHouseholdDemand userInput in
      let coveragePercentage :=
        JS.Math_min (JS.Fin 100)
          (JS.Math_round_number
             (JS.mul (JS.div (inject_Z rainwaterPotential) (inject_Z householdDemand))
                     (JS.Fin 100))) in
      let firstFlush := JS.Math_round (roofArea userInput * 2) in
      (* Storage system *)
      let tank := calculateStorageTank rainwaterPotential monthlyPotential householdDemand in
      let tankCapacity := capacity tank in
      (* Cost analysis *)
      let costs :=
        calculateCosts userInput tankCapacity
          (CalculationType.is_recharge calculationType) in
      (* Feasibility analysis *)
      let feasibility :=
        calculateFeasibility userInput cityData rainwaterPotential householdDemand in
      (* Base results *)
      let results :=
        {| rainwaterPotential := rainwaterPotential;
           monthlyPotential := monthlyPotential;
           householdDemand := householdDemand;
           coveragePercentage := coveragePercentage;
           firstFlush := firstFlush;
           tankCapacity := tankCapacity;
           tankDimensions := dimensions tank;
           rechargeVolume := None;
           pitDimensions := None;
           systemCost := costs_systemCost costs;
           annualSavings := costs_annualSavings costs;
           paybackPeriod := costs_paybackPeriod costs;
           feasibilityScore := feas_feasibilityScore feasibility;
           feasibilityLevel := feas_feasibilityLevel feasibility;
           recommendations := feas_recommendations feasibility;
           warnings := feas_warnings feasibility |} in
      (* Add recharge calculations if needed *)
      let results :=
        if CalculationType.is_recharge calculationType then
          let recharge := calculateRechargeSystem userInput rainwaterPotential cityData in
          set_recharge results (recharge_rechargeVolume recharge)
            (recharge_pitDimensions recharge)
        else results in
      JS.Return results
  end.

End CalculationEngine.

(* ================================================================= *)
(** ** Sample static data

    Small tables of the shape of [cities.json] and [coefficients.json], used
    to run the engine on concrete inputs. *)

Module Sample.

Definition coefficients : Coefficients :=
  {| runoffCoefficients := fun r =>
       match r with
       | RoofType.RCC => 0.8
       | RoofType.GI => 0.9
       | RoofType.Asbestos => 0.7
       | RoofType.Tiles => 0.75
       end;
     infiltrationRates := fun s =>
       match s with
       | SoilType.Sandy => 25
       | SoilType.Loamy => 12
       | SoilType.Clayey => 2
       end;
     costFactors :=
       {| baseCostPerSqm := 150;
          budgetMultipliers := fun b =>
            match b with
            | Budget.Low => 0.8
            | Budget.Medium => 1.0
            | Budget.High => 1.4
            end |};
     waterRates := {| municipalRate := 0.05; domesticConsumption := 135 |} |}.

Definition delhi : CityData :=
  {| city := "Delhi";
     state := "Delhi";
     city_pincode := "110001";
     monthlyRainfall := [19; 22; 17; 9; 30; 65; 210; 250; 125; 15; 7; 9];
     annualRainfall := 778;
     city_groundwaterDepth := 20;
     aquiferType := AquiferType.Alluvial;
     region := Region.North |}.

Definition mumbai : CityData :=
  {| city := "Mumbai";
     state := "Maharashtra";
     city_pincode := "400001";
     monthlyRainfall := [1; 1; 0; 1; 12; 500; 840; 585; 340; 90; 13; 3];
     annualRainfall := 2386;
     city_groundwaterDepth := 8;
     aquiferType := AquiferType.Coastal;
     region := Region.West |}.

Definition jaisalmer : CityData :=
  {| city := "Jaisalmer";
     state := "Rajasthan";
     city_pincode := "345001";
     monthlyRainfall := [2; 2; 3; 2; 6; 20; 60; 70; 25; 5; 3; 2];
     annualRainfall := 200;
     city_groundwaterDepth := 40;
     aquiferType := AquiferType.Desert;
     region := Region.West |}.

Definition cities : list CityData := [mumbai; delhi; jaisalmer].

(** A household of four under a 100 m2 RCC roof in Mumbai. *)
Definition household : UserInput :=
  {| name := "Asha";
     location := "Mumbai";
     pincode := "400050";
     roofArea := 100;
     roofType := RoofType.RCC;
     environment := Environment.Residential;
     birdNesting := false;
     dwellers := 4;
     purpose := Purpose.Domestic;
     hasOpenSpace := true;
     openSpaceArea := Some 20;
     groundwaterDepth := 8;
     soilType := SoilType.Loamy;
     budget := Budget.Medium |}.

(** One person under a 10 m2 roof in Delhi: the annual potential is small. *)
Definition smallRoof : UserInput :=
  {| name := "Ravi";
     location := "New Delhi";
     pincode := "110020";
     roofArea := 10;
     roofType := RoofType.RCC;
     environment := Environment.Residential;
     birdNesting := false;
     dwellers := 1;
     purpose := Purpose.Domestic;
     hasOpenSpace := false;
     openSpaceArea := None;
     groundwaterDepth := 20;
     soilType := SoilType.Clayey;
     budget := Budget.Low |}.

(** One person under a 100 m2 tiled roof in Mumbai: the potential exceeds
    the demand. *)
Definition bungalow : UserInput :=
  {| name := "Iqbal";
     location := "Mumbai";
     pincode := "400001";
     roofArea := 100;
     roofType := RoofType.Tiles;
     environment := Environment.Industrial;
     birdNesting := false;
     dwellers := 1;
     purpose := Purpose.Domestic;
     hasOpenSpace := true;
     openSpaceArea := None;
     groundwaterDepth := 35;
     soilType := SoilType.Sandy;
     budget := Budget.High |}.

(** The same house with nobody living in it: the demand is zero. *)
Definition vacant : UserInput :=
  {| name := "Iqbal";
     location := "Mumbai";
     pincode := "400001";
     roofArea := 100;
     roofType := RoofType.Tiles;
     environment := Environment.Industrial;
     birdNesting := false;
     dwellers := 0;
     purpose := Purpose.Domestic;
     hasOpenSpace := true;
     openSpaceArea := None;
     groundwaterDepth := 35;
     soilType := SoilType.Sandy;
     budget := Budget.High |}.

(** Five people under a 20 m2 asbestos roof in Jaisalmer, on clay over
    shallow groundwater. *)
Definition shed : UserInput :=
  {| name := "Meera";
     location := "Jaisalmer";
     pincode := "345001";
     roofArea := 20;
     roofType := RoofType.Asbestos;
     environment := Environment.Agricultural;
     birdNesting := true;
     dwellers := 5;
     purpose := Purpose.Irrigation;
     hasOpenSpace := false;
     openSpaceArea := None;
     groundwaterDepth := 2;
     soilType := SoilType.Clayey;
     budget := Budget.Low |}.

End Sample.

(* ================================================================= *)
(** ** The formulas of the specification

    Each definition below is written from the wording of the specification,
    to be compared with the result the engine computes. *)

Module Spec.

(** Section 4.4: the minimum of 35 days of household demand, 20% of the
    annual potential and the ceiling of 15000 liters, floored at 2000. *)
Definition tankCapacity (householdDemand rainwaterPotential : Z) : Z :=
  Z.max
    (Z.min (Z.min (JS.Math_round (inject_Z householdDemand / 365 * 35))
                  (JS.Math_round (0.2 * inject_Z rainwaterPotential)))
           15000)
    2000.

(** Section 4.4: the diameter [d], to one decimal, of the cylinder of height
    2 m whose volume [pi (d/2)^2 2] is the capacity in cubic meters, that is
    [d^2 = 4 v / (2 pi)]. *)
Definition tankDiameter (capacity : Z) : JS.number :=
  JS.toFixed1 (JS.Math_sqrt (JS.Fin (4 * (inject_Z capacity / 1000) / (2 * JS.Math_PI)))).

(** Section 4.7: High from 80, Medium from 60, else Low. *)
Definition level (score : Z) : Level.t :=
  if (score <? 60)%Z then Level.Low
  else if (score <? 80)%Z then Level.Medium
  else Level.High.

(** Section 4.2: the sum of the monthly values. *)
Fixpoint total (monthly : list Z) : Z :=
  match monthly with
  | [] => 0
  | m :: rest => m + total rest
  end.

(** Section 4.2: roof area x monthly rainfall x runoff coefficient, rounded. *)
Definition monthPotential (roofArea rainfall runoffCoeff : Q) : Z :=
  JS.Math_round (roofArea * rainfall * runoffCoeff).

(** Section 4.8: potential / demand as a percentage, capped at 100. *)
Definition coverage (rainwaterPotential householdDemand : Z) : Z :=
  Z.min 100
    (JS.Math_round (100 * inject_Z rainwaterPotential / inject_Z householdDemand)).

(** Section 4.6: savings on the water bill and the payback period. *)
Definition annualSavings (householdDemand tankCapacity : Z) (municipalRate : Q) : Z :=
  JS.Math_round (inject_Z (Z.min householdDemand (10 * tankCapacity)) * municipalRate).

Definition paybackPeriod (mediumCost annualSavings : Z) : Z :=
  Z.min (JS.Math_round (inject_Z mediumCost / inject_Z (Z.max annualSavings 1))) 20.

(** Section 4.5: the soil-dependent share of the potential that is recharged. *)
Definition rechargeFactor (soil : SoilType.t) : Q :=
  match soil with
  | SoilType.Clayey => 0.7
  | SoilType.Loamy => 0.8
  | SoilType.Sandy => 0.9
  end.

Definition rechargeVolume (rainwaterPotential : Z) (soil : SoilType.t) : Z :=
  JS.Math_round (inject_Z rainwaterPotential / 1000 * rechargeFactor soil).

(** Section 4.1: the three ways a table entry can be selected. *)
Definition matchesPincode (pincode : string) (c : CityData) : bool :=
  String.prefix (String.substring 0 3 pincode) (city_pincode c).

Definition matchesName (location : string) (c : CityData) : bool :=
  let l := JS.toLowerCase location in
  JS.includes (JS.toLowerCase (city c)) l
  || JS.includes l (JS.toLowerCase (city c))
  || JS.includes (JS.toLowerCase (state c)) l.

Definition isDelhi (c : CityData) : bool := String.eqb (city c) "Delhi".

End Spec.

(* ================================================================= *)
(** ** Equality of numbers *)

(** Two numbers with the same value. *)
Definition sameNumber (x y : JS.number) : Prop :=
  match x, y with
  | JS.Fin a, JS.Fin b => a == b
  | JS.PInf, JS.PInf | JS.NInf, JS.NInf | JS.NaN, JS.NaN => True
  | _, _ => False
  end.

(* ================================================================= *)
(** ** [MemStorage] of [server/storage.ts]

    The methods are [async] but await nothing: each is modelled by the value
    its promise resolves to, with the state of the store passed explicitly.
    [randomUUID()] and [new Date()] are arguments of [saveSubmission]; a date
    is its [getTime()], in milliseconds. *)

Module Storage.

Record UserSubmission : Type := {
  id : string;
  userInputs : UserInput;
  calculationType : CalculationType.t;
  results : CalculationResults;
  createdAt : Z
}.

(** A [Map<string, UserSubmission>]: the entries in insertion order, one per
    key. *)
Definition SubmissionMap : Type := list (string * UserSubmission).

(** [m.set(k, v)]: the value of an existing key is replaced where it stands,
    a new key goes to the end. *)
Fixpoint map_set (k : string) (v : UserSubmission) (m : SubmissionMap) : SubmissionMap :=
  match m with
  | [] => [(k, v)]
  | (k', v') :: rest =>
      if String.eqb k' k then (k, v) :: rest else (k', v') :: map_set k v rest
  end.

(** [m.get(k)]. *)
Fixpoint map_get (k : string) (m : SubmissionMap) : option UserSubmission :=
  match m with
  | [] => None
  | (k', v') :: rest => if String.eqb k' k then Some v' else map_get k rest
  end.

(** [Array.from(m.values())]. *)
Definition map_values (m : SubmissionMap) : list UserSubmission := map snd m.

(** The state of a [MemStorage]: its private map. *)
Record MemStorage : Type := {
  submissions : SubmissionMap
}.

(** [new MemStorage()]. *)
Definition create : MemStorage := {| submissions := [] |}.

(** [saveSubmission]: the store afterwards and the submission returned. *)
Definition saveSubmission (this : MemStorage) (uuid : string) (now : Z)
  (userInputs : UserInput) (calculationType : CalculationType.t)
  (results : CalculationResults) : MemStorage * UserSubmission :=
  let id := uuid in
  let submission :=
    {| id := id;
       userInputs := userInputs;
       calculationType := calculationType;
       results := results;
       createdAt := now |} in
  ({| submissions := map_set id submission (submissions this) |}, submission).

(** [getSubmission]. *)
Definition getSubmission (this : MemStorage) (id : string) : option UserSubmission :=
  map_get id (submissions this).

(** One step of a stable sort with the comparator
    [(a, b) => b.createdAt.getTime() - a.createdAt.getTime()]: [x], which
    stood before every element of [l], goes before the first element that is
    not strictly newer. *)
Fixpoint insert_newest_first (x : UserSubmission) (l : list UserSubmission)
  : list UserSubmission :=
  match l with
  | [] => [x]
  | y :: rest =>
      if (createdAt y - createdAt x >? 0)%Z then y :: insert_newest_first x rest
      else x :: y :: rest
  end.

(** [l.sort((a, b) => b.createdAt.getTime() - a.createdAt.getTime())]; the
    sort of an array is stable. *)
Definition sort_newest_first (l : list UserSubmission) : list UserSubmission :=
  fold_right insert_newest_first [] l.

(** [l.slice(0, limit)] for an integer [limit]; a negative limit counts from
    the end. *)
Definition slice0 {A : Type} (limit : Z) (l : list A) : list A :=
  if (0 <=? limit)%Z then firstn (Z.to_nat limit) l
  else firstn (List.length l - Z.to_nat (- limit)) l.

(** [getRecentSubmissions(limit = 10)]. *)
Definition getRecentSubmissions (this : MemStorage) (limit : option Z)
  : list UserSubmission :=
  let limit := match limit with Some n => n | None => 10%Z end in
  slice0 limit (sort_newest_first (map_values (submissions this))).

End Storage.

Module StoredSample.

(** A result record and a store holding two submissions of it. *)
Definition report : CalculationResults :=
  {| rainwaterPotential := 6224;
     monthlyPotential := [152; 176; 136; 72; 240; 520; 1680; 2000; 1000; 120; 56; 72]%Z;
     householdDemand := 49275;
     coveragePercentage := JS.Fin 13;
     firstFlush := 20;
     tankCapacity := 2000;
     tankDimensions := {| diameter := JS.Fin 0.9; height := 2 |};
     rechargeVolume := None;
     pitDimensions := None;
     systemCost := {| low := 2480; medium := 3100; high := 4340 |};
     annualSavings := 1000;
     paybackPeriod := 3;
     feasibilityScore := 100;
     feasibilityLevel := Level.High;
     recommendations := ["Install first flush diverter to improve water quality"%string];
     warnings := [] |}.

Definition store : Storage.MemStorage :=
  fst (Storage.saveSubmission
         (fst (Storage.saveSubmission Storage.create "id-1" 1000 Sample.smallRoof
                 CalculationType.rainwater report))
         "id-2" 2000 Sample.smallRoof CalculationType.rainwater report).

End StoredSample.

(* ================================================================= *)
(** ** Double-precision numbers

    The numbers of the running program are IEEE 754 binary64 values.  They
    are modelled by [spec_float] with a 53-bit mantissa: [S754_finite s m e]
    is the number [(-1)^s * m * 2^e], the two zeros and the two infinities
    carry their sign, and the operations round to nearest, ties to even. *)

Module F64.

Definition prec : Z := 53.
Definition emax : Z := 1024.

Definition double : Type := spec_float.

Definition NaN : double := S754_nan.
Definition infinity : double := S754_infinity false.
Definition zero : double := S754_zero false.

(** The double nearest to an integer. *)
Definition of_Z (z : Z) : double := binary_normalize prec emax z 0 false.

(** The double nearest to [n / d], with the sign [s]. *)
Definition round_ratio (s : bool) (n d : positive) : double :=
  let '(mz, ez, lz) := SFdiv_core_binary prec emax (Zpos n) 0 (Zpos d) 0 in
  binary_round_aux prec emax s mz ez lz.

(** The value of a decimal literal, in the source or in a JSON document: the
    double nearest to the number it denotes. *)
Definition of_Q (q : Q) : double :=
  match Qnum q with
  | Z0 => S754_zero false
  | Zpos n => round_ratio false n (Qden q)
  | Zneg n => round_ratio true n (Qden q)
  end.

(** [x * y], [x / y], [x + y]. *)
Definition mul (x y : double) : double := SFmul prec emax x y.
Definition div (x y : double) : double := SFdiv prec emax x y.
Definition add (x y : double) : double := SFadd prec emax x y.

(** [x < y], [x <= y], [x > y]: false as soon as one side is NaN. *)
Definition ltb (x y : double) : bool := SFltb x y.
Definition leb (x y : double) : bool := SFleb x y.
Definition gtb (x y : double) : bool := SFltb y x.

(** The integer [m] or [-m]. *)
Definition signed (s : bool) (m : positive) : Z := if s then Zneg m else Zpos m.

(** [Math.round(x)]: the integer nearest to [x], the larger one on a tie;
    the result is a zero of the sign of [x] when that integer is zero. *)
Definition Math_round (x : double) : double :=
  match x with
  | S754_finite s m e =>
      if (0 <=? e)%Z then x
      else
        let n := Z.shiftr (signed s m + Z.shiftl 1 (- e - 1)) (- e) in
        if (n =? 0)%Z then S754_zero s else of_Z n
  | _ => x
  end.

(** [Math.ceil(x)]. *)
Definition Math_ceil (x : double) : double :=
  match x with
  | S754_finite s m e =>
      if (0 <=? e)%Z then x
      else
        let n := (- Z.shiftr (- signed s m) (- e))%Z in
        if (n =? 0)%Z then S754_zero s else of_Z n
  | _ => x
  end.

(** [Math.min(x, y)]: NaN when an argument is NaN; the negative zero is the
    smaller zero. *)
Definition Math_min (x y : double) : double :=
  match SFcompare x y with
  | None => NaN
  | Some Lt => x
  | Some Gt => y
  | Some Eq => match x with S754_zero false => y | _ => x end
  end.

(** [Math.max(x, y)]. *)
Definition Math_max (x y : double) : double :=
  match SFcompare x y with
  | None => NaN
  | Some Lt => y
  | Some Gt => x
  | Some Eq => match x with S754_zero true => y | _ => x end
  end.

(** [Math.sqrt(x)]. *)
Definition Math_sqrt (x : double) : double := SFsqrt prec emax x.

(** [Math.PI]: 0x1.921fb54442d18p+1. *)
Definition Math_PI : double := S754_finite false 7074237752028440 (-51).

(** [Number(x.toFixed(1))]: the double nearest to [n / 10] for the integer
    [n] nearest to ten times the magnitude of [x], the larger one on a tie,
    with the sign of [x]; a double that is an integer is returned as it
    is. *)
Definition toFixed1 (x : double) : double :=
  match x with
  | S754_finite s m e =>
      if (0 <=? e)%Z then x
      else
        match Z.shiftr (10 * Zpos m + Z.shiftl 1 (- e - 1)) (- e) with
        | Zpos n => round_ratio s n 10
        | _ => S754_zero s
        end
  | S754_zero _ => S754_zero false
  | _ => x
  end.

(** [Number.isNaN(x)] and [Number.isFinite(x)]. *)
Definition isNaN (x : double) : bool :=
  match x with S754_nan => true | _ => false end.

Definition isFinite (x : double) : bool :=
  match x with S754_zero _ | S754_finite _ _ _ => true | _ => false end.

(** The representations that are doubles: a finite one has its mantissa
    normalised and its exponent in range. *)
Definition valid (x : double) : bool := valid_binary prec emax x.

(** The doubles from 1 on: the positive infinity and the normal numbers
    with an exponent of at least -52. *)
Definition from_one (x : double) : bool :=
  match x with
  | S754_infinity false => true
  | S754_finite false m e =>
      (Zpos (digits2_pos m) =? 53)%Z && (-52 <=? e)%Z && (e <=? 971)%Z
  | _ => false
  end.


(** The numbers that are not negative and whose exponent is at most [E]: a
    zero, or [m * 2^e] with [m] of at most 53 bits and [e <= E]. *)
Definition within (E : Z) (x : double) : bool :=
  match x with
  | S754_zero _ => true
  | S754_finite false m e => (Zpos (digits2_pos m) <=? 53)%Z && (e <=? E)%Z
  | _ => false
  end.

(** The integer a double stands for, when it is one. *)
Definition to_Z (x : double) : option Z :=
  match x with
  | S754_zero _ => Some 0%Z
  | S754_finite s m e =>
      if (0 <=? e)%Z then Some (Z.shiftl (signed s m) e)
      else if (Z.shiftl (Z.shiftr (Zpos m) (- e)) (- e) =? Zpos m)%Z
           then Some (Z.shiftr (signed s m) (- e))
           else None
  | _ => None
  end.

End F64.

(* ================================================================= *)
(** ** [CalculationEngine] on doubles

    The same functions with every number a double and every operation the
    rounded one, in the order in which the source writes them. *)

Module Double.

Import F64.

Record UserInput : Type := {
  name : string;
  location : string;
  pincode : string;
  roofArea : double;
  roofType : RoofType.t;
  environment : Environment.t;
  birdNesting : bool;
  dwellers : double;
  purpose : Purpose.t;
  hasOpenSpace : bool;
  openSpaceArea : option double;
  groundwaterDepth : double;
  soilType : SoilType.t;
  budget : Budget.t
}.

Record CityData : Type := {
  city : string;
  state : string;
  city_pincode : string;
  monthlyRainfall : list double;
  annualRainfall : double;
  city_groundwaterDepth : double;
  aquiferType : AquiferType.t;
  region : Region.t
}.

Record CostFactors : Type := {
  baseCostPerSqm : double;
  budgetMultipliers : Budget.t -> double
}.

Record WaterRates : Type := {
  municipalRate : double;
  domesticConsumption : double
}.

Record Coefficients : Type := {
  runoffCoefficients : RoofType.t -> double;
  infiltrationRates : SoilType.t -> double;
  costFactors : CostFactors;
  waterRates : WaterRates
}.

Record TankDimensions : Type := {
  diameter : double;
  height : double
}.

Record PitDimensions : Type := {
  length : double;
  width : double;
  depth : double
}.

Record SystemCost : Type := {
  low : double;
  medium : double;
  high : double
}.

Record CalculationResults : Type := {
  rainwaterPotential : double;
  monthlyPotential : list double;
  householdDemand : double;
  coveragePercentage : double;
  firstFlush : double;
  tankCapacity : double;
  tankDimensions : TankDimensions;
  rechargeVolume : option double;
  pitDimensions : option PitDimensions;
  systemCost : SystemCost;
  annualSavings : double;
  paybackPeriod : double;
  feasibilityScore : Z;
  feasibilityLevel : Level.t;
  recommendations : list string;
  warnings : list string
}.

Record Potential : Type := {
  annual : double;
  monthly : list double
}.

Record StorageTank : Type := {
  capacity : double;
  dimensions : TankDimensions
}.

Record RechargeSystem : Type := {
  recharge_rechargeVolume : double;
  recharge_pitDimensions : PitDimensions
}.

Record Costs : Type := {
  costs_systemCost : SystemCost;
  costs_annualSavings : double;
  costs_paybackPeriod : double
}.

Section CalculationEngine.

Variable cities : list CityData.
Variable coefficients : Coefficients.

(** [findCityData]. *)
Definition findCityData (location pincode : string) : option CityData :=
  let cityData :=
    find (fun c => JS.startsWith (city_pincode c) (JS.substring0 3 pincode)) cities in
  let cityData :=
    match cityData with
    | Some _ => cityData
    | None =>
        let locationLower := JS.toLowerCase location in
        find (fun c =>
                JS.includes (JS.toLowerCase (city c)) locationLower
                || JS.includes locationLower (JS.toLowerCase (city c))
                || JS.includes (JS.toLowerCase (state c)) locationLower)
             cities
    end in
  JS.or_else cityData
    (JS.or_else (find (fun c => String.eqb (city c) "Delhi") cities)
                (nth_error cities 0)).

(** [calculateRainwaterPotential]. *)
Definition calculateRainwaterPotential (userInput : UserInput) (cityData : CityData)
  : Potential :=
  let runoffCoeff := runoffCoefficients coefficients (roofType userInput) in
  let monthlyPotential :=
    map (fun rainfall => Math_round (mul (mul (roofArea userInput) rainfall) runoffCoeff))
        (monthlyRainfall cityData) in
  let annualPotential := fold_left (fun sum month => add sum month) monthlyPotential zero in
  {| annual := annualPotential; monthly := monthlyPotential |}.

(** [calculateHouseholdDemand]. *)
Definition calculateHouseholdDemand (userInput : UserInput) : double :=
  let dailyConsumption := domesticConsumption (waterRates coefficients) in
  let adjustmentFactor := of_Q 1.0 in
  let adjustmentFactor :=
    match purpose userInput with Purpose.Irrigation => of_Q 1.5 | _ => adjustmentFactor end in
  let adjustmentFactor :=
    match purpose userInput with Purpose.Industrial => of_Q 2.0 | _ => adjustmentFactor end in
  Math_round
    (mul (mul (mul (dwellers userInput) dailyConsumption) (of_Q 365)) adjustmentFactor).

(** [calculateStorageTank]. *)
Definition calculateStorageTank (rainwaterPotential : double)
  (monthlyPotential : list double) (householdDemand : double) : StorageTank :=
  let demandBasedCapacity := Math_round (mul (div householdDemand (of_Q 365)) (of_Q 35)) in
  let potentialBasedCapacity := Math_round (mul rainwaterPotential (of_Q 0.2)) in
  let tankCapacity :=
    Math_min (Math_min demandBasedCapacity potentialBasedCapacity) (of_Q 15000) in
  let tankHeight := of_Q 2.0 in
  let tankVolume := div tankCapacity (of_Q 1000) in
  let tankDiameter :=
    Math_sqrt (div (mul tankVolume (of_Q 4)) (mul Math_PI tankHeight)) in
  {| capacity := Math_max tankCapacity (of_Q 2000);
     dimensions := {| diameter := toFixed1 tankDiameter; height := tankHeight |} |}.

(** [calculateRechargeSystem]. *)
Definition calculateRechargeSystem (userInput : UserInput) (rainwaterPotential : double)
  (cityData : CityData) : RechargeSystem :=
  let infiltrationRate := infiltrationRates coefficients (soilType userInput) in
  let rechargeFactor := of_Q 0.7 in
  let rechargeFactor :=
    match soilType userInput with SoilType.Sandy => of_Q 0.9 | _ => rechargeFactor end in
  let rechargeFactor :=
    match soilType userInput with SoilType.Loamy => of_Q 0.8 | _ => rechargeFactor end in
  let rechargeVolume :=
    Math_round (mul (div rainwaterPotential (of_Q 1000)) rechargeFactor) in
  let dailyInflowRate := div rainwaterPotential (of_Q 120) in
  let operatingHours := of_Q 8 in
  let infiltrationRateMs := div infiltrationRate (of_Q 1000) in
  let minPitArea :=
    Math_max (of_Q 9)
      (div dailyInflowRate (mul (mul infiltrationRateMs operatingHours) (of_Q 1000))) in
  let maxDepth :=
    Math_min (of_Q 4) (Math_max (of_Q 2) (mul (groundwaterDepth userInput) (of_Q 0.3))) in
  let storageBasedArea := div (mul rechargeVolume (of_Q 1.2)) maxDepth in
  let requiredArea := Math_max minPitArea storageBasedArea in
  let pitSide := Math_ceil (Math_sqrt requiredArea) in
  {| recharge_rechargeVolume := rechargeVolume;
     recharge_pitDimensions :=
       {| length := Math_max pitSide (of_Q 3);
          width := Math_max pitSide (of_Q 3);
          depth := maxDepth |} |}.

(** [calculateCosts]. *)
Definition calculateCosts (userInput : UserInput) (tankCapacity : double)
  (hasRecharge : bool) : Costs :=
  let baseCost := mul (roofArea userInput) (baseCostPerSqm (costFactors coefficients)) in
  let tankCost := mul tankCapacity (of_Q 0.8) in
  let rechargeCost := if hasRecharge then mul (roofArea userInput) (of_Q 150) else of_Q 0 in
  let totalBaseCost := add (add baseCost tankCost) rechargeCost in
  let multipliers := budgetMultipliers (costFactors coefficients) in
  let systemCost :=
    {| low := Math_round (mul totalBaseCost (multipliers Budget.Low));
       medium := Math_round (mul totalBaseCost (multipliers Budget.Medium));
       high := Math_round (mul totalBaseCost (multipliers Budget.High)) |} in
  let householdDemand := calculateHouseholdDemand userInput in
  let municipalRate := municipalRate (waterRates coefficients) in
  let maxSavableWater := Math_min householdDemand (mul tankCapacity (of_Q 10)) in
  let annualSavings := Math_round (mul maxSavableWater municipalRate) in
  let paybackPeriod :=
    Math_round (div (medium systemCost) (Math_max annualSavings (of_Q 1))) in
  {| costs_systemCost := systemCost;
     costs_annualSavings := annualSavings;
     costs_paybackPeriod := Math_min paybackPeriod (of_Q 20) |}.

(** The blocks of [calculateFeasibility]. *)

Definition rainfallAdequacy (cityData : CityData) (t : Tally) : Tally :=
  if gtb (annualRainfall cityData) (of_Q 1000) then
    recommend 25 "Excellent rainfall - consider larger storage capacity" t
  else if gtb (annualRainfall cityData) (of_Q 600) then
    recommend 15 "Good rainfall - standard system recommended" t
  else
    warn 5 "Low rainfall area - consider supplementary water sources" t.

Definition roofSuitability (userInput : UserInput) (t : Tally) : Tally :=
  match roofType userInput with
  | RoofType.RCC | RoofType.GI =>
      recommend 20
        (RoofType.name (roofType userInput)
         ++ " roof is excellent for rainwater harvesting") t
  | RoofType.Tiles =>
      recommend 15 "Clay/concrete tiles are suitable with proper first flush diverter" t
  | RoofType.Asbestos =>
      warn 10 "Asbestos roofs require regular cleaning and filtration" t
  end.

Definition soilConditions (userInput : UserInput) (t : Tally) : Tally :=
  match soilType userInput with
  | SoilType.Sandy => recommend 15 "Sandy soil is ideal for groundwater recharge" t
  | SoilType.Loamy => recommend 10 "Loamy soil provides good infiltration for recharge" t
  | SoilType.Clayey => recommend 5 "Clayey soil requires larger recharge structures" t
  end.

Definition groundwaterBand (userInput : UserInput) (t : Tally) : Tally :=
  if gtb (groundwaterDepth userInput) (of_Q 3) && ltb (groundwaterDepth userInput) (of_Q 30)
  then recommend 15 "Optimal groundwater depth for recharge systems" t
  else if leb (groundwaterDepth userInput) (of_Q 3) then
    warn 5 "Shallow groundwater - ensure proper drainage to prevent waterlogging" t
  else
    warn 10 "Deep groundwater - recharge benefits may take longer to realize" t.

Definition coverageAnalysis (rainwaterPotential householdDemand : double) (t : Tally)
  : Tally :=
  let coverage := mul (div rainwaterPotential householdDemand) (of_Q 100) in
  if gtb coverage (of_Q 80) then
    recommend 10 "Excellent coverage - consider selling excess water or larger recharge" t
  else if gtb coverage (of_Q 50) then
    recommend 7 "Good coverage - system will significantly reduce water bills" t
  else
    recommend 3 "Partial coverage - combine with water conservation measures" t.

Definition environmentalFactors (userInput : UserInput) (t : Tally) : Tally :=
  let t :=
    when (birdNesting userInput)
      (warn 0 "Bird nesting detected - install mesh covers and regular cleaning required")
      t in
  when (match environment userInput with Environment.Industrial => true | _ => false end)
    (warn 0 "Industrial area - test water quality regularly and use appropriate filtration")
    t.

Definition monsoonDependency (cityData : CityData) (t : Tally) : Tally :=
  let monsoonMonths := JS.slice 5 9 (monthlyRainfall cityData) in
  let monsoonRainfall := fold_left (fun sum month => add sum month) monsoonMonths zero in
  when (gtb (div monsoonRainfall (annualRainfall cityData)) (of_Q 0.7))
    (warn 0 "High monsoon dependency - 70%+ rainfall in 4 months") t.

Definition standardRecommendations (userInput : UserInput) (t : Tally) : Tally :=
  let t := recommend 0 "Install first flush diverter to improve water quality" t in
  let t :=
    when (match purpose userInput with Purpose.Domestic => true | _ => false end)
      (recommend 0 "Consider UV/RO purification for drinking water use") t in
  when (hasOpenSpace userInput)
    (recommend 0 "Connect overflow to recharge pit for maximum benefit") t.

Definition feasibilityTally (userInput : UserInput) (cityData : CityData)
  (rainwaterPotential householdDemand : double) : Tally :=
  let t := {| score := 50; tally_recommendations := []; tally_warnings := [] |} in
  let t := rainfallAdequacy cityData t in
  let t := roofSuitability userInput t in
  let t := soilConditions userInput t in
  let t := groundwaterBand userInput t in
  let t := coverageAnalysis rainwaterPotential householdDemand t in
  let t := environmentalFactors userInput t in
  let t := monsoonDependency cityData t in
  standardRecommendations userInput t.

(** [calculateFeasibility]; the score is a sum of small integers. *)
Definition calculateFeasibility (userInput : UserInput) (cityData : CityData)
  (rainwaterPotential householdDemand : double) : Feasibility :=
  let t := feasibilityTally userInput cityData rainwaterPotential householdDemand in
  let feasibilityLevel :=
    if (80 <=? score t)%Z then Level.High
    else if (60 <=? score t)%Z then Level.Medium
    else Level.Low in
  {| feas_feasibilityScore := Z.min 100 (score t);
     feas_feasibilityLevel := feasibilityLevel;
     feas_recommendations := tally_recommendations t;
     feas_warnings := tally_warnings t |}.

(** [results.rechargeVolume = v; results.pitDimensions = p]. *)
Definition set_recharge (results : CalculationResults) (v : double) (p : PitDimensions)
  : CalculationResults :=
  {| rainwaterPotential := rainwaterPotential results;
     monthlyPotential := monthlyPotential results;
     householdDemand := householdDemand results;
     coveragePercentage := coveragePercentage results;
     firstFlush := firstFlush results;
     tankCapacity := tankCapacity results;
     tankDimensions := tankDimensions results;
     rechargeVolume := Some v;
     pitDimensions := Some p;
     systemCost := systemCost results;
     annualSavings := annualSavings results;
     paybackPeriod := paybackPeriod results;
     feasibilityScore := feasibilityScore results;
     feasibilityLevel := feasibilityLevel results;
     recommendations := recommendations results;
     warnings := warnings results |}.

(** [calculate]. *)
Definition calculate (userInput : UserInput) (calculationType : CalculationType.t)
  : JS.outcome CalculationResults :=
  match findCityData (location userInput) (pincode userInput) with
  | None =>
      JS.Throw ("City data not found for " ++ location userInput ++ ", "
                ++ pincode userInput)
  | Some cityData =>
      (* Core calculations *)
      let potential := calculateRainwaterPotential userInput cityData in
      let rainwaterPotential := annual potential in
      let monthlyPotential := monthly potential in
      let householdDemand := calculateHouseholdDemand userInput in
      let coveragePercentage :=
        Math_min (of_Q 100)
          (Math_round (mul (div rainwaterPotential householdDemand) (of_Q 100))) in
      let firstFlush := Math_round (mul (roofArea userInput) (of_Q 2)) in
      (* Storage system *)
      let tank := calculateStorageTank rainwaterPotential monthlyPotential householdDemand in
      let tankCapacity := capacity tank in
      (* Cost analysis *)
      let costs :=
        calculateCosts userInput tankCapacity
          (CalculationType.is_recharge calculationType) in
      (* Feasibility analysis *)
      let feasibility :=
        calculateFeasibility userInput cityData rainwaterPotential householdDemand in
      (* Base results *)
      let results :=
        {| rainwaterPotential := rainwaterPotential;
           monthlyPotential := monthlyPotential;
           householdDemand := householdDemand;
           coveragePercentage := coveragePercentage;
           firstFlush := firstFlush;
           tankCapacity := tankCapacity;
           tankDimensions := dimensions tank;
           rechargeVolume := None;
           pitDimensions := None;
           systemCost := costs_systemCost costs;
           annualSavings := costs_annualSavings costs;
           paybackPeriod := costs_paybackPeriod costs;
           feasibilityScore := feas_feasibilityScore feasibility;
           feasibilityLevel := feas_feasibilityLevel feasibility;
           recommendations := feas_recommendations feasibility;
           warnings := feas_warnings feasibility |} in
      (* Add recharge calculations if needed *)
      let results :=
        if CalculationType.is_recharge calculationType then
          let recharge := calculateRechargeSystem userInput rainwaterPotential cityData in
          set_recharge results (recharge_rechargeVolume recharge)
            (recharge_pitDimensions recharge)
        else results in
      JS.Return results
  end.

End CalculationEngine.

(** The formulas of the specification, each operation being the rounded
    one. *)
Module Spec.

(** Roof area x monthly rainfall x runoff coefficient, rounded to the
    nearest integer. *)
Definition monthPotential (roofArea rainfall runoffCoeff : double) : double :=
  Math_round (mul (mul roofArea rainfall) runoffCoeff).

(** The sum of the monthly values, added in their order. *)
Definition total (monthly : list double) : double := fold_left add monthly zero.

(** Potential / demand as a percentage, capped at 100. *)
Definition coverage (rainwaterPotential householdDemand : double) : double :=
  Math_min (of_Q 100) (Math_round (mul (div rainwaterPotential householdDemand) (of_Q 100))).

(** min(household demand, 10 tank refills) x municipal water rate. *)
Definition annualSavings (householdDemand tankCapacity municipalRate : double) : double :=
  Math_round (mul (Math_min householdDemand (mul (of_Q 10) tankCapacity)) municipalRate).

(** Medium-tier cost / max(savings, 1), capped at 20. *)
Definition paybackPeriod (mediumCost annualSavings : double) : double :=
  Math_min (Math_round (div mediumCost (Math_max annualSavings (of_Q 1)))) (of_Q 20).

(** 0.7 clayey, 0.8 loamy, 0.9 sandy. *)
Definition rechargeFactor (soil : SoilType.t) : double :=
  match soil with
  | SoilType.Clayey => of_Q 0.7
  | SoilType.Loamy => of_Q 0.8
  | SoilType.Sandy => of_Q 0.9
  end.

(** Potential converted to m3 x the factor of the soil. *)
Definition rechargeVolume (rainwaterPotential : double) (soil : SoilType.t) : double :=
  Math_round (mul (div rainwaterPotential (of_Q 1000)) (rechargeFactor soil)).

(** clamp(x, lo, hi). *)
Definition clamp (x lo hi : double) : double :=
  if ltb x lo then lo else if gtb x hi then hi else x.

(** Pit depth = clamp(groundwater depth x 0.3, 2, 4). *)
Definition pitDepth (groundwaterDepth : double) : double :=
  clamp (mul groundwaterDepth (of_Q 0.3)) (of_Q 2) (of_Q 4).

(** The area the infiltration capacity asks for: the daily inflow of 120
    rainy days over what 8 hours of infiltration take up, at least 9 m2. *)
Definition infiltrationArea (rainwaterPotential infiltrationRate : double) : double :=
  Math_max (of_Q 9)
    (div (div rainwaterPotential (of_Q 120))
         (mul (mul (div infiltrationRate (of_Q 1000)) (of_Q 8)) (of_Q 1000))).

(** The area the storage asks for, with a margin of 20%. *)
Definition storageArea (rechargeVolume depth : double) : double :=
  div (mul rechargeVolume (of_Q 1.2)) depth.

(** The side of the square pit: the square root of the area, rounded up,
    and at least 3 m. *)
Definition pitSide (area : double) : double :=
  Math_max (Math_ceil (Math_sqrt area)) (of_Q 3).

End Spec.

(** Conditions on the figures of a request and of the tables. *)

(** A number that is neither negative nor infinite. *)
Definition nonNegative (x : double) : bool := leb zero x && isFinite x.

(** A number that is positive and not infinite. *)
Definition positive (x : double) : bool := ltb zero x && isFinite x.

(** A double that is at least 1. *)
Definition atLeastOne (x : double) : bool := valid x && leb (of_Q 1) x.

Definition rainfallNonNegative (cities : list CityData) : bool :=
  forallb (fun c => forallb nonNegative (monthlyRainfall c)) cities.

Definition runoffPositive (k : Coefficients) : bool :=
  forallb (fun r => positive (runoffCoefficients k r))
          [RoofType.RCC; RoofType.GI; RoofType.Asbestos; RoofType.Tiles].

Definition consumptionAtLeastOne (k : Coefficients) : bool :=
  atLeastOne (domesticConsumption (waterRates k)).

(** The base cost is neither negative nor infinite, the budget multipliers
    are positive, and the municipal rate is a positive double of at most
    10^300. *)
Definition costsInRange (k : Coefficients) : bool :=
  nonNegative (baseCostPerSqm (costFactors k))
  && forallb (fun b => positive (budgetMultipliers (costFactors k) b))
             [Budget.Low; Budget.Medium; Budget.High]
  && positive (municipalRate (waterRates k))
  && valid (municipalRate (waterRates k))
  && leb (municipalRate (waterRates k)) (of_Q 1e300).

End Double.

(* ================================================================= *)
(** ** Reading the request and the tables

    [JSON.parse] turns each decimal numeral of a document into the double
    nearest to it. *)

Module Json.

Definition userInput (u : UserInput) : Double.UserInput :=
  {| Double.name := name u;
     Double.location := location u;
     Double.pincode := pincode u;
     Double.roofArea := F64.of_Q (roofArea u);
     Double.roofType := roofType u;
     Double.environment := environment u;
     Double.birdNesting := birdNesting u;
     Double.dwellers := F64.of_Q (dwellers u);
     Double.purpose := purpose u;
     Double.hasOpenSpace := hasOpenSpace u;
     Double.openSpaceArea := option_map F64.of_Q (openSpaceArea u);
     Double.groundwaterDepth := F64.of_Q (groundwaterDepth u);
     Double.soilType := soilType u;
     Double.budget := budget u |}.

Definition cityData (c : CityData) : Double.CityData :=
  {| Double.city := city c;
     Double.state := state c;
     Double.city_pincode := city_pincode c;
     Double.monthlyRainfall := map F64.of_Q (monthlyRainfall c);
     Double.annualRainfall := F64.of_Q (annualRainfall c);
     Double.city_groundwaterDepth := F64.of_Q (city_groundwaterDepth c);
     Double.aquiferType := aquiferType c;
     Double.region := region c |}.

Definition coefficients (k : Coefficients) : Double.Coefficients :=
  {| Double.runoffCoefficients := fun r => F64.of_Q (runoffCoefficients k r);
     Double.infiltrationRates := fun s => F64.of_Q (infiltrationRates k s);
     Double.costFactors :=
       {| Double.baseCostPerSqm := F64.of_Q (baseCostPerSqm (costFactors k));
          Double.budgetMultipliers := fun b => F64.of_Q (budgetMultipliers (costFactors k) b) |};
     Double.waterRates :=
       {| Double.municipalRate := F64.of_Q (municipalRate (waterRates k));
          Double.domesticConsumption := F64.of_Q (domesticConsumption (waterRates k)) |} |}.

(** [calculate] on a request and tables given by their decimal figures. *)
Definition calculate (cities : list CityData) (k : Coefficients) (u : UserInput)
  (t : CalculationType.t) : JS.outcome Double.CalculationResults :=
  Double.calculate (map cityData cities) (coefficients k) (userInput u) t.

End Json.

(* ================================================================= *)
(** ** Requests on which rounding shows

    Inputs and tables on which a double-precision result differs from the
    one exact arithmetic would give, or leaves the range of the finite
    numbers. *)

Module Boundary.

(** A roof of 39 m2 of asbestos sheets in Mumbai: 39 x 585 x 0.7 is 15970.5
    as a real number and just below it as a double. *)
Definition asbestosRoof : UserInput :=
  {| name := "Kiran";
     location := "Mumbai";
     pincode := "400001";
     roofArea := 39;
     roofType := RoofType.Asbestos;
     environment := Environment.Residential;
     birdNesting := false;
     dwellers := 3;
     purpose := Purpose.Domestic;
     hasOpenSpace := true;
     openSpaceArea := None;
     groundwaterDepth := 9;
     soilType := SoilType.Sandy;
     budget := Budget.Medium |}.


(** A roof of 47 m2 over sand with the groundwater at 9 m: 9 x 0.3 is
    2.6999999999999997 as a double, and the storage area comes out just
    above 36 m2. *)
Definition sandyPlot : UserInput :=
  {| name := "Kiran";
     location := "Mumbai";
     pincode := "400001";
     roofArea := 47;
     roofType := RoofType.RCC;
     environment := Environment.Residential;
     birdNesting := false;
     dwellers := 4;
     purpose := Purpose.Domestic;
     hasOpenSpace := true;
     openSpaceArea := None;
     groundwaterDepth := 9;
     soilType := SoilType.Sandy;
     budget := Budget.Medium |}.

(** A roof area and a number of dwellers that the validation accepts and
    whose products exceed the largest double. *)
Definition huge : UserInput :=
  {| name := "Max";
     location := "Mumbai";
     pincode := "400001";
     roofArea := 1e308;
     roofType := RoofType.RCC;
     environment := Environment.Residential;
     birdNesting := false;
     dwellers := 1e308;
     purpose := Purpose.Domestic;
     hasOpenSpace := false;
     openSpaceArea := None;
     groundwaterDepth := 10;
     soilType := SoilType.Loamy;
     budget := Budget.Medium |}.

(** A roof of 10^14 + 1 m2: the monthly values add up beyond 2^53. *)
Definition wideRoof : UserInput :=
  {| name := "Max";
     location := "Mumbai";
     pincode := "400001";
     roofArea := 100000000000001;
     roofType := RoofType.RCC;
     environment := Environment.Residential;
     birdNesting := false;
     dwellers := 4;
     purpose := Purpose.Domestic;
     hasOpenSpace := false;
     openSpaceArea := None;
     groundwaterDepth := 10;
     soilType := SoilType.Loamy;
     budget := Budget.Medium |}.

(** A number of dwellers just below zero: the demand is the negative
    zero. *)
Definition negativeDwellers : UserInput :=
  {| name := "Iqbal";
     location := "Mumbai";
     pincode := "400001";
     roofArea := 100;
     roofType := RoofType.Tiles;
     environment := Environment.Industrial;
     birdNesting := false;
     dwellers := -0.000001;
     purpose := Purpose.Domestic;
     hasOpenSpace := true;
     openSpaceArea := None;
     groundwaterDepth := 35;
     soilType := SoilType.Sandy;
     budget := Budget.High |}.

(** Two people under a roof of 80 m2 in Delhi. *)
Definition couple : UserInput :=
  {| name := "Ravi";
     location := "Delhi";
     pincode := "110001";
     roofArea := 80;
     roofType := RoofType.RCC;
     environment := Environment.Residential;
     birdNesting := false;
     dwellers := 2;
     purpose := Purpose.Domestic;
     hasOpenSpace := false;
     openSpaceArea := None;
     groundwaterDepth := 20;
     soilType := SoilType.Clayey;
     budget := Budget.Low |}.

(** The sample coefficients with a municipal rate of 0.009 per liter. *)
Definition cheapWater : Coefficients :=
  {| runoffCoefficients := runoffCoefficients Sample.coefficients;
     infiltrationRates := infiltrationRates Sample.coefficients;
     costFactors := costFactors Sample.coefficients;
     waterRates := {| municipalRate := 0.009; domesticConsumption := 135 |} |}.

(** A city whose four monsoon months bring exactly 70% of the annual
    rainfall of 1336 mm. *)
Definition monsoonCity : CityData :=
  {| city := "Nagpur";
     state := "Maharashtra";
     city_pincode := "440001";
     monthlyRainfall := [10; 12; 15; 14; 20; 83.5; 313.3; 222.4; 316.0; 60; 15; 5];
     annualRainfall := 1336;
     city_groundwaterDepth := 12;
     aquiferType := AquiferType.HardRock;
     region := Region.Central |}.

End Boundary.

(* ================================================================= *)
(** ** Rounding and comparison lemmas *)

Lemma Math_round_bounds (x : Q) :
  inject_Z (JS.Math_round x) <= x + 0.5 /\ x + 0.5 < inject_Z (JS.Math_round x + 1).
Proof.
  unfold JS.Math_round. split; [apply Qfloor_le | apply Qlt_floor].
Qed.

Lemma Math_round_comp (x y : Q) : x == y -> JS.Math_round x = JS.Math_round y.
Proof.
  intros E. unfold JS.Math_round. apply Qfloor_comp. rewrite E. reflexivity.
Qed.

Lemma Math_round_mono (x y : Q) : x <= y -> (JS.Math_round x <= JS.Math_round y)%Z.
Proof.
  intros L. unfold JS.Math_round. apply Qfloor_resp_le. lra.
Qed.

Lemma Math_round_Z (z : Z) : JS.Math_round (inject_Z z) = z.
Proof.
  unfold JS.Math_round.
  assert (L : (z <= Qfloor (inject_Z z + 0.5))%Z).
  { rewrite <- (Qfloor_Z z) at 1. apply Qfloor_resp_le. lra. }
  assert (U : (Qfloor (inject_Z z + 0.5) < z + 1)%Z).
  { rewrite Zlt_Qlt. eapply Qle_lt_trans; [apply Qfloor_le|].
    rewrite inject_Z_plus. change (inject_Z 1) with 1. lra. }
  lia.
Qed.

Lemma Math_round_nonneg (x : Q) : 0 <= x -> (0 <= JS.Math_round x)%Z.
Proof.
  intros L. change 0%Z with (JS.Math_round (inject_Z 0)) at 1.
  rewrite Math_round_Z. rewrite <- (Math_round_Z 0). apply Math_round_mono. exact L.
Qed.

Lemma Math_round_ge (z : Z) (x : Q) : inject_Z z <= x -> (z <= JS.Math_round x)%Z.
Proof.
  intros L. rewrite <- (Math_round_Z z). apply Math_round_mono. exact L.
Qed.

Example Math_round_half_up : JS.Math_round 2.5 = 3%Z /\ JS.Math_round (-2.5) = (-2)%Z.
Proof. split; reflexivity. Qed.

Example Math_round_nearest : JS.Math_round 1244.8 = 1245%Z /\ JS.Math_round 0.365 = 0%Z.
Proof. split; reflexivity. Qed.

Lemma Qle_bool_true (x y : Q) : Qle_bool x y = true -> x <= y.
Proof. apply Qle_bool_iff. Qed.

Lemma Qle_bool_false (x y : Q) : Qle_bool x y = false -> y < x.
Proof.
  intros E. apply Qnot_le_lt. intros L. apply Qle_bool_iff in L. congruence.
Qed.


(* ================================================================= *)
(** ** The stages of [calculate] *)

(** Opens a hypothesis [calculate ... = JS.Return r]: the city record [c]
    that was resolved is introduced and [r] is replaced by the record the
    function assembles. *)
Ltac open_calculate H c F r :=
  unfold calculate in H;
  destruct (findCityData _ _ _) as [c|] eqn:F; [|discriminate H];
  apply (f_equal (fun o => match o with JS.Return a => a | JS.Throw _ => r end)) in H;
  lazy beta iota in H; subst r.





(* ================================================================= *)
(** ** Feasibility scoring *)

Lemma score_when (c : bool) (f : Tally -> Tally) (t : Tally) :
  (forall t', score (f t') = score t') -> score (when c f t) = score t.
Proof. intros E. unfold when. destruct c; auto. Qed.

Lemma score_recommend (n : Z) (s : string) (t : Tally) :
  score (recommend n s t) = (score t + n)%Z.
Proof. reflexivity. Qed.

Lemma score_warn (n : Z) (s : string) (t : Tally) :
  score (warn n s t) = (score t + n)%Z.
Proof. reflexivity. Qed.

Lemma score_rainfallAdequacy (c : CityData) (t : Tally) :
  (score t + 5 <= score (rainfallAdequacy c t) <= score t + 25)%Z.
Proof.
  unfold rainfallAdequacy.
  destruct (JS.Qgtb (annualRainfall c) 1000), (JS.Qgtb (annualRainfall c) 600);
    rewrite ?score_recommend, ?score_warn; lia.
Qed.

Lemma score_roofSuitability (u : UserInput) (t : Tally) :
  (score t + 10 <= score (roofSuitability u t) <= score t + 20)%Z.
Proof.
  unfold roofSuitability.
  destruct (roofType u); rewrite ?score_recommend, ?score_warn; lia.
Qed.

Lemma score_soilConditions (u : UserInput) (t : Tally) :
  (score t + 5 <= score (soilConditions u t) <= score t + 15)%Z.
Proof.
  unfold soilConditions.
  destruct (soilType u); rewrite ?score_recommend; lia.
Qed.

Lemma score_groundwaterBand (u : UserInput) (t : Tally) :
  (score t + 5 <= score (groundwaterBand u t) <= score t + 15)%Z.
Proof.
  unfold groundwaterBand.
  destruct (JS.Qgtb (groundwaterDepth u) 3 && JS.Qltb (groundwaterDepth u) 30),
           (Qle_bool (groundwaterDepth u) 3);
    rewrite ?score_recommend, ?score_warn; lia.
Qed.

Lemma score_coverageAnalysis (pot hd : Z) (t : Tally) :
  (score t + 3 <= score (coverageAnalysis pot hd t) <= score t + 10)%Z.
Proof.
  unfold coverageAnalysis. cbv zeta.
  repeat match goal with
         | |- context [if ?b then _ else _] => destruct b
         end;
    rewrite ?score_recommend; lia.
Qed.

Lemma score_environmentalFactors (u : UserInput) (t : Tally) :
  score (environmentalFactors u t) = score t.
Proof.
  unfold environmentalFactors. cbv zeta.
  rewrite !score_when; auto; intros; rewrite score_warn; lia.
Qed.

Lemma score_monsoonDependency (c : CityData) (t : Tally) :
  score (monsoonDependency c t) = score t.
Proof.
  unfold monsoonDependency. cbv zeta.
  rewrite score_when; auto; intros; rewrite score_warn; lia.
Qed.

Lemma score_standardRecommendations (u : UserInput) (t : Tally) :
  score (standardRecommendations u t) = score t.
Proof.
  unfold standardRecommendations. cbv zeta.
  rewrite !score_when; intros; rewrite ?score_recommend; lia.
Qed.

(** The score before the cap: the base of 50 and at least 5, 10, 5, 5 and 3
    points, at most 25, 20, 15, 15 and 10, from the five scoring blocks. *)
Lemma score_feasibilityTally (u : UserInput) (c : CityData) (pot hd : Z) :
  (50 + (5 + 10 + 5 + 5 + 3) <= score (feasibilityTally u c pot hd)
   <= 50 + (25 + 20 + 15 + 15 + 10))%Z.
Proof.
  unfold feasibilityTally. cbv zeta.
  rewrite score_standardRecommendations, score_monsoonDependency,
    score_environmentalFactors.
  set (t0 := {| score := 50; tally_recommendations := []; tally_warnings := [] |}).
  pose proof (score_rainfallAdequacy c t0) as H1.
  pose proof (score_roofSuitability u (rainfallAdequacy c t0)) as H2.
  pose proof (score_soilConditions u (roofSuitability u (rainfallAdequacy c t0))) as H3.
  pose proof (score_groundwaterBand u
                (soilConditions u (roofSuitability u (rainfallAdequacy c t0)))) as H4.
  pose proof (score_coverageAnalysis pot hd
                (groundwaterBand u
                   (soilConditions u (roofSuitability u (rainfallAdequacy c t0))))) as H5.
  change (score t0) with 50%Z in H1. lia.
Qed.

Lemma level_of_capped_score (s : Z) :
  (if (80 <=? s)%Z then Level.High else if (60 <=? s)%Z then Level.Medium else Level.Low)
  = Spec.level (Z.min 100 s).
Proof.
  unfold Spec.level.
  destruct (80 <=? s)%Z eqn:A, (60 <=? s)%Z eqn:B,
           (Z.min 100 s <? 60)%Z eqn:C, (Z.min 100 s <? 80)%Z eqn:D;
    try reflexivity; lia.
Qed.

Lemma spec_level_thresholds (s : Z) :
  (Spec.level s = Level.High <-> (80 <= s)%Z)
  /\ (Spec.level s = Level.Medium <-> (60 <= s < 80)%Z)
  /\ (Spec.level s = Level.Low <-> (s < 60)%Z).
Proof.
  unfold Spec.level.
  destruct (s <? 60)%Z eqn:A, (s <? 80)%Z eqn:B;
    repeat split; intros; try discriminate; try reflexivity; lia.
Qed.

(** What [calculate] reports of the feasibility stage: the capped score and
    the level, for a score [s] that the blocks have brought to 78 at least. *)
Lemma result_feasibility
  (cities : list CityData) (k : Coefficients) (u : UserInput)
  (t : CalculationType.t) (r : CalculationResults) :
  calculate cities k u t = JS.Return r ->
  exists s : Z,
    (78 <= s <= 135)%Z
    /\ feasibilityScore r = Z.min 100 s
    /\ feasibilityLevel r = Spec.level (Z.min 100 s).
Proof.
  intros H. open_calculate H c F r.
  set (pot := annual (calculateRainwaterPotential k u c)).
  set (hd := calculateHouseholdDemand k u).
  exists (score (feasibilityTally u c pot hd)).
  split; [apply score_feasibilityTally|].
  destruct t;
    cbn [CalculationType.is_recharge set_recharge feasibilityScore feasibilityLevel];
    unfold calculateFeasibility;
    cbn [feas_feasibilityScore feas_feasibilityLevel];
    rewrite level_of_capped_score; split; reflexivity.
Qed.

(** C3.  The feasibility score of the result lies between 0 and 100, and the
    level is High exactly when that score is at least 80, Medium exactly when
    it is at least 60 and below 80, and Low otherwise. *)
Theorem feasibility_score_and_level
  (cities : list CityData) (k : Coefficients) (u : UserInput)
  (t : CalculationType.t) (r : CalculationResults) :
  calculate cities k u t = JS.Return r ->
  (0 <= feasibilityScore r <= 100)%Z
  /\ (feasibilityLevel r = Level.High <-> (80 <= feasibilityScore r)%Z)
  /\ (feasibilityLevel r = Level.Medium <-> (60 <= feasibilityScore r < 80)%Z)
  /\ (feasibilityLevel r = Level.Low <-> (feasibilityScore r < 60)%Z).
Proof.
  intros H. destruct (result_feasibility _ _ _ _ _ H) as (s & B & -> & ->).
  split; [lia | apply spec_level_thresholds].
Qed.

Lemma feasibility_score_and_level_witness :
  exists r,
    calculate Sample.cities Sample.coefficients Sample.household
      CalculationType.recharge = JS.Return r
    /\ (0 <= feasibilityScore r <= 100)%Z
    /\ (feasibilityLevel r = Level.High <-> (80 <= feasibilityScore r)%Z)
    /\ (feasibilityLevel r = Level.Medium <-> (60 <= feasibilityScore r < 80)%Z)
    /\ (feasibilityLevel r = Level.Low <-> (feasibilityScore r < 60)%Z).
Proof.
  eexists. split.
  - vm_compute. reflexivity.
  - apply (feasibility_score_and_level Sample.cities Sample.coefficients
             Sample.household CalculationType.recharge).
    vm_compute. reflexivity.
Defined.

(** The lower bound is reached: 50 + 5 + 10 + 5 + 5 + 3. *)
Example feasibility_score_78_reached :
  exists r,
    calculate Sample.cities Sample.coefficients Sample.shed
      CalculationType.rainwater = JS.Return r
    /\ feasibilityScore r = 78%Z
    /\ feasibilityLevel r = Level.Medium.
Proof. eexists. split; [vm_compute; reflexivity|]. split; reflexivity. Qed.

(** C10.  The score before the cap is the base of 50 plus what the five
    scoring blocks add, at least 5 + 10 + 5 + 5 + 3, so the feasibility score
    of the result is at least 78 and the level of the result is never Low. *)
Theorem feasibility_score_at_least_78
  (cities : list CityData) (k : Coefficients) (u : UserInput)
  (t : CalculationType.t) (r : CalculationResults) :
  calculate cities k u t = JS.Return r ->
  (78 <= feasibilityScore r)%Z /\ feasibilityLevel r <> Level.Low.
Proof.
  intros H. destruct (result_feasibility _ _ _ _ _ H) as (s & B & -> & ->).
  split; [lia|]. intros L. apply spec_level_thresholds in L. lia.
Qed.

Lemma feasibility_score_at_least_78_witness :
  exists r,
    calculate Sample.cities Sample.coefficients Sample.smallRoof
      CalculationType.rainwater = JS.Return r
    /\ (78 <= feasibilityScore r)%Z /\ feasibilityLevel r <> Level.Low.
Proof.
  eexists. split.
  - vm_compute. reflexivity.
  - apply (feasibility_score_at_least_78 Sample.cities Sample.coefficients
             Sample.smallRoof CalculationType.rainwater).
    vm_compute. reflexivity.
Defined.

(* ================================================================= *)
(** ** Rainwater potential *)

Lemma reduce_sum_total (l : list Z) (a : Z) :
  fold_left (fun sum month => (sum + month)%Z) l a = (a + Spec.total l)%Z.
Proof.
  revert a. induction l as [|m l IH]; intros a; simpl.
  - lia.
  - rewrite IH. lia.
Qed.



(* ================================================================= *)
(** ** Demand, potential and coverage *)

Lemma findCityData_In (cities : list CityData) (l p : string) (c : CityData) :
  findCityData cities l p = Some c -> In c cities.
Proof.
  unfold findCityData. cbv zeta.
  repeat match goal with
         | |- context [find ?f cities] =>
             let F := fresh "F" in destruct (find f cities) eqn:F
         end;
    cbn [JS.or_else]; intros E;
    try (injection E as <-;
         match goal with F : find _ _ = Some _ |- _ => apply (find_some _ _ F) end).
  apply (nth_error_In _ _ E).
Qed.


(* ================================================================= *)
(** ** Cost and payback *)

Lemma costs_annualSavings_spec (k : Coefficients) (u : UserInput) (cap : Z) (b : bool) :
  costs_annualSavings (calculateCosts k u cap b)
  = Spec.annualSavings (calculateHouseholdDemand k u) cap (municipalRate (waterRates k)).
Proof.
  unfold calculateCosts, Spec.annualSavings. cbn [costs_annualSavings].
  rewrite (Z.mul_comm cap 10). reflexivity.
Qed.

Lemma costs_paybackPeriod_spec (k : Coefficients) (u : UserInput) (cap : Z) (b : bool) :
  costs_paybackPeriod (calculateCosts k u cap b)
  = Spec.paybackPeriod (medium (costs_systemCost (calculateCosts k u cap b)))
      (costs_annualSavings (calculateCosts k u cap b)).
Proof. reflexivity. Qed.

(* ================================================================= *)
(** ** City resolution and the failure of [calculate] *)

Lemma findCityData_priority (cities : list CityData) (l p : string) :
  findCityData cities l p
  = match find (Spec.matchesPincode p) cities with
    | Some c => Some c
    | None =>
        match find (Spec.matchesName l) cities with
        | Some c => Some c
        | None =>
            match find Spec.isDelhi cities with
            | Some c => Some c
            | None => hd_error cities
            end
        end
    end.
Proof.
  unfold findCityData. cbv zeta.
  change (fun c : CityData => JS.startsWith (city_pincode c) (JS.substring0 3 p))
    with (Spec.matchesPincode p).
  change (fun c : CityData =>
            JS.includes (JS.toLowerCase (city c)) (JS.toLowerCase l)
            || JS.includes (JS.toLowerCase l) (JS.toLowerCase (city c))
            || JS.includes (JS.toLowerCase (state c)) (JS.toLowerCase l))
    with (Spec.matchesName l).
  change (fun c : CityData => String.eqb (city c) "Delhi") with Spec.isDelhi.
  destruct (find (Spec.matchesPincode p) cities); [reflexivity|].
  destruct (find (Spec.matchesName l) cities); [reflexivity|].
  destruct (find Spec.isDelhi cities); [reflexivity|].
  destruct cities; reflexivity.
Qed.

Lemma findCityData_None (cities : list CityData) (l p : string) :
  findCityData cities l p = None <-> cities = [].
Proof.
  rewrite findCityData_priority. split.
  - destruct (find (Spec.matchesPincode p) cities); [discriminate|].
    destruct (find (Spec.matchesName l) cities); [discriminate|].
    destruct (find Spec.isDelhi cities); [discriminate|].
    destruct cities; [reflexivity | discriminate].
  - intros ->. reflexivity.
Qed.

Lemma calculate_Throw (cities : list CityData) (k : Coefficients) (u : UserInput)
  (t : CalculationType.t) :
  (exists m, calculate cities k u t = JS.Throw m)
  <-> findCityData cities (location u) (pincode u) = None.
Proof.
  unfold calculate.
  destruct (findCityData cities (location u) (pincode u)) as [c|]; split.
  - intros [m H]. discriminate H.
  - discriminate.
  - reflexivity.
  - intros _. eexists. reflexivity.
Qed.

Lemma calculate_Return (cities : list CityData) (k : Coefficients) (u : UserInput)
  (t : CalculationType.t) :
  (exists r, calculate cities k u t = JS.Return r)
  <-> findCityData cities (location u) (pincode u) <> None.
Proof.
  unfold calculate.
  destruct (findCityData cities (location u) (pincode u)) as [c|]; split.
  - discriminate.
  - intros _. eexists. reflexivity.
  - intros [r H]. discriminate H.
  - intros N. now elim N.
Qed.

(** C9.  City resolution returns a record of the table whenever the table is
    not empty: the first entry whose pincode starts with the first three
    characters of the input pincode, else the first entry matched by name
    (lower-cased city or state containing the lower-cased location, or the
    location containing the city), else the first entry named Delhi, else the
    first entry of the table.  [calculate] throws exactly when the table is
    empty and returns a result exactly when it is not. *)
Theorem city_resolution_and_failure
  (cities : list CityData) (k : Coefficients) (u : UserInput) (t : CalculationType.t) :
  let resolved := findCityData cities (location u) (pincode u) in
  let byPincode := find (Spec.matchesPincode (pincode u)) cities in
  let byName := find (Spec.matchesName (location u)) cities in
  let delhi := find Spec.isDelhi cities in
  (cities <> [] -> exists c, resolved = Some c /\ In c cities)
  /\ (forall c, byPincode = Some c -> resolved = Some c)
  /\ (forall c, byPincode = None -> byName = Some c -> resolved = Some c)
  /\ (forall c, byPincode = None -> byName = None -> delhi = Some c -> resolved = Some c)
  /\ (byPincode = None -> byName = None -> delhi = None -> resolved = hd_error cities)
  /\ ((exists m, calculate cities k u t = JS.Throw m) <-> cities = [])
  /\ ((exists r, calculate cities k u t = JS.Return r) <-> cities <> []).
Proof.
  cbv zeta.
  pose proof (findCityData_priority cities (location u) (pincode u)) as P.
  pose proof (findCityData_None cities (location u) (pincode u)) as N.
  repeat split.
  - intros NE. destruct (findCityData cities (location u) (pincode u)) as [c|] eqn:F.
    + exists c. split; [reflexivity | eapply findCityData_In; eauto].
    + elim NE. now apply N.
  - intros c E. now rewrite P, E.
  - intros c E1 E2. now rewrite P, E1, E2.
  - intros c E1 E2 E3. now rewrite P, E1, E2, E3.
  - intros E1 E2 E3. now rewrite P, E1, E2, E3.
  - intros T. apply N. now apply calculate_Throw in T.
  - intros E. apply calculate_Throw. now apply N.
  - intros R E. apply calculate_Return in R. apply R. now apply N.
  - intros NE. apply calculate_Return. intros E. apply NE. now apply N.
Qed.

Lemma city_resolution_and_failure_witness :
  findCityData Sample.cities "Mumbai" "400050" = Some Sample.mumbai
  /\ (exists c, findCityData Sample.cities "Mumbai" "400050" = Some c
                /\ In c Sample.cities)
  /\ exists r,
       calculate Sample.cities Sample.coefficients Sample.household
         CalculationType.rainwater = JS.Return r.
Proof.
  destruct (city_resolution_and_failure Sample.cities Sample.coefficients
              Sample.household CalculationType.rainwater)
    as (S & P & _ & _ & _ & _ & R).
  split; [|split].
  - apply P. reflexivity.
  - apply S. discriminate.
  - apply R. discriminate.
Defined.

(** The four tiers of the resolution on the sample table. *)
Example resolve_by_pincode :
  findCityData Sample.cities "Pune" "110055" = Some Sample.delhi.
Proof. reflexivity. Qed.

Example resolve_by_name :
  findCityData Sample.cities "Navi MUMBAI" "999999" = Some Sample.mumbai.
Proof. reflexivity. Qed.

Example resolve_by_state :
  findCityData Sample.cities "mahara" "999999" = Some Sample.mumbai.
Proof. reflexivity. Qed.

Example resolve_fallback_delhi :
  findCityData Sample.cities "Zurich" "999999" = Some Sample.delhi.
Proof. reflexivity. Qed.

Example resolve_first_entry :
  findCityData [Sample.mumbai] "Zurich" "999999" = Some Sample.mumbai.
Proof. reflexivity. Qed.

Example calculate_empty_table :
  calculate [] Sample.coefficients Sample.smallRoof CalculationType.rainwater
  = JS.Throw "City data not found for New Delhi, 110020".
Proof. reflexivity. Qed.

(* ================================================================= *)
(** ** The recharge-only fields *)

(** C7.  Over a table that is not empty, [calculate] in recharge mode returns
    a result that has both [rechargeVolume] and [pitDimensions], and in
    rainwater mode a result that has neither. *)
Theorem recharge_fields_follow_mode
  (cities : list CityData) (k : Coefficients) (u : UserInput) :
  cities <> [] ->
  exists rr rw : CalculationResults,
    calculate cities k u CalculationType.recharge = JS.Return rr
    /\ calculate cities k u CalculationType.rainwater = JS.Return rw
    /\ (exists v, rechargeVolume rr = Some v)
    /\ (exists p, pitDimensions rr = Some p)
    /\ rechargeVolume rw = None
    /\ pitDimensions rw = None.
Proof.
  intros NE. unfold calculate.
  destruct (findCityData cities (location u) (pincode u)) as [c|] eqn:F.
  - do 2 eexists. split; [reflexivity|]. split; [reflexivity|].
    cbn [CalculationType.is_recharge set_recharge rechargeVolume pitDimensions].
    repeat split; eexists; reflexivity.
  - apply findCityData_None in F. contradiction.
Qed.

Lemma recharge_fields_follow_mode_witness :
  exists rr rw : CalculationResults,
    calculate Sample.cities Sample.coefficients Sample.household
      CalculationType.recharge = JS.Return rr
    /\ calculate Sample.cities Sample.coefficients Sample.household
         CalculationType.rainwater = JS.Return rw
    /\ (exists v, rechargeVolume rr = Some v)
    /\ (exists p, pitDimensions rr = Some p)
    /\ rechargeVolume rw = None
    /\ pitDimensions rw = None.
Proof.
  apply (recharge_fields_follow_mode Sample.cities Sample.coefficients Sample.household).
  discriminate.
Defined.

(* ================================================================= *)
(** ** Recharge volume *)

Lemma recharge_volume_spec (k : Coefficients) (u : UserInput) (pot : Z) (c : CityData) :
  recharge_rechargeVolume (calculateRechargeSystem k u pot c)
  = Spec.rechargeVolume pot (soilType u).
Proof.
  unfold calculateRechargeSystem, Spec.rechargeVolume. cbn [recharge_rechargeVolume].
  destruct (soilType u); reflexivity.
Qed.


(* ================================================================= *)
(** ** Tank dimensions *)

(** [toFixed1] returns the tenth nearest to the root: for [n] tenths,
    [n - 1/2 <= 10 sqrt q < n + 1/2], stated on the squares. *)
Lemma toFixed1_nearest_tenth (q : Q) :
  0 <= q ->
  exists n : Z,
    JS.toFixed1 (JS.Root q) = JS.Fin (inject_Z n / 10)
    /\ (0 <= n)%Z
    /\ ((0 < n)%Z -> inject_Z ((2 * n - 1) * (2 * n - 1)) <= 400 * q)
    /\ 400 * q < inject_Z ((2 * n + 1) * (2 * n + 1)).
Proof.
  intros P. cbn [JS.toFixed1].
  set (a := Qfloor (400 * q)). set (s := Z.sqrt a).
  assert (A : (0 <= a)%Z).
  { unfold a. rewrite <- (Qfloor_Z 0). apply Qfloor_resp_le.
    change (inject_Z 0) with 0. lra. }
  pose proof (Z.sqrt_spec a A) as S. cbv zeta in S. fold s in S.
  assert (S0 : (0 <= s)%Z) by apply Z.sqrt_nonneg.
  exists ((s + 1) / 2)%Z. set (n := ((s + 1) / 2)%Z).
  assert (N : (2 * n <= s + 1 < 2 * n + 2)%Z).
  { unfold n. pose proof (Z.div_mod (s + 1) 2 ltac:(lia)).
    pose proof (Z.mod_pos_bound (s + 1) 2 ltac:(lia)). lia. }
  split; [reflexivity|]. split; [lia|]. split.
  - intros Pn. eapply Qle_trans; [|apply (Qfloor_le (400 * q))].
    fold a. rewrite <- Zle_Qle.
    assert ((2 * n - 1) * (2 * n - 1) <= s * s)%Z
      by (apply Z.mul_le_mono_nonneg; lia).
    lia.
  - eapply Qlt_le_trans; [apply (Qlt_floor (400 * q))|].
    fold a. rewrite <- Zle_Qle.
    assert (Z.succ s * Z.succ s <= (2 * n + 1) * (2 * n + 1))%Z
      by (apply Z.mul_le_mono_nonneg; lia).
    lia.
Qed.

Example toFixed1_values :
  JS.toFixed1 (JS.Math_sqrt (JS.Fin 2)) = JS.Fin 1.4
  /\ JS.toFixed1 (JS.Math_sqrt (JS.Fin 0.8)) = JS.Fin 0.9
  /\ JS.toFixed1 (JS.Math_sqrt (JS.Fin 0.7)) = JS.Fin 0.8
  /\ JS.toFixed1 (JS.Math_sqrt (JS.Fin (-1))) = JS.NaN.
Proof. repeat split; vm_compute; reflexivity. Qed.

Lemma toFixed1_sqrt_comp (a b : Q) :
  a == b -> JS.toFixed1 (JS.Math_sqrt (JS.Fin a)) = JS.toFixed1 (JS.Math_sqrt (JS.Fin b)).
Proof.
  intros E. cbn [JS.Math_sqrt].
  assert (B : Qle_bool 0 a = Qle_bool 0 b).
  { destruct (Qle_bool 0 a) eqn:A, (Qle_bool 0 b) eqn:B'; try reflexivity.
    - apply Qle_bool_true in A. apply Qle_bool_false in B'. rewrite E in A. lra.
    - apply Qle_bool_true in B'. apply Qle_bool_false in A. rewrite E in A. lra. }
  rewrite B. destruct (Qle_bool 0 b); [|reflexivity].
  cbn [JS.toFixed1]. rewrite (Qfloor_comp (400 * a) (400 * b)); [reflexivity|].
  now rewrite E.
Qed.

(** The diameter the engine returns is the diameter of a tank of the capacity
    before the floor of 2000 liters is applied. *)
Lemma storage_tank_diameter (pot : Z) (monthly : list Z) (hd : Z) :
  diameter (dimensions (calculateStorageTank pot monthly hd))
  = Spec.tankDiameter
      (Z.min (Z.min (JS.Math_round (inject_Z hd / 365 * 35))
                    (JS.Math_round (inject_Z pot * 0.2)))
             15000).
Proof.
  unfold calculateStorageTank, Spec.tankDiameter. cbn [dimensions diameter].
  apply toFixed1_sqrt_comp. field. discriminate.
Qed.

(** Where the floor does not apply, the diameter is that of the capacity. *)
Lemma storage_tank_diameter_above_floor (pot : Z) (monthly : list Z) (hd : Z) :
  (2000 <= JS.Math_round (inject_Z hd / 365 * 35))%Z ->
  (2000 <= JS.Math_round (inject_Z pot * 0.2))%Z ->
  diameter (dimensions (calculateStorageTank pot monthly hd))
  = Spec.tankDiameter (capacity (calculateStorageTank pot monthly hd)).
Proof.
  intros D P. rewrite storage_tank_diameter.
  unfold calculateStorageTank. cbn [capacity]. f_equal. lia.
Qed.

Lemma storage_tank_height (pot : Z) (monthly : list Z) (hd : Z) :
  height (dimensions (calculateStorageTank pot monthly hd)) == 2.
Proof. reflexivity. Qed.

(** A cylinder of 2 m holding at most 1731 liters has a diameter of one
    meter at most, to one decimal. *)
Lemma spec_tankDiameter_below_1732 (c : Z) :
  (0 <= c <= 1731)%Z ->
  exists n : Z, Spec.tankDiameter c = JS.Fin (inject_Z n / 10) /\ (0 <= n <= 10)%Z.
Proof.
  intros [L U]. unfold Spec.tankDiameter.
  set (q := 4 * (inject_Z c / 1000) / (2 * JS.Math_PI)).
  assert (K : q == inject_Z c * (4 / 1000 / (2 * JS.Math_PI))) by (unfold q; field; discriminate).
  assert (P : 0 <= q).
  { rewrite K. apply Qmult_le_0_compat; [|discriminate].
    change 0 with (inject_Z 0). now rewrite <- Zle_Qle. }
  destruct (toFixed1_nearest_tenth q P) as (n & E & N0 & Lo & Hi).
  exists n. split.
  - cbn [JS.Math_sqrt]. apply Qle_bool_iff in P. rewrite P. exact E.
  - split; [exact N0|].
    destruct (Z_lt_le_dec 10 n) as [G|]; [exfalso|assumption].
    specialize (Lo ltac:(lia)).
    assert (B : inject_Z (21 * 21) <= 400 * q).
    { eapply Qle_trans; [|exact Lo]. rewrite <- Zle_Qle.
      apply Z.mul_le_mono_nonneg; lia. }
    assert (C : 400 * q <= 400 * (inject_Z 1731 * (4 / 1000 / (2 * JS.Math_PI)))).
    { rewrite K. apply Qmult_le_l; [reflexivity|].
      apply Qmult_le_compat_r; [now rewrite <- Zle_Qle | discriminate]. }
    assert (D : 400 * (inject_Z 1731 * (4 / 1000 / (2 * JS.Math_PI))) < inject_Z (21 * 21))
      by reflexivity.
    lra.
Qed.

(** Whenever the capacity before the floor is at most 1731 liters, the result
    pairs the capacity 2000 with a diameter of at most 1.0 m, while a tank of
    2000 liters has the diameter 1.1 m. *)
Lemma storage_tank_diameter_below_floor (pot : Z) (monthly : list Z) (hd : Z) :
  let raw :=
    Z.min (Z.min (JS.Math_round (inject_Z hd / 365 * 35))
                 (JS.Math_round (inject_Z pot * 0.2)))
          15000 in
  (0 <= raw <= 1731)%Z ->
  capacity (calculateStorageTank pot monthly hd) = 2000%Z
  /\ Spec.tankDiameter 2000 = JS.Fin (inject_Z 11 / 10)
  /\ exists n : Z,
       diameter (dimensions (calculateStorageTank pot monthly hd))
       = JS.Fin (inject_Z n / 10)
       /\ (0 <= n <= 10)%Z.
Proof.
  intros raw R. split; [|split].
  - unfold calculateStorageTank. cbn [capacity]. fold raw. lia.
  - vm_compute. reflexivity.
  - rewrite storage_tank_diameter. fold raw.
    apply spec_tankDiameter_below_1732. exact R.
Qed.

(** C2.  The height of the returned tank is 2 m, but the diameter is solved
    from the capacity before the floor of 2000 liters, not from the capacity
    of the result.  One person under a 10 m2 roof in Delhi: the potential is
    6224 liters, a fifth of it 1245 liters, the capacity of the result 2000
    liters and its diameter 0.9 m, where a cylinder of 2000 liters and 2 m
    has a diameter of 1.1 m; a potential of 10000 liters gives the same
    capacity with the diameter 1.1 m. *)
Theorem tank_diameter_ignores_capacity_floor :
  exists r : CalculationResults,
    calculate Sample.cities Sample.coefficients Sample.smallRoof
      CalculationType.rainwater = JS.Return r
    /\ rainwaterPotential r = 6224%Z
    /\ householdDemand r = 49275%Z
    /\ tankCapacity r = 2000%Z
    /\ height (tankDimensions r) == 2
    /\ diameter (tankDimensions r) = JS.Fin 0.9
    /\ Spec.tankDiameter (tankCapacity r) = JS.Fin 1.1
    /\ ~ sameNumber (diameter (tankDimensions r)) (Spec.tankDiameter (tankCapacity r))
    /\ capacity (calculateStorageTank 10000 (monthlyPotential r) 49275) = tankCapacity r
    /\ diameter (dimensions (calculateStorageTank 10000 (monthlyPotential r) 49275))
       = JS.Fin 1.1.
Proof.
  eexists. split; [vm_compute; reflexivity|].
  repeat split; try (vm_compute; congruence).
Qed.

(* ================================================================= *)
(** ** Further properties of the engine *)

(** Opens two results of [calculate] on the same input, one per mode, over
    the one city record both resolve. *)
Ltac open_both H1 H2 c F r1 r2 :=
  unfold calculate in H1, H2;
  destruct (findCityData _ _ _) as [c|] eqn:F; [|discriminate H1];
  apply (f_equal (fun o => match o with JS.Return a => a | JS.Throw _ => r1 end)) in H1;
  apply (f_equal (fun o => match o with JS.Return a => a | JS.Throw _ => r2 end)) in H2;
  lazy beta iota in H1, H2; subst r1 r2;
  cbn [CalculationType.is_recharge].

(** X1.  The calculation mode changes nothing but the system cost, the
    payback period and the two recharge fields: potential, demand, coverage,
    first flush, tank, annual savings, feasibility and messages of the two
    results of one input are the same. *)
Theorem mode_changes_only_cost_and_recharge
  (cities : list CityData) (k : Coefficients) (u : UserInput)
  (rw rr : CalculationResults) :
  calculate cities k u CalculationType.rainwater = JS.Return rw ->
  calculate cities k u CalculationType.recharge = JS.Return rr ->
  rainwaterPotential rr = rainwaterPotential rw
  /\ monthlyPotential rr = monthlyPotential rw
  /\ householdDemand rr = householdDemand rw
  /\ coveragePercentage rr = coveragePercentage rw
  /\ firstFlush rr = firstFlush rw
  /\ tankCapacity rr = tankCapacity rw
  /\ tankDimensions rr = tankDimensions rw
  /\ annualSavings rr = annualSavings rw
  /\ feasibilityScore rr = feasibilityScore rw
  /\ feasibilityLevel rr = feasibilityLevel rw
  /\ recommendations rr = recommendations rw
  /\ warnings rr = warnings rw.
Proof.
  intros H1 H2. open_both H1 H2 c F rw rr.
  cbn [set_recharge rainwaterPotential monthlyPotential householdDemand
       coveragePercentage firstFlush tankCapacity tankDimensions annualSavings
       feasibilityScore feasibilityLevel recommendations warnings].
  rewrite !costs_annualSavings_spec.
  repeat split; reflexivity.
Qed.

Lemma mode_changes_only_cost_and_recharge_witness :
  exists rw rr,
    calculate Sample.cities Sample.coefficients Sample.household
      CalculationType.rainwater = JS.Return rw
    /\ calculate Sample.cities Sample.coefficients Sample.household
         CalculationType.recharge = JS.Return rr
    /\ tankCapacity rr = tankCapacity rw
    /\ warnings rr = warnings rw.
Proof.
  do 2 eexists. split; [vm_compute; reflexivity|]. split; [vm_compute; reflexivity|].
  destruct (mode_changes_only_cost_and_recharge Sample.cities Sample.coefficients
              Sample.household _ _ eq_refl eq_refl)
    as (_ & _ & _ & _ & _ & C & _ & _ & _ & _ & _ & W).
  split; assumption.
Defined.







Lemma result_payback
  (cities : list CityData) (k : Coefficients) (u : UserInput)
  (t : CalculationType.t) (r : CalculationResults) :
  calculate cities k u t = JS.Return r ->
  paybackPeriod r = Spec.paybackPeriod (medium (systemCost r)) (annualSavings r).
Proof.
  intros H. open_calculate H c F r.
  destruct t;
    cbn [CalculationType.is_recharge set_recharge paybackPeriod systemCost annualSavings];
    apply costs_paybackPeriod_spec.
Qed.



(** X4.  With a daily consumption that is not negative, the household demand
    is not negative and does not decrease when the dwellers increase or the
    purpose moves from Domestic to Irrigation to Industrial. *)
Theorem household_demand_grows_with_purpose_and_dwellers
  (k : Coefficients) (u v : UserInput) :
  0 <= domesticConsumption (waterRates k) ->
  0 <= dwellers u <= dwellers v ->
  (purpose u = purpose v
   \/ purpose u = Purpose.Domestic
   \/ purpose v = Purpose.Industrial) ->
  (0 <= calculateHouseholdDemand k u <= calculateHouseholdDemand k v)%Z.
Proof.
  intros C [D0 D] P. unfold calculateHouseholdDemand. cbv zeta.
  set (dc := domesticConsumption (waterRates k)) in *.
  assert (X : 0 <= dwellers u * dc) by nra.
  assert (Y : dwellers u * dc <= dwellers v * dc) by nra.
  split.
  - apply Math_round_nonneg. destruct (purpose u); nra.
  - apply Math_round_mono.
    destruct P as [P|[P|P]].
    + rewrite P. destruct (purpose v); nra.
    + rewrite P. destruct (purpose v); nra.
    + rewrite P. destruct (purpose u); nra.
Qed.


Lemma household_demand_grows_witness :
  (0 <= calculateHouseholdDemand Sample.coefficients Sample.smallRoof
   <= calculateHouseholdDemand Sample.coefficients Sample.shed)%Z.
Proof.
  apply household_demand_grows_with_purpose_and_dwellers.
  - discriminate.
  - split; discriminate.
  - right. left. reflexivity.
Defined.

(** X5.  The tank capacity does not decrease when the annual potential and
    the household demand increase. *)
Theorem tank_capacity_monotone (pot pot' : Z) (m m' : list Z) (hd hd' : Z) :
  (pot <= pot')%Z -> (hd <= hd')%Z ->
  (capacity (calculateStorageTank pot m hd)
   <= capacity (calculateStorageTank pot' m' hd'))%Z.
Proof.
  intros P H. unfold calculateStorageTank. cbn [capacity].
  assert (A : (JS.Math_round (inject_Z hd / 365 * 35)
               <= JS.Math_round (inject_Z hd' / 365 * 35))%Z).
  { apply Math_round_mono. rewrite Zle_Qle in H.
    apply Qmult_le_compat_r; [|discriminate].
    apply Qmult_le_compat_r; [exact H | discriminate]. }
  assert (B : (JS.Math_round (inject_Z pot * 0.2)
               <= JS.Math_round (inject_Z pot' * 0.2))%Z).
  { apply Math_round_mono. rewrite Zle_Qle in P. lra. }
  lia.
Qed.

Lemma tank_capacity_monotone_witness :
  (capacity (calculateStorageTank 6224 [] 49275)
   <= capacity (calculateStorageTank 190880 [] 197100))%Z.
Proof.
  apply tank_capacity_monotone; lia.
Defined.




(** X8.  When the medium-tier cost is at least 20 times max(annual savings,
    1), the payback period is exactly the cap of 20 years. *)
Theorem payback_period_reaches_cap
  (cities : list CityData) (k : Coefficients) (u : UserInput)
  (t : CalculationType.t) (r : CalculationResults) :
  calculate cities k u t = JS.Return r ->
  (20 * Z.max (annualSavings r) 1 <= medium (systemCost r))%Z ->
  paybackPeriod r = 20%Z.
Proof.
  intros H L. rewrite (result_payback _ _ _ _ _ H). unfold Spec.paybackPeriod.
  set (s := Z.max (annualSavings r) 1) in *.
  assert (S1 : (1 <= s)%Z) by (unfold s; lia).
  assert ((20 <= JS.Math_round (inject_Z (medium (systemCost r)) / inject_Z s))%Z);
    [|lia].
  apply Math_round_ge. apply Qle_shift_div_l.
  - change 0 with (inject_Z 0). rewrite <- Zlt_Qlt. lia.
  - rewrite <- inject_Z_mult, <- Zle_Qle. exact L.
Qed.

(** X9.  When the annual savings are at most 1, the divisor is 1 and the
    payback period is the medium-tier cost itself, capped at 20. *)
Theorem payback_is_cost_when_nothing_is_saved
  (cities : list CityData) (k : Coefficients) (u : UserInput)
  (t : CalculationType.t) (r : CalculationResults) :
  calculate cities k u t = JS.Return r ->
  (annualSavings r <= 1)%Z ->
  paybackPeriod r = Z.min (medium (systemCost r)) 20.
Proof.
  intros H L. rewrite (result_payback _ _ _ _ _ H). unfold Spec.paybackPeriod.
  replace (Z.max (annualSavings r) 1) with 1%Z by lia.
  f_equal. rewrite <- (Math_round_Z (medium (systemCost r))) at 2.
  apply Math_round_comp. change (inject_Z 1) with 1. field.
Qed.

Lemma payback_period_reaches_cap_witness :
  exists r,
    calculate Sample.cities Sample.coefficients Sample.vacant
      CalculationType.recharge = JS.Return r
    /\ paybackPeriod r = 20%Z.
Proof.
  eexists. split; [vm_compute; reflexivity|].
  apply (payback_period_reaches_cap Sample.cities Sample.coefficients Sample.vacant
           CalculationType.recharge); [reflexivity | vm_compute; discriminate].
Defined.

Lemma payback_is_cost_when_nothing_is_saved_witness :
  exists r,
    calculate Sample.cities Sample.coefficients Sample.vacant
      CalculationType.rainwater = JS.Return r
    /\ paybackPeriod r = Z.min (medium (systemCost r)) 20.
Proof.
  eexists. split; [vm_compute; reflexivity|].
  apply (payback_is_cost_when_nothing_is_saved Sample.cities Sample.coefficients
           Sample.vacant CalculationType.rainwater);
    [reflexivity | vm_compute; discriminate].
Defined.

(** X11.  For a potential that is not negative, the recharge volume is not
    negative, does not decrease from clayey to loamy to sandy soil, and never
    exceeds the potential in cubic meters, rounded. *)
Theorem recharge_volume_grows_with_soil_and_stays_below_potential
  (k : Coefficients) (u v : UserInput) (pot : Z) (c c' : CityData) :
  (0 <= pot)%Z ->
  (soilType u = soilType v
   \/ soilType u = SoilType.Clayey
   \/ soilType v = SoilType.Sandy) ->
  (0 <= recharge_rechargeVolume (calculateRechargeSystem k u pot c)
   <= recharge_rechargeVolume (calculateRechargeSystem k v pot c'))%Z
  /\ (recharge_rechargeVolume (calculateRechargeSystem k v pot c')
      <= JS.Math_round (inject_Z pot / 1000))%Z.
Proof.
  intros P S. rewrite !recharge_volume_spec. unfold Spec.rechargeVolume.
  assert (X : 0 <= inject_Z pot / 1000).
  { apply Qle_shift_div_l; [reflexivity|]. rewrite Qmult_0_l.
    change 0 with (inject_Z 0). now rewrite <- Zle_Qle. }
  set (x := inject_Z pot / 1000) in *.
  repeat split.
  - apply Math_round_nonneg. destruct (soilType u); cbn [Spec.rechargeFactor]; nra.
  - apply Math_round_mono. destruct S as [S|[S|S]]; rewrite S.
    + lra.
    + destruct (soilType v); cbn [Spec.rechargeFactor]; nra.
    + destruct (soilType u); cbn [Spec.rechargeFactor]; nra.
  - apply Math_round_mono. destruct (soilType v); cbn [Spec.rechargeFactor]; nra.
Qed.

Lemma recharge_volume_grows_witness :
  (0 <= recharge_rechargeVolume
          (calculateRechargeSystem Sample.coefficients Sample.smallRoof 190880
             Sample.mumbai)
   <= recharge_rechargeVolume
        (calculateRechargeSystem Sample.coefficients Sample.bungalow 190880
           Sample.mumbai))%Z.
Proof.
  apply (recharge_volume_grows_with_soil_and_stays_below_potential
           Sample.coefficients Sample.smallRoof Sample.bungalow 190880
           Sample.mumbai Sample.mumbai).
  - lia.
  - right. left. reflexivity.
Defined.

(* ================================================================= *)
(** ** The messages of the feasibility stage *)


Lemma warnings_rainfallAdequacy (c : CityData) (t : Tally) :
  tally_warnings (rainfallAdequacy c t)
  = tally_warnings t
    ++ (if Qle_bool (annualRainfall c) 600
        then ["Low rainfall area - consider supplementary water sources"%string] else []).
Proof.
  unfold rainfallAdequacy, JS.Qgtb.
  destruct (Qle_bool (annualRainfall c) 1000) eqn:A,
           (Qle_bool (annualRainfall c) 600) eqn:B;
    cbn [negb recommend warn tally_warnings]; rewrite ?app_nil_r; try reflexivity.
  apply Qle_bool_false in A. apply Qle_bool_true in B. lra.
Qed.

Lemma warnings_roofSuitability (u : UserInput) (t : Tally) :
  tally_warnings (roofSuitability u t)
  = tally_warnings t
    ++ (if match roofType u with RoofType.Asbestos => true | _ => false end
        then ["Asbestos roofs require regular cleaning and filtration"%string] else []).
Proof.
  unfold roofSuitability.
  destruct (roofType u); cbn [recommend warn tally_warnings];
    rewrite ?app_nil_r; reflexivity.
Qed.

Lemma warnings_soilConditions (u : UserInput) (t : Tally) :
  tally_warnings (soilConditions u t) = tally_warnings t.
Proof. unfold soilConditions. destruct (soilType u); reflexivity. Qed.

Lemma warnings_groundwaterBand (u : UserInput) (t : Tally) :
  tally_warnings (groundwaterBand u t)
  = tally_warnings t
    ++ (if Qle_bool (groundwaterDepth u) 3 then
          ["Shallow groundwater - ensure proper drainage to prevent waterlogging"%string]
        else [])
    ++ (if negb (Qle_bool (groundwaterDepth u) 3) && Qle_bool 30 (groundwaterDepth u) then
          ["Deep groundwater - recharge benefits may take longer to realize"%string]
        else []).
Proof.
  unfold groundwaterBand, JS.Qgtb, JS.Qltb.
  destruct (Qle_bool (groundwaterDepth u) 3) eqn:A,
           (Qle_bool 30 (groundwaterDepth u)) eqn:B;
    cbn [negb andb recommend warn tally_warnings];
    rewrite <- ?app_assoc, ?app_nil_r; reflexivity.
Qed.

Lemma warnings_coverageAnalysis (pot hd : Z) (t : Tally) :
  tally_warnings (coverageAnalysis pot hd t) = tally_warnings t.
Proof.
  unfold coverageAnalysis. cbv zeta.
  repeat match goal with
         | |- context [if ?b then _ else _] => destruct b
         end; reflexivity.
Qed.

Lemma warnings_environmentalFactors (u : UserInput) (t : Tally) :
  tally_warnings (environmentalFactors u t)
  = tally_warnings t
    ++ (if birdNesting u then
          ["Bird nesting detected - install mesh covers and regular cleaning required"%string]
        else [])
    ++ (if match environment u with Environment.Industrial => true | _ => false end then
          ["Industrial area - test water quality regularly and use appropriate filtration"%string]
        else []).
Proof.
  unfold environmentalFactors, when. cbv zeta.
  destruct (birdNesting u), (environment u); cbn [warn tally_warnings];
    rewrite <- ?app_assoc, ?app_nil_r; reflexivity.
Qed.

Lemma warnings_monsoonDependency (c : CityData) (t : Tally) :
  tally_warnings (monsoonDependency c t)
  = tally_warnings t
    ++ (if JS.gtb
             (JS.div (fold_left Qplus (JS.slice 5 9 (monthlyRainfall c)) 0)
                     (annualRainfall c))
             (JS.Fin 0.7)
        then ["High monsoon dependency - 70%+ rainfall in 4 months"%string] else []).
Proof.
  unfold monsoonDependency, when. cbv zeta.
  match goal with
  | |- context [if ?b then _ else _] => destruct b
  end; cbn [warn tally_warnings]; rewrite ?app_nil_r; reflexivity.
Qed.

Lemma warnings_standardRecommendations (u : UserInput) (t : Tally) :
  tally_warnings (standardRecommendations u t) = tally_warnings t.
Proof.
  unfold standardRecommendations, when. cbv zeta.
  destruct (purpose u), (hasOpenSpace u); reflexivity.
Qed.

(** The warnings of [calculateFeasibility], in the order they are pushed. *)
Lemma warnings_feasibilityTally (u : UserInput) (c : CityData) (pot hd : Z) :
  tally_warnings (feasibilityTally u c pot hd)
  = (if Qle_bool (annualRainfall c) 600
     then ["Low rainfall area - consider supplementary water sources"%string] else [])
    ++ (if match roofType u with RoofType.Asbestos => true | _ => false end
        then ["Asbestos roofs require regular cleaning and filtration"%string] else [])
    ++ (if Qle_bool (groundwaterDepth u) 3 then
          ["Shallow groundwater - ensure proper drainage to prevent waterlogging"%string]
        else [])
    ++ (if negb (Qle_bool (groundwaterDepth u) 3) && Qle_bool 30 (groundwaterDepth u) then
          ["Deep groundwater - recharge benefits may take longer to realize"%string]
        else [])
    ++ (if birdNesting u then
          ["Bird nesting detected - install mesh covers and regular cleaning required"%string]
        else [])
    ++ (if match environment u with Environment.Industrial => true | _ => false end then
          ["Industrial area - test water quality regularly and use appropriate filtration"%string]
        else [])
    ++ (if JS.gtb
             (JS.div (fold_left Qplus (JS.slice 5 9 (monthlyRainfall c)) 0)
                     (annualRainfall c))
             (JS.Fin 0.7)
        then ["High monsoon dependency - 70%+ rainfall in 4 months"%string] else []).
Proof.
  unfold feasibilityTally. cbv zeta.
  rewrite warnings_standardRecommendations, warnings_monsoonDependency,
    warnings_environmentalFactors, warnings_coverageAnalysis,
    warnings_groundwaterBand, warnings_soilConditions, warnings_roofSuitability,
    warnings_rainfallAdequacy.
  cbn [tally_warnings]. rewrite <- !app_assoc. reflexivity.
Qed.

Lemma In_if_singleton (b : bool) (x s : string) :
  In s (if b then [x] else []) <-> b && String.eqb x s = true.
Proof.
  destruct b; cbn [In andb].
  - rewrite String.eqb_eq. intuition.
  - intuition discriminate.
Qed.

(** Decides the comparisons of message texts in the goal and leaves the
    conditions under which each message is pushed. *)
Ltac decide_messages :=
  rewrite ?in_app_iff, ?In_if_singleton;
  repeat match goal with
         | |- context [String.eqb ?x ?y] =>
             let v := eval vm_compute in (String.eqb x y) in
             change (String.eqb x y) with v
         end;
  rewrite ?andb_false_r, ?andb_true_r.

Lemma result_warnings
  (cities : list CityData) (k : Coefficients) (u : UserInput)
  (t : CalculationType.t) (r : CalculationResults) :
  calculate cities k u t = JS.Return r ->
  exists c,
    findCityData cities (location u) (pincode u) = Some c
    /\ warnings r
       = tally_warnings
           (feasibilityTally u c (rainwaterPotential r) (householdDemand r))
    /\ recommendations r
       = tally_recommendations
           (feasibilityTally u c (rainwaterPotential r) (householdDemand r)).
Proof.
  intros H. open_calculate H c F r. exists c. destruct t; repeat split; reflexivity.
Qed.

(** X12.  Five warnings are in the result exactly when the input asks for
    them: bird nesting when the flag is set, industrial area for an Industrial
    environment, asbestos for an Asbestos roof, shallow groundwater for a
    depth of at most 3 m, deep groundwater for a depth of at least 30 m. *)
Theorem warnings_follow_the_input
  (cities : list CityData) (k : Coefficients) (u : UserInput)
  (t : CalculationType.t) (r : CalculationResults) :
  calculate cities k u t = JS.Return r ->
  (In "Bird nesting detected - install mesh covers and regular cleaning required"%string
      (warnings r)
   <-> birdNesting u = true)
  /\ (In "Industrial area - test water quality regularly and use appropriate filtration"%string
         (warnings r)
      <-> environment u = Environment.Industrial)
  /\ (In "Asbestos roofs require regular cleaning and filtration"%string (warnings r)
      <-> roofType u = RoofType.Asbestos)
  /\ (In "Shallow groundwater - ensure proper drainage to prevent waterlogging"%string
         (warnings r)
      <-> groundwaterDepth u <= 3)
  /\ (In "Deep groundwater - recharge benefits may take longer to realize"%string
         (warnings r)
      <-> 30 <= groundwaterDepth u).
Proof.
  intros H. destruct (result_warnings _ _ _ _ _ H) as (c & _ & W & _).
  rewrite W, warnings_feasibilityTally. clear W H.
  split; [|split; [|split; [|split]]]; decide_messages.
  - destruct (birdNesting u); intuition congruence.
  - destruct (environment u); intuition congruence.
  - destruct (roofType u); intuition congruence.
  - rewrite Qle_bool_iff. intuition congruence.
  - destruct (Qle_bool (groundwaterDepth u) 3) eqn:G3; cbn [negb andb];
      rewrite <- Qle_bool_iff.
    + apply Qle_bool_true in G3.
      destruct (Qle_bool 30 (groundwaterDepth u)) eqn:G30; [|intuition congruence].
      apply Qle_bool_true in G30. exfalso. lra.
    + intuition congruence.
Qed.

Lemma warnings_follow_the_input_witness :
  exists r,
    calculate Sample.cities Sample.coefficients Sample.shed
      CalculationType.rainwater = JS.Return r
    /\ In "Bird nesting detected - install mesh covers and regular cleaning required"%string
          (warnings r).
Proof.
  eexists. split; [vm_compute; reflexivity|].
  apply (warnings_follow_the_input Sample.cities Sample.coefficients Sample.shed
           CalculationType.rainwater); reflexivity.
Defined.


Lemma recs_rainfallAdequacy (c : CityData) (t : Tally) (s : string) :
  In s (tally_recommendations (rainfallAdequacy c t))
  <-> In s (tally_recommendations t)
      \/ (1000 < annualRainfall c
          /\ "Excellent rainfall - consider larger storage capacity"%string = s)
      \/ (600 < annualRainfall c <= 1000
          /\ "Good rainfall - standard system recommended"%string = s).
Proof.
  unfold rainfallAdequacy, JS.Qgtb.
  destruct (Qle_bool (annualRainfall c) 1000) eqn:A,
           (Qle_bool (annualRainfall c) 600) eqn:B;
    cbn [negb recommend warn tally_recommendations];
    rewrite ?in_app_iff; cbn [In];
    try apply Qle_bool_true in A; try apply Qle_bool_false in A;
    try apply Qle_bool_true in B; try apply Qle_bool_false in B;
    intuition lra.
Qed.

Lemma recs_roofSuitability (u : UserInput) (t : Tally) (s : string) :
  In s (tally_recommendations (roofSuitability u t))
  <-> In s (tally_recommendations t)
      \/ (roofType u = RoofType.RCC
          /\ "RCC roof is excellent for rainwater harvesting"%string = s)
      \/ (roofType u = RoofType.GI
          /\ "GI roof is excellent for rainwater harvesting"%string = s)
      \/ (roofType u = RoofType.Tiles
          /\ "Clay/concrete tiles are suitable with proper first flush diverter"%string = s).
Proof.
  unfold roofSuitability.
  destruct (roofType u);
    cbn [recommend warn tally_recommendations RoofType.name String.append];
    rewrite ?in_app_iff; cbn [In]; intuition discriminate.
Qed.

Lemma recs_soilConditions (u : UserInput) (t : Tally) (s : string) :
  In s (tally_recommendations (soilConditions u t))
  <-> In s (tally_recommendations t)
      \/ (soilType u = SoilType.Sandy
          /\ "Sandy soil is ideal for groundwater recharge"%string = s)
      \/ (soilType u = SoilType.Loamy
          /\ "Loamy soil provides good infiltration for recharge"%string = s)
      \/ (soilType u = SoilType.Clayey
          /\ "Clayey soil requires larger recharge structures"%string = s).
Proof.
  unfold soilConditions.
  destruct (soilType u); cbn [recommend tally_recommendations];
    rewrite ?in_app_iff; cbn [In]; intuition discriminate.
Qed.

Lemma recs_groundwaterBand (u : UserInput) (t : Tally) (s : string) :
  In s (tally_recommendations (groundwaterBand u t))
  <-> In s (tally_recommendations t)
      \/ (3 < groundwaterDepth u < 30
          /\ "Optimal groundwater depth for recharge systems"%string = s).
Proof.
  unfold groundwaterBand, JS.Qgtb, JS.Qltb.
  destruct (Qle_bool (groundwaterDepth u) 3) eqn:A,
           (Qle_bool 30 (groundwaterDepth u)) eqn:B;
    cbn [negb andb recommend warn tally_recommendations];
    rewrite ?in_app_iff; cbn [In];
    try apply Qle_bool_true in A; try apply Qle_bool_false in A;
    try apply Qle_bool_true in B; try apply Qle_bool_false in B;
    intuition lra.
Qed.

Lemma recs_coverageAnalysis (pot hd : Z) (t : Tally) (s : string) :
  let coverage := JS.mul (JS.div (inject_Z pot) (inject_Z hd)) (JS.Fin 100) in
  In s (tally_recommendations (coverageAnalysis pot hd t))
  <-> In s (tally_recommendations t)
      \/ (JS.gtb coverage (JS.Fin 80) = true
          /\ "Excellent coverage - consider selling excess water or larger recharge"%string
             = s)
      \/ (JS.gtb coverage (JS.Fin 80) = false /\ JS.gtb coverage (JS.Fin 50) = true
          /\ "Good coverage - system will significantly reduce water bills"%string = s)
      \/ (JS.gtb coverage (JS.Fin 80) = false /\ JS.gtb coverage (JS.Fin 50) = false
          /\ "Partial coverage - combine with water conservation measures"%string = s).
Proof.
  unfold coverageAnalysis. cbv zeta.
  destruct (JS.gtb _ (JS.Fin 80)), (JS.gtb _ (JS.Fin 50));
    cbn [recommend tally_recommendations];
    rewrite ?in_app_iff; cbn [In]; intuition discriminate.
Qed.

Lemma recs_environmentalFactors (u : UserInput) (t : Tally) :
  tally_recommendations (environmentalFactors u t) = tally_recommendations t.
Proof.
  unfold environmentalFactors, when. cbv zeta.
  destruct (birdNesting u), (environment u); reflexivity.
Qed.

Lemma recs_monsoonDependency (c : CityData) (t : Tally) :
  tally_recommendations (monsoonDependency c t) = tally_recommendations t.
Proof.
  unfold monsoonDependency, when. cbv zeta.
  match goal with
  | |- context [if ?b then _ else _] => destruct b
  end; reflexivity.
Qed.

Lemma recs_standardRecommendations (u : UserInput) (t : Tally) (s : string) :
  In s (tally_recommendations (standardRecommendations u t))
  <-> In s (tally_recommendations t)
      \/ "Install first flush diverter to improve water quality"%string = s
      \/ (purpose u = Purpose.Domestic
          /\ "Consider UV/RO purification for drinking water use"%string = s)
      \/ (hasOpenSpace u = true
          /\ "Connect overflow to recharge pit for maximum benefit"%string = s).
Proof.
  unfold standardRecommendations, when. cbv zeta.
  destruct (purpose u), (hasOpenSpace u);
    cbn [recommend tally_recommendations];
    rewrite ?in_app_iff; cbn [In]; intuition discriminate.
Qed.

(** Which recommendations [calculateFeasibility] pushes, and when. *)
Lemma recs_feasibilityTally (u : UserInput) (c : CityData) (pot hd : Z) (s : string) :
  let coverage := JS.mul (JS.div (inject_Z pot) (inject_Z hd)) (JS.Fin 100) in
  In s (tally_recommendations (feasibilityTally u c pot hd))
  <-> ((1000 < annualRainfall c
        /\ "Excellent rainfall - consider larger storage capacity"%string = s)
       \/ (600 < annualRainfall c <= 1000
           /\ "Good rainfall - standard system recommended"%string = s))
      \/ ((roofType u = RoofType.RCC
           /\ "RCC roof is excellent for rainwater harvesting"%string = s)
          \/ (roofType u = RoofType.GI
              /\ "GI roof is excellent for rainwater harvesting"%string = s)
          \/ (roofType u = RoofType.Tiles
              /\ "Clay/concrete tiles are suitable with proper first flush diverter"%string
                 = s))
      \/ ((soilType u = SoilType.Sandy
           /\ "Sandy soil is ideal for groundwater recharge"%string = s)
          \/ (soilType u = SoilType.Loamy
              /\ "Loamy soil provides good infiltration for recharge"%string = s)
          \/ (soilType u = SoilType.Clayey
              /\ "Clayey soil requires larger recharge structures"%string = s))
      \/ (3 < groundwaterDepth u < 30
          /\ "Optimal groundwater depth for recharge systems"%string = s)
      \/ ((JS.gtb coverage (JS.Fin 80) = true
           /\ "Excellent coverage - consider selling excess water or larger recharge"%string
              = s)
          \/ (JS.gtb coverage (JS.Fin 80) = false /\ JS.gtb coverage (JS.Fin 50) = true
              /\ "Good coverage - system will significantly reduce water bills"%string = s)
          \/ (JS.gtb coverage (JS.Fin 80) = false /\ JS.gtb coverage (JS.Fin 50) = false
              /\ "Partial coverage - combine with water conservation measures"%string = s))
      \/ ("Install first flush diverter to improve water quality"%string = s
          \/ (purpose u = Purpose.Domestic
              /\ "Consider UV/RO purification for drinking water use"%string = s)
          \/ (hasOpenSpace u = true
              /\ "Connect overflow to recharge pit for maximum benefit"%string = s)).
Proof.
  cbv zeta. unfold feasibilityTally. cbv zeta.
  rewrite recs_standardRecommendations, recs_monsoonDependency,
    recs_environmentalFactors.
  pose proof (recs_coverageAnalysis pot hd) as C. cbv zeta in C. rewrite C. clear C.
  rewrite recs_groundwaterBand, recs_soilConditions, recs_roofSuitability,
    recs_rainfallAdequacy.
  cbn [tally_recommendations In]. tauto.
Qed.

(** The same with the texts compared by [String.eqb]. *)
Lemma recs_feasibilityTally_eqb (u : UserInput) (c : CityData) (pot hd : Z) (s : string) :
  let coverage := JS.mul (JS.div (inject_Z pot) (inject_Z hd)) (JS.Fin 100) in
  In s (tally_recommendations (feasibilityTally u c pot hd))
  <-> ((1000 < annualRainfall c
        /\ String.eqb "Excellent rainfall - consider larger storage capacity"%string s = true)
       \/ (600 < annualRainfall c <= 1000
           /\ String.eqb "Good rainfall - standard system recommended"%string s = true))
      \/ ((roofType u = RoofType.RCC
           /\ String.eqb "RCC roof is excellent for rainwater harvesting"%string s = true)
          \/ (roofType u = RoofType.GI
              /\ String.eqb "GI roof is excellent for rainwater harvesting"%string s = true)
          \/ (roofType u = RoofType.Tiles
              /\ String.eqb "Clay/concrete tiles are suitable with proper first flush diverter"%string s = true))
      \/ ((soilType u = SoilType.Sandy
           /\ String.eqb "Sandy soil is ideal for groundwater recharge"%string s = true)
          \/ (soilType u = SoilType.Loamy
              /\ String.eqb "Loamy soil provides good infiltration for recharge"%string s = true)
          \/ (soilType u = SoilType.Clayey
              /\ String.eqb "Clayey soil requires larger recharge structures"%string s = true))
      \/ (3 < groundwaterDepth u < 30
          /\ String.eqb "Optimal groundwater depth for recharge systems"%string s = true)
      \/ ((JS.gtb coverage (JS.Fin 80) = true
           /\ String.eqb "Excellent coverage - consider selling excess water or larger recharge"%string s = true)
          \/ (JS.gtb coverage (JS.Fin 80) = false /\ JS.gtb coverage (JS.Fin 50) = true
              /\ String.eqb "Good coverage - system will significantly reduce water bills"%string s = true)
          \/ (JS.gtb coverage (JS.Fin 80) = false /\ JS.gtb coverage (JS.Fin 50) = false
              /\ String.eqb "Partial coverage - combine with water conservation measures"%string s = true))
      \/ (String.eqb "Install first flush diverter to improve water quality"%string s = true
          \/ (purpose u = Purpose.Domestic
              /\ String.eqb "Consider UV/RO purification for drinking water use"%string s = true)
          \/ (hasOpenSpace u = true
              /\ String.eqb "Connect overflow to recharge pit for maximum benefit"%string s = true)).
Proof.
  cbv zeta. rewrite !String.eqb_eq. apply recs_feasibilityTally.
Qed.

(** Decides the comparisons between message texts in the goal. *)
Ltac decide_texts :=
  repeat match goal with
         | |- context [String.eqb ?x ?y] =>
             let v := eval vm_compute in (String.eqb x y) in
             change (String.eqb x y) with v
         end.

(** X14.  The first-flush recommendation is in every result; the other
    recommendations that depend on the input alone are there exactly when
    their condition holds: purification for Domestic use, overflow for an open
    space, optimal groundwater strictly between 3 and 30 m, one text per soil
    type, and one text per roof type RCC, GI and Tiles. *)
Theorem recommendations_follow_the_input
  (cities : list CityData) (k : Coefficients) (u : UserInput)
  (t : CalculationType.t) (r : CalculationResults) :
  calculate cities k u t = JS.Return r ->
  In "Install first flush diverter to improve water quality"%string (recommendations r)
  /\ (In "Consider UV/RO purification for drinking water use"%string (recommendations r)
      <-> purpose u = Purpose.Domestic)
  /\ (In "Connect overflow to recharge pit for maximum benefit"%string (recommendations r)
      <-> hasOpenSpace u = true)
  /\ (In "Optimal groundwater depth for recharge systems"%string (recommendations r)
      <-> 3 < groundwaterDepth u < 30)
  /\ (In "Sandy soil is ideal for groundwater recharge"%string (recommendations r)
      <-> soilType u = SoilType.Sandy)
  /\ (In "Loamy soil provides good infiltration for recharge"%string (recommendations r)
      <-> soilType u = SoilType.Loamy)
  /\ (In "Clayey soil requires larger recharge structures"%string (recommendations r)
      <-> soilType u = SoilType.Clayey)
  /\ (In "RCC roof is excellent for rainwater harvesting"%string (recommendations r)
      <-> roofType u = RoofType.RCC)
  /\ (In "GI roof is excellent for rainwater harvesting"%string (recommendations r)
      <-> roofType u = RoofType.GI)
  /\ (In "Clay/concrete tiles are suitable with proper first flush diverter"%string
         (recommendations r)
      <-> roofType u = RoofType.Tiles).
Proof.
  intros H. destruct (result_warnings _ _ _ _ _ H) as (c & _ & _ & R).
  rewrite R. clear R H.
  pose proof (recs_feasibilityTally_eqb u c (rainwaterPotential r) (householdDemand r))
    as S.
  cbv zeta in S.
  repeat apply conj; rewrite S; decide_texts; intuition congruence.
Qed.

Lemma recommendations_follow_the_input_witness :
  exists r,
    calculate Sample.cities Sample.coefficients Sample.household
      CalculationType.rainwater = JS.Return r
    /\ In "Consider UV/RO purification for drinking water use"%string (recommendations r).
Proof.
  eexists. split; [vm_compute; reflexivity|].
  apply (recommendations_follow_the_input Sample.cities Sample.coefficients
           Sample.household CalculationType.rainwater); reflexivity.
Defined.




(** The number of recommendations and of warnings a tally holds. *)
Ltac count_messages :=
  repeat match goal with
         | |- context [if ?b then _ else _] => destruct b
         | |- context [match ?x with _ => _ end] => destruct x
         end;
  cbn [recommend warn tally_recommendations tally_warnings];
  rewrite ?length_app; cbn [List.length]; lia.

Lemma count_rainfallAdequacy (c : CityData) (t : Tally) :
  let t' := rainfallAdequacy c t in
  (List.length (tally_recommendations t) <= List.length (tally_recommendations t')
   /\ List.length (tally_warnings t) <= List.length (tally_warnings t')
   /\ List.length (tally_recommendations t') + List.length (tally_warnings t')
      = List.length (tally_recommendations t) + List.length (tally_warnings t) + 1)%nat.
Proof. cbv zeta. unfold rainfallAdequacy. count_messages. Qed.

Lemma count_roofSuitability (u : UserInput) (t : Tally) :
  let t' := roofSuitability u t in
  (List.length (tally_recommendations t) <= List.length (tally_recommendations t')
   /\ List.length (tally_warnings t) <= List.length (tally_warnings t')
   /\ List.length (tally_recommendations t') + List.length (tally_warnings t')
      = List.length (tally_recommendations t) + List.length (tally_warnings t) + 1)%nat.
Proof. cbv zeta. unfold roofSuitability. count_messages. Qed.

Lemma count_soilConditions (u : UserInput) (t : Tally) :
  let t' := soilConditions u t in
  (List.length (tally_recommendations t') = List.length (tally_recommendations t) + 1
   /\ List.length (tally_warnings t') = List.length (tally_warnings t))%nat.
Proof. cbv zeta. unfold soilConditions. count_messages. Qed.

Lemma count_groundwaterBand (u : UserInput) (t : Tally) :
  let t' := groundwaterBand u t in
  (List.length (tally_recommendations t) <= List.length (tally_recommendations t')
   /\ List.length (tally_warnings t) <= List.length (tally_warnings t')
   /\ List.length (tally_recommendations t') + List.length (tally_warnings t')
      = List.length (tally_recommendations t) + List.length (tally_warnings t) + 1)%nat.
Proof. cbv zeta. unfold groundwaterBand. count_messages. Qed.

Lemma count_coverageAnalysis (pot hd : Z) (t : Tally) :
  let t' := coverageAnalysis pot hd t in
  (List.length (tally_recommendations t') = List.length (tally_recommendations t) + 1
   /\ List.length (tally_warnings t') = List.length (tally_warnings t))%nat.
Proof. cbv zeta. unfold coverageAnalysis. cbv zeta. count_messages. Qed.

Lemma count_environmentalFactors (u : UserInput) (t : Tally) :
  let t' := environmentalFactors u t in
  (List.length (tally_recommendations t') = List.length (tally_recommendations t)
   /\ List.length (tally_warnings t) <= List.length (tally_warnings t')
      <= List.length (tally_warnings t) + 2)%nat.
Proof. cbv zeta. unfold environmentalFactors, when. cbv zeta. count_messages. Qed.

Lemma count_monsoonDependency (c : CityData) (t : Tally) :
  let t' := monsoonDependency c t in
  (List.length (tally_recommendations t') = List.length (tally_recommendations t)
   /\ List.length (tally_warnings t) <= List.length (tally_warnings t')
      <= List.length (tally_warnings t) + 1)%nat.
Proof. cbv zeta. unfold monsoonDependency, when. cbv zeta. count_messages. Qed.

Lemma count_standardRecommendations (u : UserInput) (t : Tally) :
  let t' := standardRecommendations u t in
  (List.length (tally_warnings t') = List.length (tally_warnings t)
   /\ List.length (tally_recommendations t) + 1 <= List.length (tally_recommendations t')
      <= List.length (tally_recommendations t) + 3)%nat.
Proof. cbv zeta. unfold standardRecommendations, when. cbv zeta. count_messages. Qed.

(** X16.  Every result holds between 3 and 8 recommendations, at most 6
    warnings, and between 6 and 11 messages in all. *)
Theorem message_counts
  (cities : list CityData) (k : Coefficients) (u : UserInput)
  (t : CalculationType.t) (r : CalculationResults) :
  calculate cities k u t = JS.Return r ->
  (3 <= List.length (recommendations r) <= 8)%nat
  /\ (List.length (warnings r) <= 6)%nat
  /\ (6 <= List.length (recommendations r) + List.length (warnings r) <= 11)%nat.
Proof.
  intros H. destruct (result_warnings _ _ _ _ _ H) as (c & _ & W & R).
  rewrite W, R. clear W R H.
  set (pot := rainwaterPotential r). set (hd := householdDemand r).
  unfold feasibilityTally. cbv zeta.
  set (t0 := {| score := 50; tally_recommendations := []; tally_warnings := [] |}).
  set (t1 := rainfallAdequacy c t0).
  set (t2 := roofSuitability u t1).
  set (t3 := soilConditions u t2).
  set (t4 := groundwaterBand u t3).
  set (t5 := coverageAnalysis pot hd t4).
  set (t6 := environmentalFactors u t5).
  set (t7 := monsoonDependency c t6).
  pose proof (count_rainfallAdequacy c t0) as C1.
  pose proof (count_roofSuitability u t1) as C2.
  pose proof (count_soilConditions u t2) as C3.
  pose proof (count_groundwaterBand u t3) as C4.
  pose proof (count_coverageAnalysis pot hd t4) as C5.
  pose proof (count_environmentalFactors u t5) as C6.
  pose proof (count_monsoonDependency c t6) as C7.
  pose proof (count_standardRecommendations u t7) as C8.
  cbv zeta in C1, C2, C3, C4, C5, C6, C7, C8.
  fold t1 in C1. fold t2 in C2. fold t3 in C3. fold t4 in C4. fold t5 in C5.
  fold t6 in C6. fold t7 in C7.
  change (List.length (tally_recommendations t0)) with 0%nat in C1.
  change (List.length (tally_warnings t0)) with 0%nat in C1.
  lia.
Qed.

Lemma message_counts_witness :
  exists r,
    calculate Sample.cities Sample.coefficients Sample.shed
      CalculationType.rainwater = JS.Return r
    /\ (3 <= List.length (recommendations r) <= 8)%nat
    /\ (List.length (warnings r) <= 6)%nat
    /\ (6 <= List.length (recommendations r) + List.length (warnings r) <= 11)%nat.
Proof.
  eexists. split; [vm_compute; reflexivity|].
  apply (message_counts Sample.cities Sample.coefficients Sample.shed
           CalculationType.rainwater).
  vm_compute. reflexivity.
Defined.

(* ================================================================= *)
(** ** Further properties of city resolution *)

Lemma lower_ascii_idempotent (c : ascii) :
  JS.lower_ascii (JS.lower_ascii c) = JS.lower_ascii c.
Proof.
  destruct c as [[] [] [] [] [] [] [] []]; vm_compute; reflexivity.
Qed.

Lemma toLowerCase_idempotent (s : string) :
  JS.toLowerCase (JS.toLowerCase s) = JS.toLowerCase s.
Proof.
  induction s as [|c s IH]; cbn [JS.toLowerCase].
  - reflexivity.
  - now rewrite lower_ascii_idempotent, IH.
Qed.

Lemma findCityData_lowered (cities : list CityData) (l l' p : string) :
  JS.toLowerCase l = JS.toLowerCase l' ->
  findCityData cities l p = findCityData cities l' p.
Proof.
  intros E. unfold findCityData. cbv zeta. rewrite E. reflexivity.
Qed.

(** X17.  City resolution depends on the location only through its
    lower-cased form: two locations that lower-case to the same text resolve
    to the same record, and so does a location and its lower-cased form. *)
Theorem city_resolution_ignores_case (cities : list CityData) (l l' p : string) :
  JS.toLowerCase l = JS.toLowerCase l' ->
  findCityData cities l p = findCityData cities l' p
  /\ findCityData cities (JS.toLowerCase l) p = findCityData cities l p.
Proof.
  intros L. split.
  - now apply findCityData_lowered.
  - apply findCityData_lowered, toLowerCase_idempotent.
Qed.

Lemma city_resolution_ignores_case_witness :
  findCityData Sample.cities "MUMBAI" "999999"
  = findCityData Sample.cities "mumbai" "999999"
  /\ findCityData Sample.cities (JS.toLowerCase "MUMBAI") "999999"
     = findCityData Sample.cities "MUMBAI" "999999".
Proof.
  apply city_resolution_ignores_case. reflexivity.
Defined.

Lemma prefix_empty (s : string) : String.prefix "" s = true.
Proof. destruct s; reflexivity. Qed.

Lemma includes_empty (s : string) : JS.includes s "" = true.
Proof. destruct s; cbn [JS.includes]; rewrite prefix_empty; reflexivity. Qed.

(** X18.  An empty pincode selects the first entry of the table whatever the
    location, and an empty location selects the first entry whenever no
    pincode matches: the empty text is a prefix and a substring of every
    text, so the Delhi fallback is not reached. *)
Theorem empty_pincode_or_location_selects_first_entry
  (cities : list CityData) (first : CityData) (rest : list CityData)
  (location pincode : string) :
  cities = first :: rest ->
  findCityData cities location "" = Some first
  /\ (find (Spec.matchesPincode pincode) cities = None ->
      findCityData cities "" pincode = Some first).
Proof.
  intros ->. split.
  - rewrite findCityData_priority. cbn [find].
    unfold Spec.matchesPincode at 1. cbn [String.substring].
    rewrite prefix_empty. reflexivity.
  - intros N. rewrite findCityData_priority, N. cbn [find].
    unfold Spec.matchesName at 1. cbn [JS.toLowerCase].
    rewrite includes_empty. reflexivity.
Qed.

Lemma empty_pincode_or_location_witness :
  findCityData Sample.cities "Delhi" "" = Some Sample.mumbai
  /\ (find (Spec.matchesPincode "999999") Sample.cities = None ->
      findCityData Sample.cities "" "999999" = Some Sample.mumbai).
Proof.
  apply (empty_pincode_or_location_selects_first_entry Sample.cities Sample.mumbai
           [Sample.delhi; Sample.jaisalmer]).
  reflexivity.
Defined.

(* ================================================================= *)
(** ** Further properties of the tank and of the potential *)

Lemma spec_tankDiameter_range (c : Z) :
  (0 <= c <= 15000)%Z ->
  exists n : Z, Spec.tankDiameter c = JS.Fin (inject_Z n / 10) /\ (0 <= n <= 31)%Z.
Proof.
  intros [L U]. unfold Spec.tankDiameter.
  set (q := 4 * (inject_Z c / 1000) / (2 * JS.Math_PI)).
  assert (K : q == inject_Z c * (4 / 1000 / (2 * JS.Math_PI)))
    by (unfold q; field; discriminate).
  assert (P : 0 <= q).
  { rewrite K. apply Qmult_le_0_compat; [|discriminate].
    change 0 with (inject_Z 0). now rewrite <- Zle_Qle. }
  destruct (toFixed1_nearest_tenth q P) as (n & E & N0 & Lo & Hi).
  exists n. split.
  - cbn [JS.Math_sqrt]. apply Qle_bool_iff in P. rewrite P. exact E.
  - split; [exact N0|].
    destruct (Z_lt_le_dec 31 n) as [G|]; [exfalso|assumption].
    specialize (Lo ltac:(lia)).
    assert (B : inject_Z (63 * 63) <= 400 * q).
    { eapply Qle_trans; [|exact Lo]. rewrite <- Zle_Qle.
      apply Z.mul_le_mono_nonneg; lia. }
    assert (C : 400 * q <= 400 * (inject_Z 15000 * (4 / 1000 / (2 * JS.Math_PI)))).
    { rewrite K. apply Qmult_le_l; [reflexivity|].
      apply Qmult_le_compat_r; [now rewrite <- Zle_Qle | discriminate]. }
    assert (D : 400 * (inject_Z 15000 * (4 / 1000 / (2 * JS.Math_PI))) < inject_Z (63 * 63))
      by reflexivity.
    lra.
Qed.

(** X19.  For a potential and a demand that are not negative, the tank
    diameter is a finite number of tenths between 0 and 3.1 m. *)
Theorem tank_diameter_range (pot : Z) (monthly : list Z) (hd : Z) :
  (0 <= pot)%Z -> (0 <= hd)%Z ->
  exists n : Z,
    diameter (dimensions (calculateStorageTank pot monthly hd))
    = JS.Fin (inject_Z n / 10)
    /\ (0 <= n <= 31)%Z.
Proof.
  intros P H. rewrite storage_tank_diameter. apply spec_tankDiameter_range.
  assert (0 <= JS.Math_round (inject_Z hd / 365 * 35))%Z.
  { apply Math_round_nonneg.
    apply Qmult_le_0_compat; [|discriminate].
    apply Qle_shift_div_l; [reflexivity|]. rewrite Qmult_0_l.
    change 0 with (inject_Z 0). now rewrite <- Zle_Qle. }
  assert (0 <= JS.Math_round (inject_Z pot * 0.2))%Z.
  { apply Math_round_nonneg. apply Qmult_le_0_compat; [|discriminate].
    change 0 with (inject_Z 0). now rewrite <- Zle_Qle. }
  lia.
Qed.

Lemma tank_diameter_range_witness :
  exists n : Z,
    diameter (dimensions (calculateStorageTank 190880 [] 197100))
    = JS.Fin (inject_Z n / 10)
    /\ (0 <= n <= 31)%Z.
Proof.
  apply tank_diameter_range; lia.
Defined.

Lemma storage_tank_diameter_above_floor_witness :
  diameter (dimensions (calculateStorageTank 190880 [] 197100))
  = Spec.tankDiameter (capacity (calculateStorageTank 190880 [] 197100)).
Proof.
  apply storage_tank_diameter_above_floor; vm_compute; discriminate.
Defined.





(* ================================================================= *)
(** ** The store of submissions *)

Lemma map_get_set_same (k : string) (v : Storage.UserSubmission)
  (m : Storage.SubmissionMap) :
  Storage.map_get k (Storage.map_set k v m) = Some v.
Proof.
  induction m as [|[k' v'] m IH]; cbn [Storage.map_set Storage.map_get].
  - now rewrite String.eqb_refl.
  - destruct (String.eqb k' k) eqn:E; cbn [Storage.map_get].
    + now rewrite String.eqb_refl.
    + now rewrite E.
Qed.

Lemma map_get_set_other (k k' : string) (v : Storage.UserSubmission)
  (m : Storage.SubmissionMap) :
  k' <> k -> Storage.map_get k' (Storage.map_set k v m) = Storage.map_get k' m.
Proof.
  intros N. induction m as [|[k0 v0] m IH]; cbn [Storage.map_set Storage.map_get].
  - destruct (String.eqb k k') eqn:E; [|reflexivity].
    apply String.eqb_eq in E. congruence.
  - destruct (String.eqb k0 k) eqn:E; cbn [Storage.map_get].
    + apply String.eqb_eq in E. subst k0.
      destruct (String.eqb k k') eqn:E'; [|reflexivity].
      apply String.eqb_eq in E'. congruence.
    + destruct (String.eqb k0 k'); [reflexivity | exact IH].
Qed.

(** X22.  After [saveSubmission] the submission returned is found under its
    identifier, carries the arguments of the call, and the lookup of every
    other identifier is as before. *)
Theorem saved_submission_is_found
  (this : Storage.MemStorage) (uuid : string) (now : Z) (userInputs : UserInput)
  (calculationType : CalculationType.t) (results : CalculationResults) :
  let (after, submission) :=
    Storage.saveSubmission this uuid now userInputs calculationType results in
  Storage.getSubmission after uuid = Some submission
  /\ Storage.id submission = uuid
  /\ Storage.userInputs submission = userInputs
  /\ Storage.calculationType submission = calculationType
  /\ Storage.results submission = results
  /\ Storage.createdAt submission = now
  /\ (forall other : string,
        other <> uuid ->
        Storage.getSubmission after other = Storage.getSubmission this other).
Proof.
  unfold Storage.saveSubmission, Storage.getSubmission. cbv zeta.
  cbn [Storage.submissions Storage.id Storage.userInputs Storage.calculationType
       Storage.results Storage.createdAt].
  rewrite map_get_set_same. repeat split.
  intros other N. now apply map_get_set_other.
Qed.

Lemma saved_submission_is_found_witness :
  Storage.getSubmission
    (fst (Storage.saveSubmission StoredSample.store "id-3" 3000 Sample.shed
            CalculationType.recharge StoredSample.report))
    "id-1"
  = Storage.getSubmission StoredSample.store "id-1".
Proof.
  pose proof (saved_submission_is_found StoredSample.store "id-3" 3000 Sample.shed
                CalculationType.recharge StoredSample.report) as S.
  cbv beta iota zeta delta [Storage.saveSubmission] in S.
  destruct S as (_ & _ & _ & _ & _ & _ & O).
  apply O. discriminate.
Defined.

Lemma insert_newest_first_perm (x : Storage.UserSubmission)
  (l : list Storage.UserSubmission) :
  Permutation (Storage.insert_newest_first x l) (x :: l).
Proof.
  induction l as [|y l IH]; cbn [Storage.insert_newest_first].
  - reflexivity.
  - destruct (Storage.createdAt y - Storage.createdAt x >? 0)%Z.
    + rewrite IH. apply perm_swap.
    + reflexivity.
Qed.

Lemma sort_newest_first_perm (l : list Storage.UserSubmission) :
  Permutation (Storage.sort_newest_first l) l.
Proof.
  induction l as [|x l IH]; cbn [Storage.sort_newest_first fold_right].
  - reflexivity.
  - fold (Storage.sort_newest_first l). rewrite insert_newest_first_perm.
    now apply perm_skip.
Qed.

Lemma insert_newest_first_sorted (x : Storage.UserSubmission)
  (l : list Storage.UserSubmission) :
  StronglySorted (fun a b => (Storage.createdAt b <= Storage.createdAt a)%Z) l ->
  StronglySorted (fun a b => (Storage.createdAt b <= Storage.createdAt a)%Z)
    (Storage.insert_newest_first x l).
Proof.
  induction 1 as [|y l S IH A]; cbn [Storage.insert_newest_first].
  - repeat constructor.
  - destruct (Storage.createdAt y - Storage.createdAt x >? 0)%Z eqn:E.
    + constructor; [exact IH|].
      apply (Permutation_Forall (Permutation_sym (insert_newest_first_perm x l))).
      constructor; [lia | exact A].
    + constructor; [constructor; assumption|].
      constructor; [lia|].
      eapply Forall_impl; [|exact A]. cbv beta. intros z Z. lia.
Qed.

Lemma sort_newest_first_sorted (l : list Storage.UserSubmission) :
  StronglySorted (fun a b => (Storage.createdAt b <= Storage.createdAt a)%Z)
    (Storage.sort_newest_first l).
Proof.
  induction l as [|x l IH]; cbn [Storage.sort_newest_first fold_right].
  - constructor.
  - apply insert_newest_first_sorted. exact IH.
Qed.

Lemma sorted_prefix_dominates (l1 l2 : list Storage.UserSubmission) :
  StronglySorted (fun a b => (Storage.createdAt b <= Storage.createdAt a)%Z) (l1 ++ l2) ->
  StronglySorted (fun a b => (Storage.createdAt b <= Storage.createdAt a)%Z) l1
  /\ forall x y, In x l1 -> In y l2 -> (Storage.createdAt y <= Storage.createdAt x)%Z.
Proof.
  induction l1 as [|a l1 IH]; cbn [app]; intros S.
  - split; [constructor | intros x y []].
  - inversion S as [|? ? S' A]; subst.
    destruct (IH S') as (S1 & D). split.
    + constructor; [exact S1|]. apply Forall_app in A. tauto.
    + intros x y [<-|X] Y.
      * apply Forall_app in A. destruct A as (_ & A2).
        rewrite Forall_forall in A2. now apply A2.
      * now apply D.
Qed.

Lemma slice0_firstn {A : Type} (limit : Z) (l : list A) :
  exists n : nat,
    Storage.slice0 limit l = firstn n l
    /\ ((0 <= limit)%Z -> n = Z.to_nat limit).
Proof.
  unfold Storage.slice0. destruct (0 <=? limit)%Z eqn:E.
  - eexists. split; [reflexivity | reflexivity].
  - eexists. split; [reflexivity | lia].
Qed.

(** X23.  [getRecentSubmissions] returns submissions sorted newest first, at
    most [limit] of them for a limit that is not negative (10 by default), all
    of them when the store holds no more than the limit; what it leaves out
    is stored too and is no newer than anything it returns. *)
Theorem recent_submissions_are_the_newest
  (this : Storage.MemStorage) (limit : option Z) :
  let recent := Storage.getRecentSubmissions this limit in
  let bound := match limit with Some n => n | None => 10%Z end in
  StronglySorted (fun a b => (Storage.createdAt b <= Storage.createdAt a)%Z) recent
  /\ ((0 <= bound)%Z -> (Z.of_nat (List.length recent) <= bound)%Z)
  /\ ((Z.of_nat (List.length (Storage.submissions this)) <= bound)%Z ->
      Permutation recent (Storage.map_values (Storage.submissions this)))
  /\ exists others : list Storage.UserSubmission,
       Permutation (recent ++ others) (Storage.map_values (Storage.submissions this))
       /\ forall x y, In x recent -> In y others ->
            (Storage.createdAt y <= Storage.createdAt x)%Z.
Proof.
  cbv zeta. unfold Storage.getRecentSubmissions. cbv zeta.
  set (bound := match limit with Some n => n | None => 10%Z end).
  set (values := Storage.map_values (Storage.submissions this)).
  set (sorted := Storage.sort_newest_first values).
  destruct (slice0_firstn bound sorted) as (n & E & N). rewrite E.
  pose proof (sort_newest_first_sorted values) as S. fold sorted in S.
  pose proof (sort_newest_first_perm values) as P. fold sorted in P.
  rewrite <- (firstn_skipn n sorted) in S.
  destruct (sorted_prefix_dominates _ _ S) as (S1 & D).
  split; [exact S1|]. split; [|split].
  - intros B. rewrite (N B). rewrite length_firstn. lia.
  - intros B.
    assert (L : List.length sorted = List.length (Storage.submissions this)).
    { rewrite (Permutation_length P). unfold values, Storage.map_values.
      apply length_map. }
    rewrite firstn_all2; [exact P|]. rewrite (N ltac:(lia)). lia.
  - exists (skipn n sorted). split; [|exact D].
    rewrite firstn_skipn. exact P.
Qed.

Lemma recent_submissions_are_the_newest_witness :
  (Z.of_nat (List.length (Storage.getRecentSubmissions StoredSample.store (Some 1%Z))) <= 1)%Z
  /\ Permutation (Storage.getRecentSubmissions StoredSample.store None)
       (Storage.map_values (Storage.submissions StoredSample.store)).
Proof.
  split.
  - apply (recent_submissions_are_the_newest StoredSample.store (Some 1%Z)). lia.
  - apply (recent_submissions_are_the_newest StoredSample.store None). vm_compute. discriminate.
Defined.

Example recent_submissions_sample :
  map Storage.id (Storage.getRecentSubmissions StoredSample.store None)
  = ["id-2"%string; "id-1"%string]
  /\ map Storage.id (Storage.getRecentSubmissions StoredSample.store (Some 1%Z))
     = ["id-2"%string]
  /\ map Storage.id (Storage.getRecentSubmissions StoredSample.store (Some (-1)%Z))
     = ["id-2"%string]
  /\ Storage.getSubmission StoredSample.store "id-9" = None.
Proof. repeat split; reflexivity. Qed.

(** X24.  When the annual potential is at least 10000 liters and the demand
    at least 20858 liters, the floor of 2000 liters does not apply and the
    diameter of the result is that of a cylinder of 2 m holding the capacity
    of the result. *)
Theorem tank_dimensions_match_capacity_above_floor
  (cities : list CityData) (k : Coefficients) (u : UserInput)
  (t : CalculationType.t) (r : CalculationResults) :
  calculate cities k u t = JS.Return r ->
  (10000 <= rainwaterPotential r)%Z ->
  (20858 <= householdDemand r)%Z ->
  diameter (tankDimensions r) = Spec.tankDiameter (tankCapacity r)
  /\ height (tankDimensions r) == 2.
Proof.
  intros H P D. open_calculate H c F r.
  destruct t;
    cbn [CalculationType.is_recharge set_recharge tankDimensions tankCapacity
         rainwaterPotential householdDemand] in *;
    (split; [|apply storage_tank_height]);
    apply storage_tank_diameter_above_floor.
  all: apply Math_round_ge; change (inject_Z 2000) with 2000.
  all: try (rewrite Zle_Qle in D; change (inject_Z 20858) with 20858 in D;
            apply Qle_trans with (20858 / 365 * 35); [vm_compute; discriminate|];
            apply Qmult_le_compat_r; [|discriminate];
            apply Qmult_le_compat_r; [exact D | discriminate]).
  all: rewrite Zle_Qle in P; change (inject_Z 10000) with 10000 in P;
    apply Qle_trans with (10000 * 0.2); [vm_compute; discriminate|];
    apply Qmult_le_compat_r; [exact P | discriminate].
Qed.

Lemma tank_dimensions_match_capacity_witness :
  exists r,
    calculate Sample.cities Sample.coefficients Sample.household
      CalculationType.rainwater = JS.Return r
    /\ diameter (tankDimensions r) = Spec.tankDiameter (tankCapacity r)
    /\ height (tankDimensions r) == 2.
Proof.
  eexists. split; [vm_compute; reflexivity|].
  apply (tank_dimensions_match_capacity_above_floor Sample.cities Sample.coefficients
           Sample.household CalculationType.rainwater);
    [reflexivity | vm_compute; discriminate | vm_compute; discriminate].
Defined.

(* ================================================================= *)
(** * The engine in double precision

    The lemmas below are about the second embedding, [Module Double]: first
    the arithmetic of the rounded operations, then the stages of
    [calculate]. *)

(* ================================================================= *)
(** ** Signs of rounded results *)

Lemma iter_pos_preserves {A : Type} (P : A -> Prop) (f : A -> A) :
  (forall x, P x -> P (f x)) -> forall n x, P x -> P (iter_pos f n x).
Proof.
  intros F. induction n as [n IH|n IH|]; intros x H; simpl; auto.
Qed.

Lemma shr_1_nonneg (mrs : shr_record) : (0 <= shr_m mrs -> 0 <= shr_m (shr_1 mrs))%Z.
Proof.
  destruct mrs as [[|[p|p|]|p] r s]; simpl; lia.
Qed.

Lemma shr_fexp_nonneg (m e : Z) (l : SpecFloat.location) :
  (0 <= m -> 0 <= shr_m (fst (shr_fexp F64.prec F64.emax m e l)))%Z.
Proof.
  intros H. unfold shr_fexp, shr.
  assert (R : (0 <= shr_m (shr_record_of_loc m l))%Z).
  { destruct l as [|[]]; exact H. }
  destruct (fexp F64.prec F64.emax (Zdigits2 m + e) - e)%Z; simpl; try exact R.
  apply iter_pos_preserves; [apply shr_1_nonneg | exact R].
Qed.

Lemma round_nearest_even_nonneg (m : Z) (l : SpecFloat.location) :
  (0 <= m -> 0 <= round_nearest_even m l)%Z.
Proof.
  intros H. destruct l as [|[]]; simpl; try lia.
  destruct (Z.even m); lia.
Qed.

(** A rounded magnitude keeps the sign it is given and is never NaN. *)
Lemma binary_round_aux_sign (s : bool) (m e : Z) (l : SpecFloat.location) :
  (0 <= m)%Z ->
  match binary_round_aux F64.prec F64.emax s m e l with
  | S754_zero s' | S754_infinity s' | S754_finite s' _ _ => s' = s
  | S754_nan => False
  end.
Proof.
  intros H. unfold binary_round_aux.
  pose proof (shr_fexp_nonneg m e l H) as H1.
  destruct (shr_fexp F64.prec F64.emax m e l) as [mrs' e'].
  cbn [fst] in H1.
  pose proof (shr_fexp_nonneg _ e' loc_Exact
                (round_nearest_even_nonneg _ (loc_of_shr_record mrs') H1)) as H2.
  destruct (shr_fexp F64.prec F64.emax _ e' loc_Exact) as [mrs'' e''].
  cbn [fst] in H2.
  destruct (shr_m mrs'') as [|p|p]; [reflexivity| |lia].
  destruct (e'' <=? F64.emax - F64.prec)%Z; reflexivity.
Qed.

(* ================================================================= *)
(** ** Shifts and digit counts *)

Lemma iter_pos_nat {A : Type} (f : A -> A) (n : positive) (x : A) :
  iter_pos f n x = Nat.iter (Pos.to_nat n) f x.
Proof.
  revert x. induction n as [n IH|n IH|]; intros x; cbn [iter_pos].
  - rewrite !IH, Pos2Nat.inj_xI.
    replace (S (2 * Pos.to_nat n)) with (Pos.to_nat n + (Pos.to_nat n + 1))%nat by lia.
    rewrite !Nat.iter_add. reflexivity.
  - rewrite !IH, Pos2Nat.inj_xO.
    replace (2 * Pos.to_nat n)%nat with (Pos.to_nat n + Pos.to_nat n)%nat by lia.
    rewrite Nat.iter_add. reflexivity.
  - reflexivity.
Qed.

Lemma shr_1_spec (mrs : shr_record) :
  (0 <= shr_m mrs)%Z ->
  shr_1 mrs
  = {| shr_m := Z.div2 (shr_m mrs);
       shr_r := Z.odd (shr_m mrs);
       shr_s := shr_r mrs || shr_s mrs |}.
Proof.
  destruct mrs as [[|[p|p|]|p] r s]; simpl; intros H; try reflexivity; lia.
Qed.

(** Shifting right by [k] bits divides the mantissa by [2^k]. *)
Lemma shr_iter_m (k : nat) (mrs : shr_record) :
  (0 <= shr_m mrs)%Z ->
  shr_m (Nat.iter k shr_1 mrs) = (shr_m mrs / 2 ^ Z.of_nat k)%Z.
Proof.
  intros H. induction k as [|k IH].
  - simpl. rewrite Z.div_1_r. reflexivity.
  - rewrite Nat.iter_succ. rewrite shr_1_spec.
    + cbn [shr_m]. rewrite IH, Z.div2_div, Z.div_div by lia.
      rewrite Nat2Z.inj_succ, Z.pow_succ_r by lia.
      f_equal. lia.
    + rewrite IH. apply Z.div_pos; lia.
Qed.

(** Shifting out [k] zero bits is exact. *)
Lemma shr_iter_exact (k : nat) (m : Z) :
  (0 <= m)%Z ->
  Nat.iter k shr_1 {| shr_m := m * 2 ^ Z.of_nat k; shr_r := false; shr_s := false |}
  = {| shr_m := m; shr_r := false; shr_s := false |}.
Proof.
  intros H. revert m H. induction k as [|k IH]; intros m H.
  - simpl. rewrite Z.mul_1_r. reflexivity.
  - rewrite Nat.iter_succ.
    rewrite Nat2Z.inj_succ, Z.pow_succ_r by lia.
    replace (m * (2 * 2 ^ Z.of_nat k))%Z with ((m * 2) * 2 ^ Z.of_nat k)%Z by lia.
    rewrite IH by lia. rewrite shr_1_spec by (cbn; lia). cbn [shr_m shr_r shr_s].
    rewrite Z.div2_div, Z.div_mul by lia.
    rewrite Z.mul_comm, Z.odd_mul. reflexivity.
Qed.

Lemma digits2_pos_bounds (m : positive) :
  (2 ^ (Zpos (digits2_pos m) - 1) <= Zpos m < 2 ^ Zpos (digits2_pos m))%Z.
Proof.
  induction m as [m IH|m IH|]; cbn [digits2_pos].
  - rewrite Pos2Z.inj_succ.
    replace (Z.succ (Zpos (digits2_pos m)) - 1)%Z with (Z.succ (Zpos (digits2_pos m) - 1))%Z by lia.
    rewrite !Z.pow_succ_r by lia. lia.
  - rewrite Pos2Z.inj_succ.
    replace (Z.succ (Zpos (digits2_pos m)) - 1)%Z with (Z.succ (Zpos (digits2_pos m) - 1))%Z by lia.
    rewrite !Z.pow_succ_r by lia. lia.
  - simpl. lia.
Qed.

(** The digit count is determined by the two powers of two around the
    number. *)
Lemma digits2_pos_unique (m : positive) (d : Z) :
  (2 ^ (d - 1) <= Zpos m < 2 ^ d)%Z -> Zpos (digits2_pos m) = d.
Proof.
  intros [L U]. pose proof (digits2_pos_bounds m) as [L' U'].
  assert (D : (0 < d)%Z).
  { destruct (Z.ltb_spec 0 d) as [P|N]; [exact P|].
    assert (2 ^ d <= 2 ^ 0)%Z by (apply Z.pow_le_mono_r; lia). simpl in *. lia. }
  destruct (Z.lt_trichotomy (Zpos (digits2_pos m)) d) as [C|[C|C]]; [|exact C|].
  - assert (2 ^ Zpos (digits2_pos m) <= 2 ^ (d - 1))%Z by (apply Z.pow_le_mono_r; lia). lia.
  - assert (2 ^ d <= 2 ^ (Zpos (digits2_pos m) - 1))%Z by (apply Z.pow_le_mono_r; lia). lia.
Qed.

Lemma iter_xO_nat (m : positive) (k : nat) :
  Zpos (Nat.iter k xO m) = (Zpos m * 2 ^ Z.of_nat k)%Z.
Proof.
  induction k as [|k IH].
  - simpl. lia.
  - rewrite Nat.iter_succ. rewrite Pos2Z.inj_xO, IH, Nat2Z.inj_succ, Z.pow_succ_r by lia. lia.
Qed.

Lemma iter_xO_spec (m d : positive) : Zpos (Pos.iter xO m d) = (Zpos m * 2 ^ Zpos d)%Z.
Proof.
  rewrite Pos2Nat.inj_iter. change (nat_rect _ m (fun _ => xO) (Pos.to_nat d)) with (Nat.iter (Pos.to_nat d) xO m).
  rewrite iter_xO_nat, positive_nat_Z. reflexivity.
Qed.

(* ================================================================= *)
(** ** Rounding a number that is representable *)

Lemma digits2_pos_shift (a b : positive) (k : Z) :
  (0 <= k)%Z -> Zpos a = (Zpos b * 2 ^ k)%Z ->
  Zpos (digits2_pos a) = (Zpos (digits2_pos b) + k)%Z.
Proof.
  intros K E. apply digits2_pos_unique.
  pose proof (digits2_pos_bounds b) as [L U].
  assert (P : (0 < 2 ^ k)%Z) by (apply Z.pow_pos_nonneg; lia).
  replace (Zpos (digits2_pos b) + k - 1)%Z with ((Zpos (digits2_pos b) - 1) + k)%Z by lia.
  rewrite !Z.pow_add_r by lia. rewrite E. split.
  - apply Z.mul_le_mono_nonneg_r; lia.
  - apply Z.mul_lt_mono_pos_r; lia.
Qed.

(** A mantissa that is already in its place is left as it is. *)
Lemma binary_round_aux_canonical (s : bool) (m : positive) (e : Z) :
  bounded F64.prec F64.emax m e = true ->
  binary_round_aux F64.prec F64.emax s (Zpos m) e loc_Exact = S754_finite s m e.
Proof.
  unfold bounded, canonical_mantissa. intros H.
  apply andb_prop in H as [C B]. apply Z.eqb_eq in C.
  unfold binary_round_aux, shr_fexp.
  cbn [Zdigits2 shr_record_of_loc]. rewrite C, Z.sub_diag.
  cbn [shr shr_m loc_of_shr_record round_nearest_even Zdigits2].
  rewrite C, Z.sub_diag. cbn [shr shr_m]. rewrite B. reflexivity.
Qed.

(** Rounding [m * 2^e] gives the double of the same value when there is
    one. *)
Lemma binary_round_exact (s : bool) (m m' : positive) (e e' : Z) :
  bounded F64.prec F64.emax m' e' = true ->
  (e' <= e /\ Zpos m' = Zpos m * 2 ^ (e - e')
   \/ e < e' /\ Zpos m = Zpos m' * 2 ^ (e' - e))%Z ->
  binary_round F64.prec F64.emax s m e = S754_finite s m' e'.
Proof.
  intros B V.
  assert (C : fexp F64.prec F64.emax (Zpos (digits2_pos m') + e') = e').
  { unfold bounded, canonical_mantissa in B. apply andb_prop in B as [C _].
    apply Z.eqb_eq in C. exact C. }
  assert (D : (Zpos (digits2_pos m) + e = Zpos (digits2_pos m') + e')%Z).
  { destruct V as [[L E]|[L E]].
    - rewrite (digits2_pos_shift m' m (e - e')) by (lia || exact E). lia.
    - rewrite (digits2_pos_shift m m' (e' - e)) by (lia || exact E). lia. }
  unfold binary_round. rewrite D, C.
  destruct V as [[L E]|[L E]].
  - unfold shl_align.
    destruct (e' - e)%Z as [|d|d] eqn:S; try lia.
    + replace (e - e')%Z with 0%Z in E by lia. rewrite Z.pow_0_r, Z.mul_1_r in E.
      apply Pos2Z.inj in E. subst m'. replace e with e' by lia.
      apply binary_round_aux_canonical. exact B.
    + assert (M : Pos.iter xO m d = m').
      { apply Pos2Z.inj. rewrite iter_xO_spec, E. f_equal. f_equal. lia. }
      rewrite M. apply binary_round_aux_canonical. exact B.
  - unfold shl_align.
    destruct (e' - e)%Z as [|d|d] eqn:S; try lia.
    unfold binary_round_aux, shr_fexp.
    cbn [Zdigits2 shr_record_of_loc]. rewrite D, C, S. cbn [shr].
    rewrite iter_pos_nat, E, <- (positive_nat_Z d), shr_iter_exact by lia.
    cbn [shr_m loc_of_shr_record round_nearest_even Zdigits2].
    replace (e + Z.of_nat (Pos.to_nat d))%Z with e' by lia.
    rewrite C, Z.sub_diag. cbn [shr shr_m].
    unfold bounded in B. apply andb_prop in B as [_ B]. rewrite B. reflexivity.
Qed.

(* ================================================================= *)
(** ** Integers as doubles *)

(** An integer below 2^53 is a double: its mantissa is the integer shifted
    to 53 bits. *)
Lemma of_Z_pos_spec (n : positive) :
  (Zpos n < 2 ^ 53)%Z ->
  exists (m : positive) (e : Z),
    F64.of_Z (Zpos n) = S754_finite false m e
    /\ bounded F64.prec F64.emax m e = true
    /\ (-52 <= e <= 0)%Z
    /\ Zpos m = (Zpos n * 2 ^ (- e))%Z
    /\ Zpos (digits2_pos m) = 53%Z.
Proof.
  intros U.
  pose proof (digits2_pos_bounds n) as [L U'].
  set (d := Zpos (digits2_pos n)) in *.
  assert (D : (1 <= d <= 53)%Z).
  { split; [subst d; lia|].
    destruct (Z.leb_spec d 53) as [P|N]; [exact P|].
    assert (2 ^ 53 <= 2 ^ (d - 1))%Z by (apply Z.pow_le_mono_r; lia). lia. }
  assert (P : (0 < Zpos n * 2 ^ (53 - d))%Z).
  { apply Z.mul_pos_pos; [lia | apply Z.pow_pos_nonneg; lia]. }
  destruct (Zpos n * 2 ^ (53 - d))%Z as [|m|m] eqn:M; try lia.
  assert (DM : Zpos (digits2_pos m) = 53%Z).
  { rewrite (digits2_pos_shift m n (53 - d)) by (lia || (rewrite M; reflexivity)).
    fold d. lia. }
  assert (B : bounded F64.prec F64.emax m (d - 53) = true).
  { unfold bounded, canonical_mantissa. rewrite DM.
    apply andb_true_intro. split; [apply Z.eqb_eq | apply Z.leb_le].
    - unfold fexp, emin, F64.prec, F64.emax. lia.
    - unfold F64.prec, F64.emax. lia. }
  exists m, (d - 53)%Z. split; [|split; [exact B|split; [lia|split; [|exact DM]]]].
  - unfold F64.of_Z, binary_normalize. apply binary_round_exact; [exact B|].
    left. split; [lia|]. rewrite <- M. f_equal. f_equal. lia.
  - rewrite <- M. f_equal. f_equal. lia.
Qed.

Lemma shl_align_spec (m : positive) (e ez : Z) :
  (ez <= e)%Z -> Zpos (fst (shl_align m e ez)) = (Zpos m * 2 ^ (e - ez))%Z.
Proof.
  intros L. unfold shl_align. destruct (ez - e)%Z as [|d|d] eqn:S; cbn [fst]; try lia.
  - replace (e - ez)%Z with 0%Z by lia. lia.
  - rewrite iter_xO_spec. f_equal. f_equal. lia.
Qed.

(** The sum of two integers is exact as long as it stays below 2^53. *)
Lemma add_of_Z (a b : Z) :
  (0 <= a)%Z -> (0 <= b)%Z -> (a + b < 2 ^ 53)%Z ->
  F64.add (F64.of_Z a) (F64.of_Z b) = F64.of_Z (a + b).
Proof.
  intros A B U.
  destruct a as [|a|a]; [|clear A|lia].
  { rewrite Z.add_0_l. destruct b as [|b|b]; [reflexivity| |lia].
    destruct (of_Z_pos_spec b U) as (m & e & E & _). rewrite E. reflexivity. }
  destruct b as [|b|b]; [|clear B|lia].
  { rewrite Z.add_0_r. destruct (of_Z_pos_spec a) as (m & e & E & _); [lia|].
    rewrite E. reflexivity. }
  destruct (of_Z_pos_spec a) as (ma & ea & Ea & _ & Ra & Va & _); [lia|].
  destruct (of_Z_pos_spec b) as (mb & eb & Eb & _ & Rb & Vb & _); [lia|].
  change (Zpos a + Zpos b)%Z with (Zpos (a + b)) in *.
  destruct (of_Z_pos_spec (a + b) U) as (m & e & E & Bd & R & V & _).
  rewrite Ea, Eb, E. unfold F64.add, SFadd. cbn [cond_Zopp].
  set (ez := Z.min ea eb).
  pose proof (shl_align_spec ma ea ez ltac:(subst ez; lia)) as Sa.
  pose proof (shl_align_spec mb eb ez ltac:(subst ez; lia)) as Sb.
  set (xa := fst (shl_align ma ea ez)) in *.
  set (xb := fst (shl_align mb eb ez)) in *.
  change (Zpos xa + Zpos xb)%Z with (Zpos (xa + xb)).
  unfold binary_normalize. apply binary_round_exact; [exact Bd|].
  assert (S : Zpos (xa + xb) = (Zpos (a + b) * 2 ^ (- ez))%Z).
  { rewrite Pos2Z.inj_add, Sa, Sb, Va, Vb, (Pos2Z.inj_add a b).
    rewrite <- !Z.mul_assoc, <- !Z.pow_add_r by lia.
    replace (- ea + (ea - ez))%Z with (- ez)%Z by lia.
    replace (- eb + (eb - ez))%Z with (- ez)%Z by lia. lia. }
  destruct (Z.leb_spec e ez) as [C|C].
  - left. split; [exact C|]. rewrite V, S, <- Z.mul_assoc, <- Z.pow_add_r by lia.
    f_equal. f_equal. lia.
  - right. split; [exact C|]. rewrite V, S, <- Z.mul_assoc, <- Z.pow_add_r by lia.
    f_equal. f_equal. lia.
Qed.

(** Adding up integers from the left is exact as long as the total stays
    below 2^53. *)
Lemma fold_add_of_Z (ns : list Z) (a : Z) :
  (0 <= a)%Z -> Forall (fun n => 0 <= n)%Z ns ->
  (fold_left Z.add ns a < 2 ^ 53)%Z ->
  fold_left F64.add (map F64.of_Z ns) (F64.of_Z a) = F64.of_Z (fold_left Z.add ns a).
Proof.
  intros A F. revert a A. induction F as [|n ns N F IH]; intros a A U; [reflexivity|].
  cbn [map fold_left] in *.
  assert (M : forall l x y, (x <= y)%Z -> Forall (fun n => 0 <= n)%Z l ->
                            (fold_left Z.add l x <= fold_left Z.add l y)%Z).
  { intros l. induction l as [|z l IHl]; intros x y L Fl; [exact L|].
    cbn [fold_left]. inversion Fl; subst. apply IHl; [lia|assumption]. }
  assert (G : forall l x, Forall (fun n => 0 <= n)%Z l -> (x <= fold_left Z.add l x)%Z).
  { intros l. induction l as [|z l IHl]; intros x Fl; [cbn; lia|].
    cbn [fold_left]. inversion Fl; subst.
    specialize (IHl (x + z)%Z ltac:(assumption)). lia. }
  pose proof (G ns (a + n)%Z F).
  rewrite add_of_Z by lia. apply IH; [lia|exact U].
Qed.

(* ================================================================= *)
(** ** Products of numbers from 1 on *)

Lemma round_nearest_even_bounds (m : Z) (l : SpecFloat.location) :
  (m <= round_nearest_even m l <= m + 1)%Z.
Proof.
  destruct l as [|[]]; simpl; try lia. destruct (Z.even m); lia.
Qed.

(** A mantissa of 53 bits or more is shifted down to 53 bits. *)
Lemma shr_fexp_normal (M : positive) (E : Z) (l : SpecFloat.location) :
  (53 <= Zpos (digits2_pos M))%Z ->
  (-1074 <= Zpos (digits2_pos M) + E - 53)%Z ->
  exists mrs : shr_record,
    shr_fexp F64.prec F64.emax (Zpos M) E l = (mrs, (Zpos (digits2_pos M) + E - 53)%Z)
    /\ (2 ^ 52 <= shr_m mrs < 2 ^ 53)%Z.
Proof.
  intros D L. pose proof (digits2_pos_bounds M) as [Lo Up].
  set (d := Zpos (digits2_pos M)) in *.
  unfold shr_fexp. cbn [Zdigits2]. fold d.
  assert (X : fexp F64.prec F64.emax (d + E) = (d + E - 53)%Z).
  { unfold fexp, emin, F64.prec, F64.emax. lia. }
  rewrite X.
  assert (R : shr_m (shr_record_of_loc (Zpos M) l) = Zpos M) by (destruct l as [|[]]; reflexivity).
  destruct (d + E - 53 - E)%Z as [|p|p] eqn:S; try lia.
  - cbn [shr]. eexists. split; [f_equal; lia|]. rewrite R.
    replace d with 53%Z in * by lia. simpl in Lo. lia.
  - cbn [shr]. eexists. split; [f_equal; lia|].
    rewrite iter_pos_nat, shr_iter_m, R, positive_nat_Z by (rewrite R; lia).
    assert (P : (0 < 2 ^ Zpos p)%Z) by (apply Z.pow_pos_nonneg; lia).
    assert (Dp : d = (53 + Zpos p)%Z) by lia.
    split.
    + apply Z.div_le_lower_bound; [exact P|].
      rewrite Z.mul_comm, <- Z.pow_add_r by lia.
      replace (52 + Zpos p)%Z with (d - 1)%Z by lia. exact Lo.
    + apply Z.div_lt_upper_bound; [exact P|].
      rewrite Z.mul_comm, <- Z.pow_add_r by lia.
      replace (53 + Zpos p)%Z with d by lia. exact Up.
Qed.

(** Rounding a magnitude of at least 1 gives a double from 1 on. *)
Lemma binary_round_aux_from_one (M : positive) (E : Z) (l : SpecFloat.location) :
  (53 <= Zpos (digits2_pos M))%Z ->
  (-52 <= Zpos (digits2_pos M) + E - 53)%Z ->
  F64.from_one (binary_round_aux F64.prec F64.emax false (Zpos M) E l) = true.
Proof.
  intros D L.
  destruct (shr_fexp_normal M E l D ltac:(lia)) as (mrs & S & B).
  unfold binary_round_aux. rewrite S.
  set (e1 := (Zpos (digits2_pos M) + E - 53)%Z) in *.
  pose proof (round_nearest_even_bounds (shr_m mrs) (loc_of_shr_record mrs)) as R.
  destruct (round_nearest_even (shr_m mrs) (loc_of_shr_record mrs)) as [|p|p]; try lia.
  destruct (Z.ltb_spec (Zpos p) (2 ^ 53)) as [C|C].
  - assert (Dp : Zpos (digits2_pos p) = 53%Z) by (apply digits2_pos_unique; simpl; lia).
    unfold shr_fexp. cbn [Zdigits2 shr_record_of_loc]. rewrite Dp.
    assert (X : (fexp F64.prec F64.emax (53 + e1) - e1 = 0)%Z).
    { unfold fexp, emin, F64.prec, F64.emax. lia. }
    rewrite X. cbn [shr shr_m].
    destruct (e1 <=? F64.emax - F64.prec)%Z eqn:Q; [|reflexivity].
    unfold F64.from_one. rewrite Dp. apply Z.leb_le in Q.
    unfold F64.emax, F64.prec in Q.
    apply andb_true_intro; split; [apply andb_true_intro; split|].
    + reflexivity.
    + apply Z.leb_le. lia.
    + apply Z.leb_le. lia.
  - assert (Ep : p = 9007199254740992%positive).
    { apply Pos2Z.inj. change (Zpos 9007199254740992) with (2 ^ 53)%Z. lia. }
    subst p.
    unfold shr_fexp. cbn [Zdigits2 shr_record_of_loc].
    change (Zpos (digits2_pos 9007199254740992)) with 54%Z.
    assert (X : (fexp F64.prec F64.emax (54 + e1) - e1 = 1)%Z).
    { unfold fexp, emin, F64.prec, F64.emax. lia. }
    rewrite X. cbn [shr iter_pos shr_1 shr_m orb].
    destruct (e1 + 1 <=? F64.emax - F64.prec)%Z eqn:Q; [|reflexivity].
    unfold F64.from_one. apply Z.leb_le in Q. unfold F64.emax, F64.prec in Q.
    change (Zpos (digits2_pos 4503599627370496)) with 53%Z.
    apply andb_true_intro; split; [apply andb_true_intro; split|].
    + reflexivity.
    + apply Z.leb_le. lia.
    + apply Z.leb_le. lia.
Qed.

Lemma from_one_finite (m : positive) (e : Z) :
  F64.from_one (S754_finite false m e) = true ->
  Zpos (digits2_pos m) = 53%Z /\ (-52 <= e <= 971)%Z /\ (2 ^ 52 <= Zpos m < 2 ^ 53)%Z.
Proof.
  unfold F64.from_one. intros H.
  apply andb_prop in H as [H U]. apply andb_prop in H as [D L].
  apply Z.eqb_eq in D. apply Z.leb_le in L, U.
  pose proof (digits2_pos_bounds m) as B. rewrite D in B.
  repeat split; try lia; apply B.
Qed.

(** The product of two doubles from 1 on is from 1 on. *)
Lemma mul_from_one (x y : F64.double) :
  F64.from_one x = true -> F64.from_one y = true -> F64.from_one (F64.mul x y) = true.
Proof.
  destruct x as [sx|[|]| |[|] mx ex]; try discriminate;
    destruct y as [sy|[|]| |[|] my ey]; try discriminate; intros X Y; try reflexivity.
  apply from_one_finite in X as (Dx & Ex & Bx).
  apply from_one_finite in Y as (Dy & Ey & By).
  unfold F64.mul, SFmul. cbn [xorb].
  assert (B : (2 ^ 104 <= Zpos (mx * my) < 2 ^ 106)%Z).
  { rewrite Pos2Z.inj_mul.
    change (2 ^ 104)%Z with (2 ^ 52 * 2 ^ 52)%Z. change (2 ^ 106)%Z with (2 ^ 53 * 2 ^ 53)%Z.
    split.
    - apply Z.mul_le_mono_nonneg; lia.
    - apply Z.mul_lt_mono_nonneg; lia. }
  assert (D : (105 <= Zpos (digits2_pos (mx * my)) <= 106)%Z).
  { destruct (Z.ltb_spec (Zpos (mx * my)) (2 ^ 105)) as [C|C].
    - rewrite (digits2_pos_unique (mx * my) 105); [lia|]. split; [apply B|exact C].
    - rewrite (digits2_pos_unique (mx * my) 106); [lia|]. split; [exact C|apply B]. }
  apply binary_round_aux_from_one; lia.
Qed.

(** A double is from 1 on exactly when it compares so. *)
Lemma from_one_iff (x : F64.double) :
  F64.from_one x = true <-> F64.valid x = true /\ F64.leb (F64.of_Q 1) x = true.
Proof.
  change (F64.of_Q 1) with (S754_finite false 4503599627370496 (-52)).
  destruct x as [s|[|]| |[|] m e];
    try (split; [discriminate|intros [_ H]; discriminate H]);
    try (split; [intros _; split; reflexivity | reflexivity]).
  unfold F64.from_one, F64.valid, valid_binary, bounded, canonical_mantissa.
  unfold F64.leb, SFleb, SFcompare.
  unfold fexp, emin, F64.prec, F64.emax.
  split.
  - intros H. apply andb_prop in H as [H U]. apply andb_prop in H as [D L].
    apply Z.eqb_eq in D. apply Z.leb_le in L, U.
    pose proof (digits2_pos_bounds m) as B. rewrite D in B.
    split.
    + apply andb_true_intro. split; [apply Z.eqb_eq | apply Z.leb_le]; lia.
    + destruct (Z.compare_spec (-52) e) as [C|C|C]; try reflexivity; try lia.
      fold (Pos.compare 4503599627370496 m).
      destruct (Pos.compare_spec 4503599627370496 m) as [P|P|P]; try reflexivity.
      apply Pos2Z.pos_lt_pos in P. change (Zpos 4503599627370496) with (2 ^ 52)%Z in P. lia.
  - intros [V L]. apply andb_prop in V as [C U].
    apply Z.eqb_eq in C. apply Z.leb_le in U.
    assert (E : (-52 <= e)%Z).
    { destruct (Z.compare_spec (-52) e) as [Q|Q|Q]; lia || discriminate L. }
    apply andb_true_intro. split; [apply andb_true_intro; split|].
    + apply Z.eqb_eq. lia.
    + apply Z.leb_le. exact E.
    + apply Z.leb_le. exact U.
Qed.

(** [Math.round] of a double from 1 on is from 1 on. *)
Lemma Math_round_from_one (x : F64.double) :
  F64.from_one x = true -> F64.from_one (F64.Math_round x) = true.
Proof.
  destruct x as [s|[|]| |[|] m e]; try discriminate; intros X; [reflexivity|].
  pose proof (from_one_finite m e X) as (D & E & B).
  cbn [F64.Math_round F64.signed].
  destruct (Z.leb_spec 0 e) as [C|C]; [exact X|].
  set (n := Z.shiftr (Zpos m + Z.shiftl 1 (- e - 1)) (- e)).
  assert (P : (0 < 2 ^ (- e))%Z) by (apply Z.pow_pos_nonneg; lia).
  assert (H : (2 ^ (- e) <= 2 ^ 52)%Z) by (apply Z.pow_le_mono_r; lia).
  assert (N : (1 <= n < 2 ^ 53)%Z).
  { subst n. rewrite Z.shiftr_div_pow2, Z.shiftl_1_l by lia.
    assert (Q : (0 < 2 ^ (- e - 1) <= 2 ^ (- e))%Z).
    { split; [apply Z.pow_pos_nonneg; lia | apply Z.pow_le_mono_r; lia]. }
    split.
    - apply Z.div_le_lower_bound; lia.
    - apply Z.div_lt_upper_bound; [lia|].
      assert (2 ^ (- e) = 2 * 2 ^ (- e - 1))%Z.
      { rewrite <- Z.pow_succ_r by lia. f_equal. lia. }
      nia. }
  destruct (Z.eqb_spec n 0) as [Z|Z]; [lia|].
  destruct n as [|p|p]; try lia.
  destruct (of_Z_pos_spec p ltac:(lia)) as (m' & e' & Eq & _ & R & _ & D').
  rewrite Eq. unfold F64.from_one. rewrite D'.
  apply andb_true_intro; split; [apply andb_true_intro; split|].
  - reflexivity.
  - apply Z.leb_le. lia.
  - apply Z.leb_le. lia.
Qed.

(* ================================================================= *)
(** ** Order and sign of doubles *)

Lemma SFcompare_antisym (x y : F64.double) :
  SFcompare y x = option_map CompOpp (SFcompare x y).
Proof.
  destruct x as [sx|sx| |sx mx ex], y as [sy|sy| |sy my ey]; cbn;
    try reflexivity;
    try (destruct sx; reflexivity); try (destruct sy; reflexivity);
    try (destruct sx, sy; reflexivity).
  destruct sx, sy; try reflexivity; cbn;
    rewrite (Z.compare_antisym ex ey); destruct (ex ?= ey)%Z; cbn; try reflexivity;
    rewrite (Pos.compare_cont_antisym mx my Eq); cbn;
    destruct (Pos.compare_cont Eq mx my); reflexivity.
Qed.

Lemma gtb_ltb (x y : F64.double) : F64.gtb x y = F64.ltb y x.
Proof. reflexivity. Qed.

Lemma leb_zero_iff (x : F64.double) :
  F64.leb F64.zero x = true
  <-> match x with
      | S754_zero _ | S754_infinity false | S754_finite false _ _ => True
      | _ => False
      end.
Proof.
  destruct x as [s|[|]| |[|] m e]; cbn; split; intros H;
    try reflexivity; try exact I; try discriminate H; try contradiction.
Qed.

Lemma ltb_zero_iff (x : F64.double) :
  F64.ltb F64.zero x = true
  <-> match x with
      | S754_infinity false | S754_finite false _ _ => True
      | _ => False
      end.
Proof.
  destruct x as [s|[|]| |[|] m e]; cbn; split; intros H;
    try reflexivity; try exact I; try discriminate H; try contradiction.
Qed.

Lemma from_one_positive (x : F64.double) : F64.from_one x = true -> F64.ltb F64.zero x = true.
Proof.
  intros H. apply ltb_zero_iff. destruct x as [s|[|]| |[|] m e]; try discriminate H; exact I.
Qed.

(** The result of rounding a magnitude is not negative. *)
Lemma binary_round_aux_nonneg (m e : Z) (l : SpecFloat.location) :
  (0 <= m)%Z -> F64.leb F64.zero (binary_round_aux F64.prec F64.emax false m e l) = true.
Proof.
  intros H. apply leb_zero_iff.
  pose proof (binary_round_aux_sign false m e l H) as S.
  destruct (binary_round_aux F64.prec F64.emax false m e l) as [s|s| |s m' e'];
    try subst s; try exact I; try contradiction.
Qed.

Lemma binary_normalize_nonneg (m e : Z) :
  (0 <= m)%Z -> F64.leb F64.zero (binary_normalize F64.prec F64.emax m e false) = true.
Proof.
  intros H. destruct m as [|m|m]; [reflexivity| |lia].
  unfold binary_normalize, binary_round.
  destruct (shl_align _ _ _) as [mz ez]. apply binary_round_aux_nonneg. lia.
Qed.

Lemma of_Z_nonneg (n : Z) : (0 <= n)%Z -> F64.leb F64.zero (F64.of_Z n) = true.
Proof. apply binary_normalize_nonneg. Qed.

Lemma mul_nonneg_finite (x y : F64.double) :
  F64.leb F64.zero x = true -> F64.leb F64.zero y = true ->
  F64.isFinite x = true -> F64.isFinite y = true ->
  F64.leb F64.zero (F64.mul x y) = true.
Proof.
  destruct x as [sx|[|]| |[|] mx ex]; try discriminate;
    destruct y as [sy|[|]| |[|] my ey]; try discriminate; intros _ _ _ _;
    try reflexivity.
  apply binary_round_aux_nonneg. lia.
Qed.

Lemma mul_nonneg_positive (x y : F64.double) :
  F64.leb F64.zero x = true -> F64.ltb F64.zero y = true -> F64.isFinite y = true ->
  F64.leb F64.zero (F64.mul x y) = true.
Proof.
  destruct x as [sx|[|]| |[|] mx ex]; try discriminate;
    destruct y as [sy|[|]| |[|] my ey]; try discriminate; intros _ _ _;
    try reflexivity.
  apply binary_round_aux_nonneg. lia.
Qed.

Lemma div_core_nonneg (m1 m2 : positive) (e1 e2 : Z) :
  (0 <= fst (fst (SFdiv_core_binary F64.prec F64.emax (Zpos m1) e1 (Zpos m2) e2)))%Z.
Proof.
  unfold SFdiv_core_binary.
  set (s := (e1 - e2 - _)%Z).
  set (m' := match s with Zpos _ => Z.shiftl (Zpos m1) s | Z0 => Zpos m1 | Zneg _ => 0%Z end).
  assert (P : (0 <= m')%Z).
  { subst m'. destruct s; try lia. apply Z.shiftl_nonneg. lia. }
  pose proof (Z_div_mod m' (Zpos m2) ltac:(lia)) as Q.
  destruct (Z.div_eucl m' (Zpos m2)) as [q r]. cbn [fst]. nia.
Qed.

Lemma div_nonneg (x y : F64.double) :
  F64.leb F64.zero x = true -> F64.ltb F64.zero y = true ->
  ~ (x = F64.infinity /\ y = F64.infinity) ->
  F64.leb F64.zero (F64.div x y) = true.
Proof.
  destruct x as [sx|[|]| |[|] mx ex]; try discriminate;
    destruct y as [sy|[|]| |[|] my ey]; try discriminate; intros _ _ N;
    try reflexivity.
  - exfalso. apply N. split; reflexivity.
  - unfold F64.div, SFdiv. pose proof (div_core_nonneg mx my ex ey) as P.
    destruct (SFdiv_core_binary _ _ _ _ _ _) as [[mz ez] lz]. cbn [fst] in P.
    apply binary_round_aux_nonneg. exact P.
Qed.

Lemma div_nonneg_finite (x y : F64.double) :
  F64.leb F64.zero x = true -> F64.ltb F64.zero y = true -> F64.isFinite y = true ->
  F64.leb F64.zero (F64.div x y) = true.
Proof.
  intros X Y F. apply div_nonneg; [exact X|exact Y|].
  intros [_ E]. subst y. discriminate F.
Qed.

Lemma add_nonneg (x y : F64.double) :
  F64.leb F64.zero x = true -> F64.leb F64.zero y = true ->
  F64.leb F64.zero (F64.add x y) = true.
Proof.
  destruct x as [sx|[|]| |[|] mx ex]; try discriminate;
    destruct y as [sy|[|]| |[|] my ey]; try discriminate; intros _ _;
    try reflexivity; try (destruct sx, sy; reflexivity).
  unfold F64.add, SFadd. cbn [cond_Zopp].
  apply binary_normalize_nonneg. lia.
Qed.

Lemma Math_round_nonneg_double (x : F64.double) :
  F64.leb F64.zero x = true -> F64.leb F64.zero (F64.Math_round x) = true.
Proof.
  destruct x as [sx|[|]| |[|] m e]; try discriminate; intros _; try reflexivity.
  cbn [F64.Math_round F64.signed].
  destruct (0 <=? e)%Z; [reflexivity|].
  destruct (Z.eqb_spec (Z.shiftr (Zpos m + Z.shiftl 1 (- e - 1)) (- e)) 0) as [Z|Z];
    [reflexivity|].
  apply of_Z_nonneg. apply Z.shiftr_nonneg.
  assert (0 <= Z.shiftl 1 (- e - 1))%Z by (apply Z.shiftl_nonneg; lia). lia.
Qed.

Lemma Math_min_nonneg (x y : F64.double) :
  F64.leb F64.zero x = true -> F64.leb F64.zero y = true ->
  F64.leb F64.zero (F64.Math_min x y) = true.
Proof.
  intros X Y. unfold F64.Math_min.
  destruct (SFcompare x y) as [[]|] eqn:C; try assumption.
  - destruct x as [[|]| | |]; assumption.
  - destruct x as [sx|[|]| |[|] mx ex]; try discriminate;
      destruct y as [sy|[|]| |[|] my ey]; discriminate.
Qed.

Lemma Math_max_nonneg (x y : F64.double) :
  F64.leb F64.zero x = true -> F64.leb F64.zero y = true ->
  F64.leb F64.zero (F64.Math_max x y) = true.
Proof.
  intros X Y. unfold F64.Math_max.
  destruct (SFcompare x y) as [[]|] eqn:C; try assumption.
  - destruct x as [[|]| | |]; assumption.
  - destruct x as [sx|[|]| |[|] mx ex]; try discriminate;
      destruct y as [sy|[|]| |[|] my ey]; discriminate.
Qed.


Lemma SFcompare_None (x y : F64.double) :
  SFcompare x y = None -> F64.isNaN x = true \/ F64.isNaN y = true.
Proof.
  destruct x as [sx|[|]| |[|] mx ex]; destruct y as [sy|[|]| |[|] my ey];
    try discriminate; intros _; (left; reflexivity) || (right; reflexivity).
Qed.

Lemma SFcompare_Eq_finite (x : F64.double) (s : bool) (m : positive) (e : Z) :
  SFcompare x (S754_finite s m e) = Some Eq -> x = S754_finite s m e.
Proof.
  destruct x as [sx|[|]| |sx mx ex]; destruct s; try discriminate;
    try (destruct sx; discriminate).
  - destruct sx; try discriminate. unfold SFcompare.
    destruct (Z.compare_spec ex e) as [E|E|E]; try discriminate.
    intros H. injection H as H. apply CompOpp_iff in H. simpl in H.
    apply Pos.compare_eq in H. subst. reflexivity.
  - destruct sx; try discriminate. unfold SFcompare.
    destruct (Z.compare_spec ex e) as [E|E|E]; try discriminate.
    intros H. injection H as H. apply Pos.compare_eq in H. subst. reflexivity.
Qed.

Lemma SFcompare_refl (x : F64.double) : F64.isNaN x = false -> SFcompare x x = Some Eq.
Proof.
  intros X. destruct x as [sx|[|]| |[|] mx ex]; try discriminate X; try reflexivity;
    unfold SFcompare; rewrite Z.compare_refl; fold (Pos.compare mx mx);
    rewrite Pos.compare_refl; reflexivity.
Qed.

(** [Math.max(x, y)] is at least [y] when it is a number. *)
Lemma Math_max_ge_r (x y : F64.double) :
  F64.isNaN (F64.Math_max x y) = false -> F64.leb y (F64.Math_max x y) = true.
Proof.
  unfold F64.Math_max, F64.leb, SFleb.
  destruct (SFcompare x y) as [[]|] eqn:C; intros N.
  - assert (Y : F64.isNaN y = false).
    { destruct y; try reflexivity. destruct x; discriminate C. }
    destruct x as [[|]|sx| |sx mx ex];
      try (rewrite SFcompare_antisym, C; reflexivity).
    rewrite SFcompare_refl by exact Y. reflexivity.
  - rewrite SFcompare_refl by exact N. reflexivity.
  - rewrite SFcompare_antisym, C. reflexivity.
  - discriminate N.
Qed.

(** The values of some literals and of the [Math] functions on them. *)
Example double_literals :
  F64.of_Q 0.7 = S754_finite false 6305039478318694 (-53)
  /\ F64.of_Q 1 = S754_finite false 4503599627370496 (-52)
  /\ F64.Math_PI = F64.of_Q 3.141592653589793
  /\ F64.isFinite (F64.of_Q 1e308) = true
  /\ F64.of_Q 1e309 = F64.infinity.
Proof. repeat split; vm_compute; reflexivity. Qed.

Example Math_round_double_values :
  F64.Math_round (F64.of_Q 2.5) = F64.of_Z 3
  /\ F64.Math_round (F64.of_Q (-2.5)) = F64.of_Z (-2)
  /\ F64.Math_round (F64.of_Q 15970.499999999998) = F64.of_Z 15970
  /\ F64.Math_round (F64.of_Q 0.49999999999999994) = S754_zero false
  /\ F64.Math_round (F64.of_Q (-0.3)) = S754_zero true
  /\ F64.Math_round F64.infinity = F64.infinity
  /\ F64.Math_round F64.NaN = F64.NaN.
Proof. repeat split; vm_compute; reflexivity. Qed.

Example Math_ceil_sqrt_double_values :
  F64.Math_ceil (F64.Math_sqrt (F64.of_Q 36)) = F64.of_Z 6
  /\ F64.Math_ceil (F64.Math_sqrt (F64.of_Q 36.00000000000001)) = F64.of_Z 7
  /\ F64.Math_ceil (F64.of_Q (-0.3)) = S754_zero true
  /\ F64.Math_sqrt (F64.of_Q (-1)) = F64.NaN.
Proof. repeat split; vm_compute; reflexivity. Qed.

Example toFixed1_double_values :
  F64.toFixed1 (F64.of_Q 1.0925) = F64.of_Q 1.1
  /\ F64.toFixed1 (F64.of_Q 0.85) = F64.of_Q 0.8
  /\ F64.toFixed1 (F64.of_Q 0.25) = F64.of_Q 0.3
  /\ F64.toFixed1 (F64.of_Q (-0.04)) = S754_zero true
  /\ F64.toFixed1 F64.NaN = F64.NaN.
Proof. repeat split; vm_compute; reflexivity. Qed.

Example Math_min_max_double_values :
  F64.Math_min (S754_zero false) (S754_zero true) = S754_zero true
  /\ F64.Math_max (S754_zero true) (S754_zero false) = S754_zero false
  /\ F64.Math_min (F64.of_Q 100) F64.infinity = F64.of_Q 100
  /\ F64.Math_min (F64.of_Q 100) (S754_infinity true) = S754_infinity true
  /\ F64.Math_min (F64.of_Q 100) F64.NaN = F64.NaN
  /\ F64.Math_max F64.NaN (F64.of_Q 1) = F64.NaN.
Proof. repeat split; vm_compute; reflexivity. Qed.

(* ================================================================= *)
(** ** Magnitude of rounded results *)






Lemma within_weaken (E E' : Z) (x : F64.double) :
  (E <= E')%Z -> F64.within E x = true -> F64.within E' x = true.
Proof.
  intros L. destruct x as [s|s| |[|] m e]; try discriminate; try reflexivity.
  unfold F64.within. intros H. apply andb_prop in H as [D X].
  apply Z.leb_le in X. apply andb_true_intro. split; [exact D|]. apply Z.leb_le. lia.
Qed.












(* ================================================================= *)
(** ** The stages of [calculate] on doubles *)

(** Opens a hypothesis [Double.calculate ... = JS.Return r]. *)
Ltac open_double H c F r :=
  unfold Double.calculate in H;
  destruct (Double.findCityData _ _ _) as [c|] eqn:F; [|discriminate H];
  apply (f_equal (fun o => match o with JS.Return a => a | JS.Throw _ => r end)) in H;
  lazy beta iota in H; subst r.

Lemma double_potential_monthly (k : Double.Coefficients) (u : Double.UserInput)
  (c : Double.CityData) :
  Double.monthly (Double.calculateRainwaterPotential k u c)
  = map (fun rainfall =>
           Double.Spec.monthPotential (Double.roofArea u) rainfall
             (Double.runoffCoefficients k (Double.roofType u)))
        (Double.monthlyRainfall c).
Proof. reflexivity. Qed.

Lemma double_potential_annual (k : Double.Coefficients) (u : Double.UserInput)
  (c : Double.CityData) :
  Double.annual (Double.calculateRainwaterPotential k u c)
  = Double.Spec.total (Double.monthly (Double.calculateRainwaterPotential k u c)).
Proof. reflexivity. Qed.

(** The monthly values and the annual value of a result. *)
Lemma double_result_potential
  (cities : list Double.CityData) (k : Double.Coefficients) (u : Double.UserInput)
  (t : CalculationType.t) (r : Double.CalculationResults) :
  Double.calculate cities k u t = JS.Return r ->
  exists c : Double.CityData,
    Double.findCityData cities (Double.location u) (Double.pincode u) = Some c
    /\ Double.monthlyPotential r = Double.monthly (Double.calculateRainwaterPotential k u c)
    /\ Double.rainwaterPotential r = Double.annual (Double.calculateRainwaterPotential k u c)
    /\ Double.householdDemand r = Double.calculateHouseholdDemand k u.
Proof.
  intros H. open_double H c F r. exists c.
  destruct t; repeat split; reflexivity.
Qed.

(** Added up from the left, integers whose total is below 2^53 give their
    exact total. *)
Lemma double_total_exact (ns : list Z) :
  Forall (fun n => 0 <= n)%Z ns ->
  (Spec.total ns < 2 ^ 53)%Z ->
  Double.Spec.total (map F64.of_Z ns) = F64.of_Z (Spec.total ns).
Proof.
  intros N U. unfold Double.Spec.total.
  change F64.zero with (F64.of_Z 0).
  pose proof (reduce_sum_total ns 0) as R. rewrite Z.add_0_l in R.
  change (fun sum month : Z => (sum + month)%Z) with Z.add in R.
  rewrite <- R. apply fold_add_of_Z; [lia|exact N|]. rewrite R. exact U.
Qed.

(** C4.  For the city record [c] that was resolved, the monthly values of the
    result are, month by month, Math.round(roof area x rainfall x runoff
    coefficient) with both products rounded to double precision, as many as
    the record has rainfall figures.  The annual potential is the monthly
    values added up in their order in double precision; it is their exact
    sum whenever the monthly values are integers that are not negative and
    that sum is below 2^53.  With a roof of 100 m2, a coefficient of 0.8 and
    a month of 500 mm that month's value is 40000 liters. *)
Theorem monthly_potential_and_annual_sum
  (cities : list Double.CityData) (k : Double.Coefficients) (u : Double.UserInput)
  (t : CalculationType.t) (r : Double.CalculationResults) :
  Double.calculate cities k u t = JS.Return r ->
  exists c : Double.CityData,
    Double.findCityData cities (Double.location u) (Double.pincode u) = Some c
    /\ Double.monthlyPotential r
       = map (fun rainfall =>
                Double.Spec.monthPotential (Double.roofArea u) rainfall
                  (Double.runoffCoefficients k (Double.roofType u)))
             (Double.monthlyRainfall c)
    /\ List.length (Double.monthlyPotential r) = List.length (Double.monthlyRainfall c)
    /\ Double.rainwaterPotential r = Double.Spec.total (Double.monthlyPotential r)
    /\ (forall ns : list Z,
          Double.monthlyPotential r = map F64.of_Z ns ->
          Forall (fun n => 0 <= n)%Z ns ->
          (Spec.total ns < 2 ^ 53)%Z ->
          Double.rainwaterPotential r = F64.of_Z (Spec.total ns))
    /\ (forall i : nat,
          Double.roofArea u = F64.of_Q 100 ->
          Double.runoffCoefficients k (Double.roofType u) = F64.of_Q 0.8 ->
          nth_error (Double.monthlyRainfall c) i = Some (F64.of_Q 500) ->
          nth_error (Double.monthlyPotential r) i = Some (F64.of_Z 40000)).
Proof.
  intros H. destruct (double_result_potential _ _ _ _ _ H) as (c & F & M & A & _).
  exists c. split; [exact F|].
  rewrite M, A, double_potential_annual, double_potential_monthly.
  split; [reflexivity|]. split; [apply length_map|]. split; [reflexivity|]. split.
  - intros ns E N U. rewrite E. apply double_total_exact; assumption.
  - intros i RA RC N. rewrite nth_error_map, N, RA, RC. reflexivity.
Qed.

Lemma monthly_potential_and_annual_sum_witness :
  exists r,
    Json.calculate Sample.cities Sample.coefficients Sample.household
      CalculationType.rainwater = JS.Return r
    /\ nth_error (Double.monthlyPotential r) 5 = Some (F64.of_Z 40000)
    /\ Double.rainwaterPotential r = F64.of_Z 190880.
Proof.
  eexists. split.
  - vm_compute. reflexivity.
  - destruct (monthly_potential_and_annual_sum
                (map Json.cityData Sample.cities) (Json.coefficients Sample.coefficients)
                (Json.userInput Sample.household) CalculationType.rainwater _ eq_refl)
      as (c & F & _ & _ & _ & S & X).
    split.
    + apply (X 5%nat); try reflexivity.
      vm_compute in F. injection F as <-. reflexivity.
    + apply (S [80; 80; 0; 80; 960; 40000; 67200; 46800; 27200; 7200; 1040; 240]%Z).
      * vm_compute. reflexivity.
      * repeat constructor; discriminate.
      * reflexivity.
Defined.

(** Under a roof of 10^14 + 1 m2 in Mumbai the twelve monthly values are
    integers whose sum is 190880000000001914, and the annual potential of
    the result is 190880000000001920. *)
Lemma monthly_potential_and_annual_sum_counterexample :
  exists r ns,
    Json.calculate Sample.cities Sample.coefficients Boundary.wideRoof
      CalculationType.rainwater = JS.Return r
    /\ map F64.to_Z (Double.monthlyPotential r) = map Some ns
    /\ List.length ns = 12%nat
    /\ Spec.total ns = 190880000000001914%Z
    /\ F64.to_Z (Double.rainwaterPotential r) = Some 190880000000001920%Z.
Proof.
  eexists.
  exists [80000000000001; 80000000000001; 0; 80000000000001; 960000000000010;
          40000000000000400; 67200000000000672; 46800000000000472;
          27200000000000272; 7200000000000072; 1040000000000011; 240000000000002]%Z.
  split; [vm_compute; reflexivity|].
  repeat split; vm_compute; reflexivity.
Qed.

(** Under 39 m2 of asbestos sheets in Mumbai the value of August, a month of
    585 mm, is 15970: the product 39 x 585 x 0.7 is 15970.5 as a real number,
    which would round to 15971, and 15970.499999999998 in double
    precision. *)
Example month_potential_rounds_the_double_product :
  exists r,
    Json.calculate Sample.cities Sample.coefficients Boundary.asbestosRoof
      CalculationType.rainwater = JS.Return r
    /\ nth_error (Double.monthlyPotential r) 7 = Some (F64.of_Z 15970)
    /\ F64.mul (F64.mul (F64.of_Q 39) (F64.of_Q 585)) (F64.of_Q 0.7)
       = F64.of_Q 15970.499999999998
    /\ Spec.monthPotential 39 585 0.7 = 15971%Z.
Proof.
  eexists. split; [vm_compute; reflexivity|].
  repeat split; vm_compute; reflexivity.
Qed.

(* ================================================================= *)
(** ** Potential, demand and coverage on doubles *)

Lemma nonNegative_iff (x : F64.double) :
  Double.nonNegative x = true <-> F64.leb F64.zero x = true /\ F64.isFinite x = true.
Proof. unfold Double.nonNegative. apply andb_true_iff. Qed.

Lemma positive_iff (x : F64.double) :
  Double.positive x = true <-> F64.ltb F64.zero x = true /\ F64.isFinite x = true.
Proof. unfold Double.positive. apply andb_true_iff. Qed.

Lemma atLeastOne_from_one (x : F64.double) :
  Double.atLeastOne x = true -> F64.from_one x = true.
Proof.
  unfold Double.atLeastOne. intros H. apply andb_prop in H. apply from_one_iff. exact H.
Qed.

Lemma runoffPositive_at (k : Double.Coefficients) (r : RoofType.t) :
  Double.runoffPositive k = true -> Double.positive (Double.runoffCoefficients k r) = true.
Proof.
  unfold Double.runoffPositive. cbn [forallb]. intros H.
  repeat (apply andb_prop in H; destruct H as [? H]).
  destruct r; assumption.
Qed.

Lemma double_findCityData_In (cities : list Double.CityData) (l p : string)
  (c : Double.CityData) :
  Double.findCityData cities l p = Some c -> In c cities.
Proof.
  unfold Double.findCityData. cbv zeta.
  repeat match goal with
         | |- context [find ?f cities] =>
             let F := fresh "F" in destruct (find f cities) eqn:F
         end;
    cbn [JS.or_else]; intros E;
    try (injection E as <-;
         match goal with F : find _ _ = Some _ |- _ => apply (find_some _ _ F) end).
  apply (nth_error_In _ _ E).
Qed.

Lemma rainfallNonNegative_at (cities : list Double.CityData) (c : Double.CityData) :
  Double.rainfallNonNegative cities = true -> In c cities ->
  Forall (fun x => Double.nonNegative x = true) (Double.monthlyRainfall c).
Proof.
  unfold Double.rainfallNonNegative. intros H I.
  rewrite forallb_forall in H. specialize (H c I).
  apply Forall_forall. rewrite forallb_forall in H. exact H.
Qed.

(** A month's potential is not negative when none of its three factors
    is. *)
Lemma monthPotential_nonneg (a rain coeff : F64.double) :
  Double.nonNegative a = true -> Double.nonNegative rain = true ->
  Double.positive coeff = true ->
  F64.leb F64.zero (Double.Spec.monthPotential a rain coeff) = true.
Proof.
  intros A R C. apply nonNegative_iff in A as [A A']. apply nonNegative_iff in R as [R R'].
  apply positive_iff in C as [C C'].
  unfold Double.Spec.monthPotential.
  apply Math_round_nonneg_double, mul_nonneg_positive; [|exact C|exact C'].
  apply mul_nonneg_finite; assumption.
Qed.

Lemma total_nonneg_double (l : list F64.double) (a : F64.double) :
  F64.leb F64.zero a = true ->
  Forall (fun x => F64.leb F64.zero x = true) l ->
  F64.leb F64.zero (fold_left F64.add l a) = true.
Proof.
  intros A F. revert a A. induction F as [|x l X F IH]; intros a A; [exact A|].
  cbn [fold_left]. apply IH. apply add_nonneg; assumption.
Qed.

(** The annual potential is a number that is not negative. *)
Lemma double_potential_nonneg (k : Double.Coefficients) (u : Double.UserInput)
  (c : Double.CityData) :
  Double.nonNegative (Double.roofArea u) = true ->
  Double.runoffPositive k = true ->
  Forall (fun x => Double.nonNegative x = true) (Double.monthlyRainfall c) ->
  F64.leb F64.zero (Double.annual (Double.calculateRainwaterPotential k u c)) = true.
Proof.
  intros A K R. rewrite double_potential_annual, double_potential_monthly.
  unfold Double.Spec.total. apply total_nonneg_double; [reflexivity|].
  apply Forall_map. eapply Forall_impl; [|exact R].
  intros x X. apply monthPotential_nonneg; [exact A|exact X|].
  apply runoffPositive_at. exact K.
Qed.

(** With at least one dweller and a consumption of at least one liter the
    demand is at least 1. *)
Lemma double_demand_from_one (k : Double.Coefficients) (u : Double.UserInput) :
  Double.atLeastOne (Double.dwellers u) = true ->
  Double.consumptionAtLeastOne k = true ->
  F64.from_one (Double.calculateHouseholdDemand k u) = true.
Proof.
  intros D C. apply atLeastOne_from_one in D, C.
  unfold Double.calculateHouseholdDemand. cbv zeta.
  apply Math_round_from_one. apply mul_from_one.
  - apply mul_from_one; [|reflexivity]. apply mul_from_one; assumption.
  - destruct (Double.purpose u); reflexivity.
Qed.

Lemma double_result_coverage
  (cities : list Double.CityData) (k : Double.Coefficients) (u : Double.UserInput)
  (t : CalculationType.t) (r : Double.CalculationResults) :
  Double.calculate cities k u t = JS.Return r ->
  Double.coveragePercentage r
  = Double.Spec.coverage (Double.rainwaterPotential r) (Double.householdDemand r).
Proof.
  intros H. open_double H c F r. destruct t; reflexivity.
Qed.

Lemma Math_min_le_r (x y : F64.double) :
  F64.isNaN x = false -> F64.isNaN y = false -> F64.leb (F64.Math_min x y) y = true.
Proof.
  intros X Y. unfold F64.Math_min, F64.leb, SFleb.
  assert (R : forall z, F64.isNaN z = false -> SFcompare z z = Some Eq).
  { intros z Z. destruct z as [sz|[|]| |[|] mz ez]; try discriminate Z; try reflexivity;
      cbn; rewrite Z.compare_refl; fold (Pos.compare mz mz); rewrite Pos.compare_refl;
      reflexivity. }
  destruct (SFcompare x y) as [[]|] eqn:C.
  - destruct x as [[|]|sx| |sx mx ex]; try (rewrite C; reflexivity).
    rewrite R by exact Y. reflexivity.
  - rewrite C. reflexivity.
  - rewrite R by exact Y. reflexivity.
  - destruct x as [sx|[|]| |[|] mx ex]; try discriminate X;
      destruct y as [sy|[|]| |[|] my ey]; try discriminate Y; discriminate C.
Qed.

Lemma nonneg_not_NaN (x : F64.double) : F64.leb F64.zero x = true -> F64.isNaN x = false.
Proof. destruct x; try reflexivity. discriminate. Qed.





(* ================================================================= *)
(** ** Savings and payback on doubles *)

Lemma mul_comm (x y : F64.double) : F64.mul x y = F64.mul y x.
Proof.
  destruct x as [sx|sx| |sx mx ex], y as [sy|sy| |sy my ey]; cbn;
    try reflexivity; try (rewrite xorb_comm; reflexivity).
  rewrite xorb_comm, Pos.mul_comm, Z.add_comm. reflexivity.
Qed.

Lemma double_costs_annualSavings (k : Double.Coefficients) (u : Double.UserInput)
  (cap : F64.double) (b : bool) :
  Double.costs_annualSavings (Double.calculateCosts k u cap b)
  = Double.Spec.annualSavings (Double.calculateHouseholdDemand k u) cap
      (Double.municipalRate (Double.waterRates k)).
Proof.
  unfold Double.calculateCosts, Double.Spec.annualSavings. cbn [Double.costs_annualSavings].
  rewrite (mul_comm cap). reflexivity.
Qed.


(** The costs of a result are those of [calculateCosts] for the tank
    capacity of the same result. *)
Lemma double_result_costs
  (cities : list Double.CityData) (k : Double.Coefficients) (u : Double.UserInput)
  (t : CalculationType.t) (r : Double.CalculationResults) :
  Double.calculate cities k u t = JS.Return r ->
  let costs :=
    Double.calculateCosts k u (Double.tankCapacity r) (CalculationType.is_recharge t) in
  Double.systemCost r = Double.costs_systemCost costs
  /\ Double.annualSavings r = Double.costs_annualSavings costs
  /\ Double.paybackPeriod r = Double.costs_paybackPeriod costs
  /\ Double.tankCapacity r
     = Double.capacity
         (Double.calculateStorageTank (Double.rainwaterPotential r)
            (Double.monthlyPotential r) (Double.householdDemand r)).
Proof.
  intros H. open_double H c F r. destruct t; repeat split; reflexivity.
Qed.

(** The tank capacity is a number that is not negative as soon as the
    potential and the demand are. *)
Lemma double_capacity_nonneg (pot hd : F64.double) (monthly : list F64.double) :
  F64.leb F64.zero pot = true -> F64.leb F64.zero hd = true ->
  F64.leb F64.zero (Double.capacity (Double.calculateStorageTank pot monthly hd)) = true.
Proof.
  intros P H. unfold Double.calculateStorageTank. cbn [Double.capacity].
  apply Math_max_nonneg; [|reflexivity].
  apply Math_min_nonneg; [|reflexivity].
  apply Math_min_nonneg; apply Math_round_nonneg_double.
  - apply mul_nonneg_positive; [|reflexivity|reflexivity].
    apply div_nonneg_finite; [exact H|reflexivity|reflexivity].
  - apply mul_nonneg_positive; [exact P|reflexivity|reflexivity].
Qed.

Lemma costsInRange_iff (k : Double.Coefficients) :
  Double.costsInRange k = true ->
  Double.nonNegative (Double.baseCostPerSqm (Double.costFactors k)) = true
  /\ (forall b, Double.positive (Double.budgetMultipliers (Double.costFactors k) b) = true)
  /\ Double.positive (Double.municipalRate (Double.waterRates k)) = true
  /\ F64.valid (Double.municipalRate (Double.waterRates k)) = true
  /\ F64.leb (Double.municipalRate (Double.waterRates k)) (F64.of_Q 1e300) = true.
Proof.
  unfold Double.costsInRange. cbn [forallb]. intros H.
  apply andb_prop in H as [H L]. apply andb_prop in H as [H V].
  apply andb_prop in H as [H R]. apply andb_prop in H as [B M].
  apply andb_prop in M as [M1 M]. apply andb_prop in M as [M2 M].
  apply andb_prop in M as [M3 _].
  repeat split; try assumption.
  intros b. destruct b; assumption.
Qed.

(** The three tiers of the system cost are numbers that are not negative. *)
Lemma double_costs_tier_nonneg (k : Double.Coefficients) (u : Double.UserInput)
  (cap : F64.double) (b : bool) :
  Double.nonNegative (Double.roofArea u) = true ->
  Double.costsInRange k = true ->
  F64.leb F64.zero cap = true ->
  let cost := Double.costs_systemCost (Double.calculateCosts k u cap b) in
  F64.leb F64.zero (Double.low cost) = true
  /\ F64.leb F64.zero (Double.medium cost) = true
  /\ F64.leb F64.zero (Double.high cost) = true.
Proof.
  intros A C P. apply costsInRange_iff in C as (B & M & _).
  apply nonNegative_iff in A as [A A']. apply nonNegative_iff in B as [B B'].
  unfold Double.calculateCosts. cbv zeta. cbn [Double.costs_systemCost Double.low Double.medium Double.high].
  assert (T : F64.leb F64.zero
                (F64.add
                   (F64.add
                      (F64.mul (Double.roofArea u)
                         (Double.baseCostPerSqm (Double.costFactors k)))
                      (F64.mul cap (F64.of_Q 0.8)))
                   (if b then F64.mul (Double.roofArea u) (F64.of_Q 150) else F64.of_Q 0))
              = true).
  { apply add_nonneg; [apply add_nonneg|].
    - apply mul_nonneg_finite; assumption.
    - apply mul_nonneg_positive; [exact P|reflexivity|reflexivity].
    - destruct b; [|reflexivity].
      apply mul_nonneg_positive; [exact A|reflexivity|reflexivity]. }
  repeat split; apply Math_round_nonneg_double;
    (apply mul_nonneg_positive; [exact T| |]);
    match goal with
    | |- context [Double.budgetMultipliers _ ?b] =>
        specialize (M b); apply positive_iff in M; apply M
    end.
Qed.

Lemma double_savings_nonneg (hd cap rate : F64.double) :
  F64.leb F64.zero hd = true -> F64.leb F64.zero cap = true ->
  Double.positive rate = true ->
  F64.leb F64.zero (Double.Spec.annualSavings hd cap rate) = true.
Proof.
  intros H C R. apply positive_iff in R as [R R'].
  unfold Double.Spec.annualSavings.
  apply Math_round_nonneg_double, mul_nonneg_positive; [|exact R|exact R'].
  apply Math_min_nonneg; [exact H|].
  rewrite mul_comm. apply mul_nonneg_positive; [exact C|reflexivity|reflexivity].
Qed.


(** The tank capacity lies between 2000 and 15000 as soon as the potential
    and the demand are numbers that are not negative. *)
Lemma double_capacity_range (pot hd : F64.double) (monthly : list F64.double) :
  F64.leb F64.zero pot = true -> F64.leb F64.zero hd = true ->
  F64.leb (F64.of_Q 2000) (Double.capacity (Double.calculateStorageTank pot monthly hd))
  = true
  /\ F64.leb (Double.capacity (Double.calculateStorageTank pot monthly hd)) (F64.of_Q 15000)
     = true.
Proof.
  intros P H.
  pose proof (double_capacity_nonneg pot hd monthly P H) as N.
  unfold Double.calculateStorageTank in *. cbn [Double.capacity] in *.
  set (d := F64.Math_round (F64.mul (F64.div hd (F64.of_Q 365)) (F64.of_Q 35))) in *.
  set (p := F64.Math_round (F64.mul pot (F64.of_Q 0.2))) in *.
  assert (M : F64.leb F64.zero (F64.Math_min d p) = true).
  { apply Math_min_nonneg; apply Math_round_nonneg_double.
    - apply mul_nonneg_positive; [|reflexivity|reflexivity].
      apply div_nonneg_finite; [exact H|reflexivity|reflexivity].
    - apply mul_nonneg_positive; [exact P|reflexivity|reflexivity]. }
  pose proof (Math_min_le_r (F64.Math_min d p) (F64.of_Q 15000)
                (nonneg_not_NaN _ M) eq_refl) as U.
  set (tc := F64.Math_min (F64.Math_min d p) (F64.of_Q 15000)) in *.
  split.
  - apply Math_max_ge_r. apply nonneg_not_NaN. exact N.
  - unfold F64.Math_max.
    destruct (SFcompare tc (F64.of_Q 2000)) as [[]|] eqn:C.
    + destruct tc as [[|]|sx| |sx mx ex]; try exact U; reflexivity.
    + reflexivity.
    + exact U.
    + unfold F64.Math_max in N. rewrite C in N. discriminate N.
Qed.







(** With a municipal rate of 0.009 per liter and 94500 liters saved, the
    product is 850.4999999999999 in double precision and the savings are
    850. *)
Example savings_rounds_the_double_product :
  exists r,
    Json.calculate Sample.cities Boundary.cheapWater Boundary.couple
      CalculationType.rainwater = JS.Return r
    /\ Double.tankCapacity r = F64.of_Z 9450
    /\ Double.householdDemand r = F64.of_Z 98550
    /\ F64.mul (F64.of_Z 94500) (F64.of_Q 0.009) = F64.of_Q 850.4999999999999
    /\ Double.annualSavings r = F64.of_Z 850.
Proof.
  eexists. split; [vm_compute; reflexivity|].
  repeat split; vm_compute; reflexivity.
Qed.

(* ================================================================= *)
(** ** The recharge system on doubles *)

(** [Math.min(4, Math.max(2, x))] is the clamp of [x] to the range from 2
    to 4. *)
Lemma clamp_min_max_double (x : F64.double) :
  F64.Math_min (F64.of_Q 4) (F64.Math_max (F64.of_Q 2) x)
  = Double.Spec.clamp x (F64.of_Q 2) (F64.of_Q 4).
Proof.
  change (F64.of_Q 2) with (S754_finite false 4503599627370496 (-51)).
  change (F64.of_Q 4) with (S754_finite false 4503599627370496 (-50)).
  set (two := S754_finite false 4503599627370496 (-51)).
  set (four := S754_finite false 4503599627370496 (-50)).
  unfold Double.Spec.clamp, F64.ltb, F64.gtb, SFltb, F64.Math_max.
  rewrite (SFcompare_antisym x two).
  destruct (SFcompare x two) as [[]|] eqn:C2; cbn [option_map CompOpp].
  - apply SFcompare_Eq_finite in C2. subst x. reflexivity.
  - reflexivity.
  - unfold F64.Math_min.
    destruct (SFcompare four x) as [[]|] eqn:C4.
    + rewrite SFcompare_antisym in C4.
      destruct (SFcompare x four) as [[]|] eqn:C4'; try discriminate C4.
      apply SFcompare_Eq_finite in C4'. subst x. reflexivity.
    + reflexivity.
    + reflexivity.
    + apply SFcompare_None in C4 as [N|N]; [discriminate N|].
      destruct x; try discriminate N. discriminate C2.
  - apply SFcompare_None in C2 as [N|N]; [|discriminate N].
    destruct x; try discriminate N. reflexivity.
Qed.

(** The clamp of a number lies between 2 and 4. *)
Lemma clamp_range (x : F64.double) :
  F64.isNaN x = false ->
  F64.leb (F64.of_Q 2) (Double.Spec.clamp x (F64.of_Q 2) (F64.of_Q 4)) = true
  /\ F64.leb (Double.Spec.clamp x (F64.of_Q 2) (F64.of_Q 4)) (F64.of_Q 4) = true.
Proof.
  change (F64.of_Q 2) with (S754_finite false 4503599627370496 (-51)).
  change (F64.of_Q 4) with (S754_finite false 4503599627370496 (-50)).
  set (two := S754_finite false 4503599627370496 (-51)).
  set (four := S754_finite false 4503599627370496 (-50)).
  intros N. unfold Double.Spec.clamp, F64.ltb, F64.gtb, SFltb.
  destruct (SFcompare x two) as [[]|] eqn:C2.
  - apply SFcompare_Eq_finite in C2. subst x. split; reflexivity.
  - split; reflexivity.
  - destruct (SFcompare four x) as [[]|] eqn:C4.
    + unfold F64.leb, SFleb. rewrite (SFcompare_antisym x two), C2.
      rewrite (SFcompare_antisym four x), C4. split; reflexivity.
    + split; reflexivity.
    + unfold F64.leb, SFleb. rewrite (SFcompare_antisym x two), C2.
      rewrite (SFcompare_antisym four x), C4. split; reflexivity.
    + apply SFcompare_None in C4 as [X|X]; [discriminate X|congruence].
  - apply SFcompare_None in C2 as [X|X]; [congruence|discriminate X].
Qed.

Lemma mul_not_NaN_finite (x y : F64.double) :
  F64.isNaN x = false -> F64.ltb F64.zero y = true -> F64.isFinite y = true ->
  F64.isNaN (F64.mul x y) = false.
Proof.
  destruct x as [sx|sx| |sx mx ex]; try discriminate;
    destruct y as [sy|[|]| |[|] my ey]; try discriminate; intros _ _ _; try reflexivity.
  unfold F64.mul, SFmul.
  pose proof (binary_round_aux_sign (xorb sx false) (Zpos (mx * my)) (ex + ey) loc_Exact
                ltac:(lia)) as S.
  destruct (binary_round_aux _ _ _ _ _ _); try reflexivity. contradiction.
Qed.

Lemma double_recharge_volume (k : Double.Coefficients) (u : Double.UserInput)
  (pot : F64.double) (c : Double.CityData) :
  Double.recharge_rechargeVolume (Double.calculateRechargeSystem k u pot c)
  = Double.Spec.rechargeVolume pot (Double.soilType u).
Proof.
  unfold Double.calculateRechargeSystem, Double.Spec.rechargeVolume, Double.Spec.rechargeFactor.
  cbn [Double.recharge_rechargeVolume]. destruct (Double.soilType u); reflexivity.
Qed.

Lemma double_recharge_depth (k : Double.Coefficients) (u : Double.UserInput)
  (pot : F64.double) (c : Double.CityData) :
  Double.depth (Double.recharge_pitDimensions (Double.calculateRechargeSystem k u pot c))
  = Double.Spec.pitDepth (Double.groundwaterDepth u).
Proof.
  unfold Double.calculateRechargeSystem, Double.Spec.pitDepth.
  cbn [Double.recharge_pitDimensions Double.depth]. apply clamp_min_max_double.
Qed.

Lemma double_recharge_side (k : Double.Coefficients) (u : Double.UserInput)
  (pot : F64.double) (c : Double.CityData) :
  let volume := Double.Spec.rechargeVolume pot (Double.soilType u) in
  let side :=
    Double.Spec.pitSide
      (F64.Math_max
         (Double.Spec.infiltrationArea pot (Double.infiltrationRates k (Double.soilType u)))
         (Double.Spec.storageArea volume (Double.Spec.pitDepth (Double.groundwaterDepth u)))) in
  Double.length (Double.recharge_pitDimensions (Double.calculateRechargeSystem k u pot c))
  = side
  /\ Double.width (Double.recharge_pitDimensions (Double.calculateRechargeSystem k u pot c))
     = side.
Proof.
  cbv zeta.
  rewrite <- (double_recharge_volume k u pot c), <- (double_recharge_depth k u pot c).
  split; reflexivity.
Qed.

(** The two recharge fields of a result in recharge mode. *)
Lemma double_result_recharge
  (cities : list Double.CityData) (k : Double.Coefficients) (u : Double.UserInput)
  (r : Double.CalculationResults) :
  Double.calculate cities k u CalculationType.recharge = JS.Return r ->
  exists c : Double.CityData,
    Double.findCityData cities (Double.location u) (Double.pincode u) = Some c
    /\ Double.rechargeVolume r
       = Some (Double.recharge_rechargeVolume
                 (Double.calculateRechargeSystem k u (Double.rainwaterPotential r) c))
    /\ Double.pitDimensions r
       = Some (Double.recharge_pitDimensions
                 (Double.calculateRechargeSystem k u (Double.rainwaterPotential r) c)).
Proof.
  intros H. open_double H c F r. exists c. repeat split; reflexivity.
Qed.

(** C8.  In recharge mode the recharge volume of the result is
    Math.round(potential / 1000 x factor) with the factor 0.7, 0.8 or 0.9 of
    the soil, the pit depth is clamp(groundwater depth x 0.3, 2, 4), and
    length and width are the side obtained from the larger of the
    infiltration area and the storage area (recharge volume x 1.2 / depth):
    its square root rounded up and floored at 3, every operation being
    rounded to double precision.  The depth lies between 2 and 4 when the
    groundwater depth is a number, and the side is at least 3 when it is a
    number. *)
Theorem recharge_system_sizing
  (cities : list Double.CityData) (k : Double.Coefficients) (u : Double.UserInput)
  (r : Double.CalculationResults) :
  Double.calculate cities k u CalculationType.recharge = JS.Return r ->
  let pot := Double.rainwaterPotential r in
  let volume := Double.Spec.rechargeVolume pot (Double.soilType u) in
  let pitDepth := Double.Spec.pitDepth (Double.groundwaterDepth u) in
  let area :=
    F64.Math_max
      (Double.Spec.infiltrationArea pot (Double.infiltrationRates k (Double.soilType u)))
      (Double.Spec.storageArea volume pitDepth) in
  let side := Double.Spec.pitSide area in
  Double.rechargeVolume r = Some volume
  /\ exists p : Double.PitDimensions,
       Double.pitDimensions r = Some p
       /\ Double.depth p = pitDepth
       /\ Double.length p = side
       /\ Double.width p = side
       /\ (F64.isNaN (Double.groundwaterDepth u) = false ->
           F64.leb (F64.of_Q 2) (Double.depth p) = true
           /\ F64.leb (Double.depth p) (F64.of_Q 4) = true)
       /\ (F64.isNaN (Double.length p) = false ->
           F64.leb (F64.of_Q 3) (Double.length p) = true).
Proof.
  intros H. cbv zeta.
  destruct (double_result_recharge _ _ _ _ H) as (c & F & V & P).
  split; [rewrite V, double_recharge_volume; reflexivity|].
  eexists. split; [exact P|].
  destruct (double_recharge_side k u (Double.rainwaterPotential r) c) as [L W].
  cbv zeta in L, W.
  split; [apply double_recharge_depth|]. split; [exact L|]. split; [exact W|]. split.
  - intros N. rewrite double_recharge_depth. unfold Double.Spec.pitDepth.
    apply clamp_range.
    apply mul_not_NaN_finite; [exact N|reflexivity|reflexivity].
  - rewrite L. unfold Double.Spec.pitSide. apply Math_max_ge_r.
Qed.

Lemma recharge_system_sizing_witness :
  exists r,
    Json.calculate Sample.cities Sample.coefficients Sample.household
      CalculationType.recharge = JS.Return r
    /\ Double.rechargeVolume r = Some (F64.of_Z 153)
    /\ exists p,
         Double.pitDimensions r = Some p
         /\ Double.length p = F64.of_Z 9
         /\ Double.width p = F64.of_Z 9
         /\ Double.depth p = F64.of_Q 2.4
         /\ F64.leb (F64.of_Q 2) (Double.depth p) = true
         /\ F64.leb (Double.depth p) (F64.of_Q 4) = true
         /\ F64.leb (F64.of_Q 3) (Double.length p) = true.
Proof.
  eexists. split; [vm_compute; reflexivity|].
  match goal with
  | |- Double.rechargeVolume ?r = _ /\ _ =>
      destruct (recharge_system_sizing
                  (map Json.cityData Sample.cities) (Json.coefficients Sample.coefficients)
                  (Json.userInput Sample.household) r)
        as (V & p & P & D & L & W & B & S); [vm_compute; reflexivity|]
  end.
  split; [vm_compute; reflexivity|].
  exists p. split; [exact P|].
  split; [rewrite L; vm_compute; reflexivity|].
  split; [rewrite W; vm_compute; reflexivity|].
  split; [rewrite D; vm_compute; reflexivity|].
  split; [apply B; reflexivity|]. split; [apply B; reflexivity|].
  apply S. rewrite L. vm_compute. reflexivity.
Defined.

(** A roof of 47 m2 over sand with the groundwater at 9 m: the depth is
    9 x 0.3 = 2.6999999999999997, the storage area 81 x 1.2 / depth is above
    36 m2, and the pit is 7 m by 7 m. *)
Example pit_of_the_sandy_plot :
  exists r p,
    Json.calculate Sample.cities Sample.coefficients Boundary.sandyPlot
      CalculationType.recharge = JS.Return r
    /\ Double.rechargeVolume r = Some (F64.of_Z 81)
    /\ Double.pitDimensions r = Some p
    /\ Double.depth p = F64.of_Q 2.6999999999999997
    /\ F64.ltb (Double.depth p) (F64.of_Q 2.7) = true
    /\ Double.length p = F64.of_Z 7
    /\ Double.width p = F64.of_Z 7.
Proof.
  eexists. eexists. split; [vm_compute; reflexivity|].
  split; [vm_compute; reflexivity|]. split; [reflexivity|].
  repeat split; vm_compute; reflexivity.
Qed.

(** A potential of 45000 liters over clay: 45 x 0.7 is 31.499999999999996
    in double precision and the recharge volume is 31 m3. *)
Example recharge_volume_rounds_the_double_product :
  Double.Spec.rechargeVolume (F64.of_Z 45000) SoilType.Clayey = F64.of_Z 31
  /\ F64.mul (F64.div (F64.of_Z 45000) (F64.of_Q 1000)) (F64.of_Q 0.7)
     = F64.of_Q 31.499999999999996.
Proof. split; vm_compute; reflexivity. Qed.

(* ================================================================= *)
(** ** Coverage over a demand of zero, on doubles *)

(** X7.  With a household demand of zero the coverage is a division by
    zero.  Over the positive zero a positive potential gives Infinity, which
    Math.min caps at 100; over the negative zero, which Math.round returns
    for a product between -0.5 and 0, it gives -Infinity; a potential of
    zero gives NaN over either zero. *)
Theorem coverage_with_zero_demand
  (cities : list Double.CityData) (k : Double.Coefficients) (u : Double.UserInput)
  (t : CalculationType.t) (r : Double.CalculationResults) :
  Double.calculate cities k u t = JS.Return r ->
  (F64.ltb F64.zero (Double.rainwaterPotential r) = true ->
   Double.householdDemand r = S754_zero false ->
   Double.coveragePercentage r = F64.of_Q 100)
  /\ (F64.ltb F64.zero (Double.rainwaterPotential r) = true ->
      Double.householdDemand r = S754_zero true ->
      Double.coveragePercentage r = S754_infinity true)
  /\ (forall s s' : bool,
        Double.rainwaterPotential r = S754_zero s ->
        Double.householdDemand r = S754_zero s' ->
        Double.coveragePercentage r = F64.NaN).
Proof.
  intros H. rewrite (double_result_coverage _ _ _ _ _ H).
  split; [|split].
  - intros P Z. apply ltb_zero_iff in P. rewrite Z.
    destruct (Double.rainwaterPotential r) as [s|[|]| |[|] m e]; try contradiction;
      reflexivity.
  - intros P Z. apply ltb_zero_iff in P. rewrite Z.
    destruct (Double.rainwaterPotential r) as [s|[|]| |[|] m e]; try contradiction;
      reflexivity.
  - intros s s' P Z. rewrite P, Z. reflexivity.
Qed.

Lemma coverage_with_zero_demand_witness :
  (exists r,
     Json.calculate Sample.cities Sample.coefficients Sample.vacant
       CalculationType.rainwater = JS.Return r
     /\ Double.householdDemand r = S754_zero false
     /\ Double.coveragePercentage r = F64.of_Q 100)
  /\ (exists r,
        Json.calculate Sample.cities Sample.coefficients Boundary.negativeDwellers
          CalculationType.rainwater = JS.Return r
        /\ Double.householdDemand r = S754_zero true
        /\ Double.coveragePercentage r = S754_infinity true).
Proof.
  split.
  - eexists. split; [vm_compute; reflexivity|]. split; [reflexivity|].
    apply (coverage_with_zero_demand
             (map Json.cityData Sample.cities) (Json.coefficients Sample.coefficients)
             (Json.userInput Sample.vacant) CalculationType.rainwater);
      vm_compute; reflexivity.
  - eexists. split; [vm_compute; reflexivity|]. split; [reflexivity|].
    apply (coverage_with_zero_demand
             (map Json.cityData Sample.cities) (Json.coefficients Sample.coefficients)
             (Json.userInput Boundary.negativeDwellers) CalculationType.rainwater);
      vm_compute; reflexivity.
Defined.

(* ================================================================= *)
(** ** The warnings of the city, on doubles *)

Lemma gtb_1000_600 (a : F64.double) :
  F64.gtb a (F64.of_Q 1000) = true -> F64.gtb a (F64.of_Q 600) = true.
Proof.
  change (F64.of_Q 1000) with (S754_finite false 8796093022208000 (-43)).
  change (F64.of_Q 600) with (S754_finite false 5277655813324800 (-43)).
  unfold F64.gtb, SFltb.
  destruct a as [s|[|]| |[|] m e]; try discriminate; try reflexivity.
  unfold SFcompare.
  destruct (-43 ?= e)%Z; try discriminate; try reflexivity.
  fold (Pos.compare 8796093022208000 m). fold (Pos.compare 5277655813324800 m).
  destruct (Pos.compare_spec 8796093022208000 m) as [E|L|G]; try discriminate.
  intros _.
  assert (Q : (5277655813324800 < m)%positive).
  { eapply Pos.lt_trans; [|exact L]. reflexivity. }
  rewrite (proj2 (Pos.compare_lt_iff _ _) Q). reflexivity.
Qed.

Lemma double_warnings_rainfallAdequacy (c : Double.CityData) (t : Tally) :
  tally_warnings (Double.rainfallAdequacy c t)
  = tally_warnings t
    ++ (if negb (F64.gtb (Double.annualRainfall c) (F64.of_Q 600))
        then ["Low rainfall area - consider supplementary water sources"%string] else []).
Proof.
  unfold Double.rainfallAdequacy.
  destruct (F64.gtb (Double.annualRainfall c) (F64.of_Q 1000)) eqn:A.
  - rewrite (gtb_1000_600 _ A). cbn [negb recommend tally_warnings].
    rewrite app_nil_r. reflexivity.
  - destruct (F64.gtb (Double.annualRainfall c) (F64.of_Q 600));
      cbn [negb recommend warn tally_warnings]; rewrite ?app_nil_r; reflexivity.
Qed.

Lemma double_warnings_roofSuitability (u : Double.UserInput) (t : Tally) :
  tally_warnings (Double.roofSuitability u t)
  = tally_warnings t
    ++ (if match Double.roofType u with RoofType.Asbestos => true | _ => false end
        then ["Asbestos roofs require regular cleaning and filtration"%string] else []).
Proof.
  unfold Double.roofSuitability.
  destruct (Double.roofType u); cbn [recommend warn tally_warnings];
    rewrite ?app_nil_r; reflexivity.
Qed.

Lemma double_warnings_soilConditions (u : Double.UserInput) (t : Tally) :
  tally_warnings (Double.soilConditions u t) = tally_warnings t.
Proof. unfold Double.soilConditions. destruct (Double.soilType u); reflexivity. Qed.

Lemma double_warnings_groundwaterBand (u : Double.UserInput) (t : Tally) :
  tally_warnings (Double.groundwaterBand u t)
  = tally_warnings t
    ++ (if negb (F64.gtb (Double.groundwaterDepth u) (F64.of_Q 3)
                 && F64.ltb (Double.groundwaterDepth u) (F64.of_Q 30))
           && F64.leb (Double.groundwaterDepth u) (F64.of_Q 3) then
          ["Shallow groundwater - ensure proper drainage to prevent waterlogging"%string]
        else [])
    ++ (if negb (F64.gtb (Double.groundwaterDepth u) (F64.of_Q 3)
                 && F64.ltb (Double.groundwaterDepth u) (F64.of_Q 30))
           && negb (F64.leb (Double.groundwaterDepth u) (F64.of_Q 3)) then
          ["Deep groundwater - recharge benefits may take longer to realize"%string]
        else []).
Proof.
  unfold Double.groundwaterBand.
  destruct (F64.gtb (Double.groundwaterDepth u) (F64.of_Q 3)
            && F64.ltb (Double.groundwaterDepth u) (F64.of_Q 30)),
           (F64.leb (Double.groundwaterDepth u) (F64.of_Q 3));
    cbn [negb andb recommend warn tally_warnings];
    rewrite <- ?app_assoc, ?app_nil_r; reflexivity.
Qed.

Lemma double_warnings_coverageAnalysis (pot hd : F64.double) (t : Tally) :
  tally_warnings (Double.coverageAnalysis pot hd t) = tally_warnings t.
Proof.
  unfold Double.coverageAnalysis. cbv zeta.
  repeat match goal with
         | |- context [if ?b then _ else _] => destruct b
         end; reflexivity.
Qed.

Lemma double_warnings_environmentalFactors (u : Double.UserInput) (t : Tally) :
  tally_warnings (Double.environmentalFactors u t)
  = tally_warnings t
    ++ (if Double.birdNesting u then
          ["Bird nesting detected - install mesh covers and regular cleaning required"%string]
        else [])
    ++ (if match Double.environment u with Environment.Industrial => true | _ => false end
        then
          ["Industrial area - test water quality regularly and use appropriate filtration"%string]
        else []).
Proof.
  unfold Double.environmentalFactors, when. cbv zeta.
  destruct (Double.birdNesting u), (Double.environment u); cbn [warn tally_warnings];
    rewrite <- ?app_assoc, ?app_nil_r; reflexivity.
Qed.

Lemma double_warnings_monsoonDependency (c : Double.CityData) (t : Tally) :
  tally_warnings (Double.monsoonDependency c t)
  = tally_warnings t
    ++ (if F64.gtb
             (F64.div (Double.Spec.total (JS.slice 5 9 (Double.monthlyRainfall c)))
                      (Double.annualRainfall c))
             (F64.of_Q 0.7)
        then ["High monsoon dependency - 70%+ rainfall in 4 months"%string] else []).
Proof.
  unfold Double.monsoonDependency, when, Double.Spec.total. cbv zeta.
  match goal with
  | |- context [if ?b then _ else _] => destruct b
  end; cbn [warn tally_warnings]; rewrite ?app_nil_r; reflexivity.
Qed.

Lemma double_warnings_standardRecommendations (u : Double.UserInput) (t : Tally) :
  tally_warnings (Double.standardRecommendations u t) = tally_warnings t.
Proof.
  unfold Double.standardRecommendations, when. cbv zeta.
  destruct (Double.purpose u), (Double.hasOpenSpace u); reflexivity.
Qed.

(** The warnings of [calculateFeasibility], in the order they are pushed. *)
Lemma double_warnings_feasibilityTally (u : Double.UserInput) (c : Double.CityData)
  (pot hd : F64.double) :
  tally_warnings (Double.feasibilityTally u c pot hd)
  = (if negb (F64.gtb (Double.annualRainfall c) (F64.of_Q 600))
     then ["Low rainfall area - consider supplementary water sources"%string] else [])
    ++ (if match Double.roofType u with RoofType.Asbestos => true | _ => false end
        then ["Asbestos roofs require regular cleaning and filtration"%string] else [])
    ++ (if negb (F64.gtb (Double.groundwaterDepth u) (F64.of_Q 3)
                 && F64.ltb (Double.groundwaterDepth u) (F64.of_Q 30))
           && F64.leb (Double.groundwaterDepth u) (F64.of_Q 3) then
          ["Shallow groundwater - ensure proper drainage to prevent waterlogging"%string]
        else [])
    ++ (if negb (F64.gtb (Double.groundwaterDepth u) (F64.of_Q 3)
                 && F64.ltb (Double.groundwaterDepth u) (F64.of_Q 30))
           && negb (F64.leb (Double.groundwaterDepth u) (F64.of_Q 3)) then
          ["Deep groundwater - recharge benefits may take longer to realize"%string]
        else [])
    ++ (if Double.birdNesting u then
          ["Bird nesting detected - install mesh covers and regular cleaning required"%string]
        else [])
    ++ (if match Double.environment u with Environment.Industrial => true | _ => false end
        then
          ["Industrial area - test water quality regularly and use appropriate filtration"%string]
        else [])
    ++ (if F64.gtb
             (F64.div (Double.Spec.total (JS.slice 5 9 (Double.monthlyRainfall c)))
                      (Double.annualRainfall c))
             (F64.of_Q 0.7)
        then ["High monsoon dependency - 70%+ rainfall in 4 months"%string] else []).
Proof.
  unfold Double.feasibilityTally. cbv zeta.
  rewrite double_warnings_standardRecommendations, double_warnings_monsoonDependency,
    double_warnings_environmentalFactors, double_warnings_coverageAnalysis,
    double_warnings_groundwaterBand, double_warnings_soilConditions,
    double_warnings_roofSuitability, double_warnings_rainfallAdequacy.
  cbn [tally_warnings]. rewrite <- !app_assoc. reflexivity.
Qed.

Lemma double_result_warnings
  (cities : list Double.CityData) (k : Double.Coefficients) (u : Double.UserInput)
  (t : CalculationType.t) (r : Double.CalculationResults) :
  Double.calculate cities k u t = JS.Return r ->
  exists c,
    Double.findCityData cities (Double.location u) (Double.pincode u) = Some c
    /\ Double.warnings r
       = tally_warnings
           (Double.feasibilityTally u c (Double.rainwaterPotential r)
              (Double.householdDemand r)).
Proof.
  intros H. open_double H c F r. exists c. destruct t; repeat split; reflexivity.
Qed.

(** X13.  For the city record that was resolved, the low-rainfall warning is
    in the result exactly when the annual rainfall is not above 600 mm, and
    the monsoon warning exactly when the rainfall of the entries 5 to 8
    (June to September of a 12-month table), added up in their order and
    divided by the annual rainfall in double precision, is above the double
    0.7. *)
Theorem warnings_follow_the_city
  (cities : list Double.CityData) (k : Double.Coefficients) (u : Double.UserInput)
  (t : CalculationType.t) (r : Double.CalculationResults) :
  Double.calculate cities k u t = JS.Return r ->
  exists c : Double.CityData,
    Double.findCityData cities (Double.location u) (Double.pincode u) = Some c
    /\ (In "Low rainfall area - consider supplementary water sources"%string
           (Double.warnings r)
        <-> F64.gtb (Double.annualRainfall c) (F64.of_Q 600) = false)
    /\ (In "High monsoon dependency - 70%+ rainfall in 4 months"%string
           (Double.warnings r)
        <-> F64.gtb
              (F64.div (Double.Spec.total (JS.slice 5 9 (Double.monthlyRainfall c)))
                       (Double.annualRainfall c))
              (F64.of_Q 0.7) = true)
    /\ (forall jan feb mar apr may jun jul aug sep oct nov dec : F64.double,
          Double.monthlyRainfall c
          = [jan; feb; mar; apr; may; jun; jul; aug; sep; oct; nov; dec] ->
          Double.Spec.total (JS.slice 5 9 (Double.monthlyRainfall c))
          = F64.add (F64.add (F64.add (F64.add F64.zero jun) jul) aug) sep).
Proof.
  intros H. destruct (double_result_warnings _ _ _ _ _ H) as (c & F & W).
  exists c. split; [exact F|].
  rewrite W, double_warnings_feasibilityTally. clear W H.
  split; [|split]; [decide_messages|decide_messages|].
  - rewrite negb_true_iff. intuition congruence.
  - intuition congruence.
  - intros jan feb mar apr may jun jul aug sep oct nov dec E. rewrite E. reflexivity.
Qed.

Lemma warnings_follow_the_city_witness :
  exists r,
    Json.calculate [Boundary.monsoonCity] Sample.coefficients Boundary.couple
      CalculationType.rainwater = JS.Return r
    /\ In "High monsoon dependency - 70%+ rainfall in 4 months"%string (Double.warnings r)
    /\ F64.div
         (F64.add (F64.add (F64.add (F64.add F64.zero (F64.of_Q 83.5)) (F64.of_Q 313.3))
                           (F64.of_Q 222.4)) (F64.of_Q 316.0))
         (F64.of_Q 1336)
       = F64.of_Q 0.7000000000000001.
Proof.
  eexists. split; [vm_compute; reflexivity|].
  split; [|vm_compute; reflexivity].
  destruct (warnings_follow_the_city
              (map Json.cityData [Boundary.monsoonCity])
              (Json.coefficients Sample.coefficients)
              (Json.userInput Boundary.couple) CalculationType.rainwater _ eq_refl)
    as (c & F & _ & M & _).
  apply M. vm_compute in F. injection F as <-. vm_compute. reflexivity.
Defined.

(* ================================================================= *)
(** ** Results of a request in range, on doubles *)

(** X21.  For an input with at least one dweller and a roof area that is
    neither negative nor infinite, over tables whose rainfall figures and
    base cost are not negative, whose runoff coefficients, budget
    multipliers and municipal rate are positive and whose daily consumption
    is at least one liter, the potential, the monthly values, the first
    flush, the three cost tiers and the savings of the result are numbers
    that are not negative, the demand is at least 1 and the tank capacity
    lies between 2000 and 15000: none of them is NaN. *)
Theorem request_in_range_gives_numbers
  (cities : list Double.CityData) (k : Double.Coefficients) (u : Double.UserInput)
  (t : CalculationType.t) (r : Double.CalculationResults) :
  Double.atLeastOne (Double.dwellers u) = true ->
  Double.nonNegative (Double.roofArea u) = true ->
  Double.consumptionAtLeastOne k = true ->
  Double.runoffPositive k = true ->
  Double.rainfallNonNegative cities = true ->
  Double.costsInRange k = true ->
  Double.calculate cities k u t = JS.Return r ->
  F64.leb F64.zero (Double.rainwaterPotential r) = true
  /\ Forall (fun m => F64.leb F64.zero m = true) (Double.monthlyPotential r)
  /\ F64.leb (F64.of_Q 1) (Double.householdDemand r) = true
  /\ F64.leb F64.zero (Double.firstFlush r) = true
  /\ F64.leb (F64.of_Q 2000) (Double.tankCapacity r) = true
  /\ F64.leb (Double.tankCapacity r) (F64.of_Q 15000) = true
  /\ F64.leb F64.zero (Double.low (Double.systemCost r)) = true
  /\ F64.leb F64.zero (Double.medium (Double.systemCost r)) = true
  /\ F64.leb F64.zero (Double.high (Double.systemCost r)) = true
  /\ F64.leb F64.zero (Double.annualSavings r) = true.
Proof.
  intros D A C K R Co H.
  destruct (double_result_costs _ _ _ _ _ H) as (Sc & Sa & _ & Cap).
  destruct (double_result_potential _ _ _ _ _ H) as (c & F & M & P & Hd).
  assert (Rc : Forall (fun x => Double.nonNegative x = true) (Double.monthlyRainfall c)).
  { apply (rainfallNonNegative_at cities); [exact R|].
    apply (double_findCityData_In _ _ _ _ F). }
  assert (Pn : F64.leb F64.zero (Double.rainwaterPotential r) = true).
  { rewrite P. apply double_potential_nonneg; assumption. }
  pose proof (double_demand_from_one k u D C) as H1. rewrite <- Hd in H1.
  assert (Hn : F64.leb F64.zero (Double.householdDemand r) = true).
  { pose proof (from_one_positive _ H1) as Q.
    apply ltb_zero_iff in Q. apply leb_zero_iff.
    destruct (Double.householdDemand r) as [s|[|]| |[|] m e]; try contradiction; exact I. }
  destruct (double_capacity_range (Double.rainwaterPotential r) (Double.householdDemand r)
              (Double.monthlyPotential r) Pn Hn) as [C1 C2].
  rewrite <- Cap in C1, C2.
  assert (Cn : F64.leb F64.zero (Double.tankCapacity r) = true).
  { rewrite Cap. apply double_capacity_nonneg; assumption. }
  pose proof (double_costs_tier_nonneg k u (Double.tankCapacity r)
                (CalculationType.is_recharge t) A Co Cn) as T.
  cbv zeta in T. rewrite <- Sc in T. destruct T as (T1 & T2 & T3).
  split; [exact Pn|]. split.
  { rewrite M, double_potential_monthly. apply Forall_map.
    eapply Forall_impl; [|exact Rc]. intros x X.
    apply monthPotential_nonneg; [exact A|exact X|apply runoffPositive_at; exact K]. }
  split; [apply from_one_iff; exact H1|]. split.
  { assert (E : Double.firstFlush r
                = F64.Math_round (F64.mul (Double.roofArea u) (F64.of_Q 2))).
    { clear - H. open_double H c F r. destruct t; reflexivity. }
    rewrite E. apply nonNegative_iff in A as [A _].
    apply Math_round_nonneg_double, mul_nonneg_positive; [exact A|reflexivity|reflexivity]. }
  repeat (split; [assumption|]).
  rewrite Sa, double_costs_annualSavings. apply double_savings_nonneg.
  - rewrite <- Hd. exact Hn.
  - exact Cn.
  - apply costsInRange_iff in Co. apply Co.
Qed.

Lemma request_in_range_gives_numbers_witness :
  exists r,
    Json.calculate Sample.cities Sample.coefficients Boundary.huge
      CalculationType.recharge = JS.Return r
    /\ Double.rainwaterPotential r = F64.infinity
    /\ Double.householdDemand r = F64.infinity
    /\ Double.coveragePercentage r = F64.NaN
    /\ F64.leb (F64.of_Q 2000) (Double.tankCapacity r) = true
    /\ F64.leb (Double.tankCapacity r) (F64.of_Q 15000) = true
    /\ F64.leb F64.zero (Double.annualSavings r) = true.
Proof.
  eexists. split; [vm_compute; reflexivity|].
  match goal with
  | |- Double.rainwaterPotential ?r = _ /\ _ =>
      destruct (request_in_range_gives_numbers
                  (map Json.cityData Sample.cities) (Json.coefficients Sample.coefficients)
                  (Json.userInput Boundary.huge) CalculationType.recharge r
                  eq_refl eq_refl eq_refl eq_refl eq_refl eq_refl)
        as (_ & _ & _ & _ & C1 & C2 & _ & _ & _ & S); [vm_compute; reflexivity|]
  end.
  repeat split; try (vm_compute; reflexivity); assumption.
Defined.
